(** * IHG pet-friendly hotel scraper: a shallow embedding of [ihg_pipeline.py]

    The pipeline drives a browser, reads hotel cards and detail pages, and
    keeps a resumable store of hotel records.  The browser is an external
    collaborator: every function below takes what the browser showed (element
    texts, hrefs, page text) as an argument and computes what the Python code
    computes from it.

    Conventions.
    - A Python [str] is a [string]: a sequence of code points, each a
      number.  Lengths, positions and slices count code points, as in
      Python.  The classes of characters the code depends on (white space,
      decimal digits, line boundaries, lowercase forms, cased and
      case-ignorable characters) are those of the Unicode character
      database, version 14.0, as Python 3.11 has them.
    - A string literal of this file stands for the code points of its
      UTF-8 bytes.
    - A Python value is a [pyval]; a Python [dict] is an insertion-ordered
      association list ([PyDict]), since iteration order is observable in the
      output files.
    - The faults the source handles one by one are part of what the browser
      showed: an element that is not there is an [option], a detail page that
      does not open is a flag, a city whose scraping raised is [None].  An
      element that is there can be read.
    - The constants [OVERWRITE] and [RUN_ONLY_ONE_CITY] are arguments.
    - [urlparse] and [json.loads] of the Python library are parameters of the
      functions that call them. *)

From Stdlib Require Import NArith Bool Arith Lia.
From Stdlib Require Import Strings.Byte.
From stdpp Require Import base decidable option numbers list.

(* ===================================================================== *)
(** * Strings of code points *)
(* ===================================================================== *)

(** A code point. *)
Definition char : Type := N.

(** A Python [str]. *)
Inductive string : Type :=
| EmptyString
| String (c : char) (s : string).

#[global] Instance string_eq_dec : EqDecision string.
Proof. solve_decision. Defined.

(** String literals are read as UTF-8. *)
Module Utf8.

Definition is_cont (b : byte) : bool :=
  (128 <=? Byte.to_N b)%N && (Byte.to_N b <? 192)%N.

Definition low6 (b : byte) : N := (Byte.to_N b - 128)%N.

(** The code points a sequence of UTF-8 bytes stands for. *)
Fixpoint decode (fuel : nat) (bs : list byte) : option string :=
  match fuel with
  | O => match bs with [] => Some EmptyString | _ => None end
  | S fuel' =>
      match bs with
      | [] => Some EmptyString
      | b0 :: r0 =>
          let n0 := Byte.to_N b0 in
          if (n0 <? 128)%N then String n0 <$> decode fuel' r0
          else if (n0 <? 192)%N then None
          else if (n0 <? 224)%N then
            match r0 with
            | b1 :: r1 =>
                if is_cont b1
                then String ((n0 - 192) * 64 + low6 b1)%N <$> decode fuel' r1
                else None
            | _ => None
            end
          else if (n0 <? 240)%N then
            match r0 with
            | b1 :: b2 :: r2 =>
                if is_cont b1 && is_cont b2
                then String ((n0 - 224) * 4096 + low6 b1 * 64 + low6 b2)%N
                       <$> decode fuel' r2
                else None
            | _ => None
            end
          else
            match r0 with
            | b1 :: b2 :: b3 :: r3 =>
                if is_cont b1 && is_cont b2 && is_cont b3
                then String ((n0 - 240) * 262144 + low6 b1 * 4096
                             + low6 b2 * 64 + low6 b3)%N
                       <$> decode fuel' r3
                else None
            | _ => None
            end
      end
  end.

Definition of_bytes (bs : list byte) : option string := decode (length bs) bs.

Definition to_byte (n : N) : byte := default x00 (Byte.of_N n).

Definition encode_char (c : char) : option (list byte) :=
  if (c <? 128)%N then Some [to_byte c]
  else if (c <? 2048)%N then
    Some [to_byte (192 + c / 64); to_byte (128 + c mod 64)]%N
  else if (c <? 65536)%N then
    Some [to_byte (224 + c / 4096); to_byte (128 + (c / 64) mod 64);
          to_byte (128 + c mod 64)]%N
  else if (c <? 1114112)%N then
    Some [to_byte (240 + c / 262144); to_byte (128 + (c / 4096) mod 64);
          to_byte (128 + (c / 64) mod 64); to_byte (128 + c mod 64)]%N
  else None.

Fixpoint to_bytes (s : string) : option (list byte) :=
  match s with
  | EmptyString => Some []
  | String c s' =>
      match encode_char c, to_bytes s' with
      | Some bs, Some rest => Some (bs ++ rest)
      | _, _ => None
      end
  end.

Definition char_of_bytes (bs : list byte) : option N :=
  match of_bytes bs with
  | Some (String c EmptyString) => Some c
  | _ => None
  end.

End Utf8.

Declare Scope str_scope.
Delimit Scope str_scope with str.
Bind Scope str_scope with string.
String Notation string Utf8.of_bytes Utf8.to_bytes : str_scope.

Declare Scope uchar_scope.
Delimit Scope uchar_scope with char.
Bind Scope uchar_scope with char.
String Notation N Utf8.char_of_bytes Utf8.encode_char : uchar_scope.

Arguments String c%_char s%_str.

Local Open Scope str_scope.
Local Open Scope list_scope.

Module String.

(** [len(s)] *)
Fixpoint length (s : string) : nat :=
  match s with
  | EmptyString => 0
  | String _ s' => S (length s')
  end.

(** [s + t] *)
Fixpoint append (s t : string) : string :=
  match s with
  | EmptyString => t
  | String c s' => String c (append s' t)
  end.

(** [s == t] *)
Definition eqb (s t : string) : bool := bool_decide (s = t).

End String.

Infix "+:+" := String.append (at level 60, right associativity) : str_scope.

(* ===================================================================== *)
(** * Python string operations *)
(* ===================================================================== *)

Module PyStr.

Definition code (c : char) : N := c.

(** The ASCII digits, lowercase and uppercase letters. *)
Definition is_digit09 (c : char) : bool :=
  (48 <=? code c)%N && (code c <=? 57)%N.

Definition is_upper (c : char) : bool :=
  (65 <=? code c)%N && (code c <=? 90)%N.

Definition is_lower (c : char) : bool :=
  (97 <=? code c)%N && (code c <=? 122)%N.

(** The digit zero of every script with decimal digits (general category
    [Nd]); the other nine digits of a script follow its zero. *)
Definition decimal_zeros : list N :=
  [ 48; 1632; 1776; 1984; 2406; 2534; 2662; 2790; 2918; 3046; 3174; 3302;
    3430; 3558; 3664; 3792; 3872; 4160; 4240; 6112; 6160; 6470; 6608;
    6784; 6800; 6992; 7088; 7232; 7248; 42528; 43216; 43264; 43472;
    43504; 43600; 44016; 65296; 66720; 68912; 69734; 69872; 69942; 70096;
    70384; 70736; 70864; 71248; 71360; 71472; 71904; 72016; 72784; 73040;
    73120; 92768; 92864; 93008; 120782; 120792; 120802; 120812; 120822;
    123200; 123632; 125264; 130032 ]%N.

(** What [\d] of the [re] module matches in a [str] pattern: a decimal
    digit of any script. *)
Definition is_digit (c : char) : bool :=
  existsb (fun z => (z <=? code c)%N && (code c <? z + 10)%N) decimal_zeros.

(** [c.isspace()], which is also what [str.strip()] removes. *)
Definition is_space (c : char) : bool :=
  bool_decide
    (code c ∈ [ 9; 10; 11; 12; 13; 28; 29; 30; 31; 32; 133; 160; 5760;
                8192; 8193; 8194; 8195; 8196; 8197; 8198; 8199; 8200; 8201;
                8202; 8232; 8233; 8239; 8287; 12288 ]%N).

(** The lowercase mappings: an entry [(lo, hi, step, target)] sends the
    code points [lo], [lo + step], ... up to [hi] to [target],
    [target + step], ... *)
Definition lower_table : list (N * N * N * N) :=
  [ (65, 90, 1, 97); (192, 214, 1, 224); (216, 222, 1, 248);
    (256, 302, 2, 257); (304, 304, 1, 105); (306, 310, 2, 307);
    (313, 327, 2, 314); (330, 374, 2, 331); (376, 376, 1, 255);
    (377, 381, 2, 378); (385, 385, 1, 595); (386, 388, 2, 387);
    (390, 390, 1, 596); (391, 391, 1, 392); (393, 394, 1, 598);
    (395, 395, 1, 396); (398, 398, 1, 477); (399, 399, 1, 601);
    (400, 400, 1, 603); (401, 401, 1, 402); (403, 403, 1, 608);
    (404, 404, 1, 611); (406, 406, 1, 617); (407, 407, 1, 616);
    (408, 408, 1, 409); (412, 412, 1, 623); (413, 413, 1, 626);
    (415, 415, 1, 629); (416, 420, 2, 417); (422, 422, 1, 640);
    (423, 423, 1, 424); (425, 425, 1, 643); (428, 428, 1, 429);
    (430, 430, 1, 648); (431, 431, 1, 432); (433, 434, 1, 650);
    (435, 437, 2, 436); (439, 439, 1, 658); (440, 440, 1, 441);
    (444, 444, 1, 445); (452, 452, 1, 454); (453, 453, 1, 454);
    (455, 455, 1, 457); (456, 456, 1, 457); (458, 458, 1, 460);
    (459, 475, 2, 460); (478, 494, 2, 479); (497, 497, 1, 499);
    (498, 500, 2, 499); (502, 502, 1, 405); (503, 503, 1, 447);
    (504, 542, 2, 505); (544, 544, 1, 414); (546, 562, 2, 547);
    (570, 570, 1, 11365); (571, 571, 1, 572); (573, 573, 1, 410);
    (574, 574, 1, 11366); (577, 577, 1, 578); (579, 579, 1, 384);
    (580, 580, 1, 649); (581, 581, 1, 652); (582, 590, 2, 583);
    (880, 882, 2, 881); (886, 886, 1, 887); (895, 895, 1, 1011);
    (902, 902, 1, 940); (904, 906, 1, 941); (908, 908, 1, 972);
    (910, 911, 1, 973); (913, 929, 1, 945); (931, 939, 1, 963);
    (975, 975, 1, 983); (984, 1006, 2, 985); (1012, 1012, 1, 952);
    (1015, 1015, 1, 1016); (1017, 1017, 1, 1010); (1018, 1018, 1, 1019);
    (1021, 1023, 1, 891); (1024, 1039, 1, 1104); (1040, 1071, 1, 1072);
    (1120, 1152, 2, 1121); (1162, 1214, 2, 1163); (1216, 1216, 1, 1231);
    (1217, 1229, 2, 1218); (1232, 1326, 2, 1233); (1329, 1366, 1, 1377);
    (4256, 4293, 1, 11520); (4295, 4295, 1, 11559); (4301, 4301, 1, 11565);
    (5024, 5103, 1, 43888); (5104, 5109, 1, 5112); (7312, 7354, 1, 4304);
    (7357, 7359, 1, 4349); (7680, 7828, 2, 7681); (7838, 7838, 1, 223);
    (7840, 7934, 2, 7841); (7944, 7951, 1, 7936); (7960, 7965, 1, 7952);
    (7976, 7983, 1, 7968); (7992, 7999, 1, 7984); (8008, 8013, 1, 8000);
    (8025, 8031, 2, 8017); (8040, 8047, 1, 8032); (8072, 8079, 1, 8064);
    (8088, 8095, 1, 8080); (8104, 8111, 1, 8096); (8120, 8121, 1, 8112);
    (8122, 8123, 1, 8048); (8124, 8124, 1, 8115); (8136, 8139, 1, 8050);
    (8140, 8140, 1, 8131); (8152, 8153, 1, 8144); (8154, 8155, 1, 8054);
    (8168, 8169, 1, 8160); (8170, 8171, 1, 8058); (8172, 8172, 1, 8165);
    (8184, 8185, 1, 8056); (8186, 8187, 1, 8060); (8188, 8188, 1, 8179);
    (8486, 8486, 1, 969); (8490, 8490, 1, 107); (8491, 8491, 1, 229);
    (8498, 8498, 1, 8526); (8544, 8559, 1, 8560); (8579, 8579, 1, 8580);
    (9398, 9423, 1, 9424); (11264, 11311, 1, 11312); (11360, 11360, 1, 11361);
    (11362, 11362, 1, 619); (11363, 11363, 1, 7549); (11364, 11364, 1, 637);
    (11367, 11371, 2, 11368); (11373, 11373, 1, 593); (11374, 11374, 1, 625);
    (11375, 11375, 1, 592); (11376, 11376, 1, 594); (11378, 11378, 1, 11379);
    (11381, 11381, 1, 11382); (11390, 11391, 1, 575); (11392, 11490, 2, 11393);
    (11499, 11501, 2, 11500); (11506, 11506, 1, 11507); (42560, 42604, 2, 42561);
    (42624, 42650, 2, 42625); (42786, 42798, 2, 42787); (42802, 42862, 2, 42803);
    (42873, 42875, 2, 42874); (42877, 42877, 1, 7545); (42878, 42886, 2, 42879);
    (42891, 42891, 1, 42892); (42893, 42893, 1, 613); (42896, 42898, 2, 42897);
    (42902, 42920, 2, 42903); (42922, 42922, 1, 614); (42923, 42923, 1, 604);
    (42924, 42924, 1, 609); (42925, 42925, 1, 620); (42926, 42926, 1, 618);
    (42928, 42928, 1, 670); (42929, 42929, 1, 647); (42930, 42930, 1, 669);
    (42931, 42931, 1, 43859); (42932, 42946, 2, 42933); (42948, 42948, 1, 42900);
    (42949, 42949, 1, 642); (42950, 42950, 1, 7566); (42951, 42953, 2, 42952);
    (42960, 42960, 1, 42961); (42966, 42968, 2, 42967); (42997, 42997, 1, 42998);
    (65313, 65338, 1, 65345); (66560, 66599, 1, 66600); (66736, 66771, 1, 66776);
    (66928, 66938, 1, 66967); (66940, 66954, 1, 66979); (66956, 66962, 1, 66995);
    (66964, 66965, 1, 67003); (68736, 68786, 1, 68800); (71840, 71871, 1, 71872);
    (93760, 93791, 1, 93792); (125184, 125217, 1, 125218) ]%N.

Fixpoint lower_in (table : list (N * N * N * N)) (c : char) : char :=
  match table with
  | [] => c
  | (lo, hi, step, target) :: rest =>
      if (lo <=? c)%N && (c <=? hi)%N && ((c - lo) mod step =? 0)%N
      then (target + (c - lo))%N
      else lower_in rest c
  end.

Definition lower_char (c : char) : char := lower_in lower_table c.

Definition in_ranges (ranges : list (N * N)) (c : char) : bool :=
  existsb (fun r => (fst r <=? code c)%N && (code c <=? snd r)%N) ranges.

(** The characters with the property Case_Ignorable, as ranges. *)
Definition case_ignorable_ranges : list (N * N) :=
  [ (39, 39); (46, 46); (58, 58); (94, 94); (96, 96); (168, 168); (173, 173);
    (175, 175); (180, 180); (183, 184); (688, 879); (884, 885); (890, 890);
    (900, 901); (903, 903); (1155, 1161); (1369, 1369); (1375, 1375);
    (1425, 1469); (1471, 1471); (1473, 1474); (1476, 1477); (1479, 1479);
    (1524, 1524); (1536, 1541); (1552, 1562); (1564, 1564); (1600, 1600);
    (1611, 1631); (1648, 1648); (1750, 1757); (1759, 1768); (1770, 1773);
    (1807, 1807); (1809, 1809); (1840, 1866); (1958, 1968); (2027, 2037);
    (2042, 2042); (2045, 2045); (2070, 2093); (2137, 2139); (2184, 2184);
    (2192, 2193); (2200, 2207); (2249, 2306); (2362, 2362); (2364, 2364);
    (2369, 2376); (2381, 2381); (2385, 2391); (2402, 2403); (2417, 2417);
    (2433, 2433); (2492, 2492); (2497, 2500); (2509, 2509); (2530, 2531);
    (2558, 2558); (2561, 2562); (2620, 2620); (2625, 2626); (2631, 2632);
    (2635, 2637); (2641, 2641); (2672, 2673); (2677, 2677); (2689, 2690);
    (2748, 2748); (2753, 2757); (2759, 2760); (2765, 2765); (2786, 2787);
    (2810, 2815); (2817, 2817); (2876, 2876); (2879, 2879); (2881, 2884);
    (2893, 2893); (2901, 2902); (2914, 2915); (2946, 2946); (3008, 3008);
    (3021, 3021); (3072, 3072); (3076, 3076); (3132, 3132); (3134, 3136);
    (3142, 3144); (3146, 3149); (3157, 3158); (3170, 3171); (3201, 3201);
    (3260, 3260); (3263, 3263); (3270, 3270); (3276, 3277); (3298, 3299);
    (3328, 3329); (3387, 3388); (3393, 3396); (3405, 3405); (3426, 3427);
    (3457, 3457); (3530, 3530); (3538, 3540); (3542, 3542); (3633, 3633);
    (3636, 3642); (3654, 3662); (3761, 3761); (3764, 3772); (3782, 3782);
    (3784, 3789); (3864, 3865); (3893, 3893); (3895, 3895); (3897, 3897);
    (3953, 3966); (3968, 3972); (3974, 3975); (3981, 3991); (3993, 4028);
    (4038, 4038); (4141, 4144); (4146, 4151); (4153, 4154); (4157, 4158);
    (4184, 4185); (4190, 4192); (4209, 4212); (4226, 4226); (4229, 4230);
    (4237, 4237); (4253, 4253); (4348, 4348); (4957, 4959); (5906, 5908);
    (5938, 5939); (5970, 5971); (6002, 6003); (6068, 6069); (6071, 6077);
    (6086, 6086); (6089, 6099); (6103, 6103); (6109, 6109); (6155, 6159);
    (6211, 6211); (6277, 6278); (6313, 6313); (6432, 6434); (6439, 6440);
    (6450, 6450); (6457, 6459); (6679, 6680); (6683, 6683); (6742, 6742);
    (6744, 6750); (6752, 6752); (6754, 6754); (6757, 6764); (6771, 6780);
    (6783, 6783); (6823, 6823); (6832, 6862); (6912, 6915); (6964, 6964);
    (6966, 6970); (6972, 6972); (6978, 6978); (7019, 7027); (7040, 7041);
    (7074, 7077); (7080, 7081); (7083, 7085); (7142, 7142); (7144, 7145);
    (7149, 7149); (7151, 7153); (7212, 7219); (7222, 7223); (7288, 7293);
    (7376, 7378); (7380, 7392); (7394, 7400); (7405, 7405); (7412, 7412);
    (7416, 7417); (7468, 7530); (7544, 7544); (7579, 7679); (8125, 8125);
    (8127, 8129); (8141, 8143); (8157, 8159); (8173, 8175); (8189, 8190);
    (8203, 8207); (8216, 8217); (8228, 8228); (8231, 8231); (8234, 8238);
    (8288, 8292); (8294, 8303); (8305, 8305); (8319, 8319); (8336, 8348);
    (8400, 8432); (11388, 11389); (11503, 11505); (11631, 11631);
    (11647, 11647); (11744, 11775); (11823, 11823); (12293, 12293);
    (12330, 12333); (12337, 12341); (12347, 12347); (12441, 12446);
    (12540, 12542); (40981, 40981); (42232, 42237); (42508, 42508);
    (42607, 42610); (42612, 42621); (42623, 42623); (42652, 42655);
    (42736, 42737); (42752, 42785); (42864, 42864); (42888, 42890);
    (42994, 42996); (43000, 43001); (43010, 43010); (43014, 43014);
    (43019, 43019); (43045, 43046); (43052, 43052); (43204, 43205);
    (43232, 43249); (43263, 43263); (43302, 43309); (43335, 43345);
    (43392, 43394); (43443, 43443); (43446, 43449); (43452, 43453);
    (43471, 43471); (43493, 43494); (43561, 43566); (43569, 43570);
    (43573, 43574); (43587, 43587); (43596, 43596); (43632, 43632);
    (43644, 43644); (43696, 43696); (43698, 43700); (43703, 43704);
    (43710, 43711); (43713, 43713); (43741, 43741); (43756, 43757);
    (43763, 43764); (43766, 43766); (43867, 43871); (43881, 43883);
    (44005, 44005); (44008, 44008); (44013, 44013); (64286, 64286);
    (64434, 64450); (65024, 65039); (65043, 65043); (65056, 65071);
    (65106, 65106); (65109, 65109); (65279, 65279); (65287, 65287);
    (65294, 65294); (65306, 65306); (65342, 65342); (65344, 65344);
    (65392, 65392); (65438, 65439); (65507, 65507); (65529, 65531);
    (66045, 66045); (66272, 66272); (66422, 66426); (67456, 67461);
    (67463, 67504); (67506, 67514); (68097, 68099); (68101, 68102);
    (68108, 68111); (68152, 68154); (68159, 68159); (68325, 68326);
    (68900, 68903); (69291, 69292); (69446, 69456); (69506, 69509);
    (69633, 69633); (69688, 69702); (69744, 69744); (69747, 69748);
    (69759, 69761); (69811, 69814); (69817, 69818); (69821, 69821);
    (69826, 69826); (69837, 69837); (69888, 69890); (69927, 69931);
    (69933, 69940); (70003, 70003); (70016, 70017); (70070, 70078);
    (70089, 70092); (70095, 70095); (70191, 70193); (70196, 70196);
    (70198, 70199); (70206, 70206); (70367, 70367); (70371, 70378);
    (70400, 70401); (70459, 70460); (70464, 70464); (70502, 70508);
    (70512, 70516); (70712, 70719); (70722, 70724); (70726, 70726);
    (70750, 70750); (70835, 70840); (70842, 70842); (70847, 70848);
    (70850, 70851); (71090, 71093); (71100, 71101); (71103, 71104);
    (71132, 71133); (71219, 71226); (71229, 71229); (71231, 71232);
    (71339, 71339); (71341, 71341); (71344, 71349); (71351, 71351);
    (71453, 71455); (71458, 71461); (71463, 71467); (71727, 71735);
    (71737, 71738); (71995, 71996); (71998, 71998); (72003, 72003);
    (72148, 72151); (72154, 72155); (72160, 72160); (72193, 72202);
    (72243, 72248); (72251, 72254); (72263, 72263); (72273, 72278);
    (72281, 72283); (72330, 72342); (72344, 72345); (72752, 72758);
    (72760, 72765); (72767, 72767); (72850, 72871); (72874, 72880);
    (72882, 72883); (72885, 72886); (73009, 73014); (73018, 73018);
    (73020, 73021); (73023, 73029); (73031, 73031); (73104, 73105);
    (73109, 73109); (73111, 73111); (73459, 73460); (78896, 78904);
    (92912, 92916); (92976, 92982); (92992, 92995); (94031, 94031);
    (94095, 94111); (94176, 94177); (94179, 94180); (110576, 110579);
    (110581, 110587); (110589, 110590); (113821, 113822); (113824, 113827);
    (118528, 118573); (118576, 118598); (119143, 119145); (119155, 119170);
    (119173, 119179); (119210, 119213); (119362, 119364); (121344, 121398);
    (121403, 121452); (121461, 121461); (121476, 121476); (121499, 121503);
    (121505, 121519); (122880, 122886); (122888, 122904); (122907, 122913);
    (122915, 122916); (122918, 122922); (123184, 123197); (123566, 123566);
    (123628, 123631); (125136, 125142); (125252, 125259); (127995, 127999);
    (917505, 917505); (917536, 917631); (917760, 917999) ]%N.

(** The characters with the property Cased that are not Case_Ignorable. *)
Definition cased_ranges : list (N * N) :=
  [ (65, 90); (97, 122); (170, 170); (181, 181); (186, 186); (192, 214);
    (216, 246); (248, 442); (444, 447); (452, 659); (661, 687); (880, 883);
    (886, 887); (891, 893); (895, 895); (902, 902); (904, 906); (908, 908);
    (910, 929); (931, 1013); (1015, 1153); (1162, 1327); (1329, 1366);
    (1376, 1416); (4256, 4293); (4295, 4295); (4301, 4301); (4304, 4346);
    (4349, 4351); (5024, 5109); (5112, 5117); (7296, 7304); (7312, 7354);
    (7357, 7359); (7424, 7467); (7531, 7543); (7545, 7578); (7680, 7957);
    (7960, 7965); (7968, 8005); (8008, 8013); (8016, 8023); (8025, 8025);
    (8027, 8027); (8029, 8029); (8031, 8061); (8064, 8116); (8118, 8124);
    (8126, 8126); (8130, 8132); (8134, 8140); (8144, 8147); (8150, 8155);
    (8160, 8172); (8178, 8180); (8182, 8188); (8450, 8450); (8455, 8455);
    (8458, 8467); (8469, 8469); (8473, 8477); (8484, 8484); (8486, 8486);
    (8488, 8488); (8490, 8493); (8495, 8500); (8505, 8505); (8508, 8511);
    (8517, 8521); (8526, 8526); (8544, 8575); (8579, 8580); (9398, 9449);
    (11264, 11387); (11390, 11492); (11499, 11502); (11506, 11507);
    (11520, 11557); (11559, 11559); (11565, 11565); (42560, 42605);
    (42624, 42651); (42786, 42863); (42865, 42887); (42891, 42894);
    (42896, 42954); (42960, 42961); (42963, 42963); (42965, 42969);
    (42997, 42998); (43002, 43002); (43824, 43866); (43872, 43880);
    (43888, 43967); (64256, 64262); (64275, 64279); (65313, 65338);
    (65345, 65370); (66560, 66639); (66736, 66771); (66776, 66811);
    (66928, 66938); (66940, 66954); (66956, 66962); (66964, 66965);
    (66967, 66977); (66979, 66993); (66995, 67001); (67003, 67004);
    (68736, 68786); (68800, 68850); (71840, 71903); (93760, 93823);
    (119808, 119892); (119894, 119964); (119966, 119967); (119970, 119970);
    (119973, 119974); (119977, 119980); (119982, 119993); (119995, 119995);
    (119997, 120003); (120005, 120069); (120071, 120074); (120077, 120084);
    (120086, 120092); (120094, 120121); (120123, 120126); (120128, 120132);
    (120134, 120134); (120138, 120144); (120146, 120485); (120488, 120512);
    (120514, 120538); (120540, 120570); (120572, 120596); (120598, 120628);
    (120630, 120654); (120656, 120686); (120688, 120712); (120714, 120744);
    (120746, 120770); (120772, 120779); (122624, 122633); (122635, 122654);
    (125184, 125251); (127280, 127305); (127312, 127337);
    (127344, 127369) ]%N.

Definition is_case_ignorable (c : char) : bool := in_ranges case_ignorable_ranges c.

(** Whether a character that is not case-ignorable is cased. *)
Definition is_cased (c : char) : bool := in_ranges cased_ranges c.

Fixpoint chars (s : string) : list char :=
  match s with
  | EmptyString => []
  | String c s' => c :: chars s'
  end.

Fixpoint skip_ignorable (l : list char) : list char :=
  match l with
  | [] => []
  | c :: l' => if is_case_ignorable c then skip_ignorable l' else l
  end.

(** The capital sigma between [before] (the characters before it, the
    nearest first) and [after] ends a word: going back over case-ignorable
    characters a cased one is found, and going forward none is. *)
Definition final_sigma (before : list char) (after : string) : bool :=
  match skip_ignorable before with
  | c :: _ => is_cased c
  | [] => false
  end
  && match skip_ignorable (chars after) with
     | c :: _ => negb (is_cased c)
     | [] => true
     end.

(** The lowercase form of one character of a string: the capital sigma
    becomes the final or the medial small sigma, the capital I with dot
    above becomes [i] and a combining dot above, any other character has
    its lowercase mapping. *)
Definition lower_full (before : list char) (c : char) (after : string) : string :=
  if (code c =? 931)%N then
    String (if final_sigma before after then 962%N else 963%N) EmptyString
  else if (code c =? 304)%N then String 105%N (String 775%N EmptyString)
  else String (lower_char c) EmptyString.

Fixpoint lower_from (before : list char) (s : string) : string :=
  match s with
  | EmptyString => EmptyString
  | String c s' => lower_full before c s' +:+ lower_from (c :: before) s'
  end.

(** [s.lower()] *)
Definition lower (s : string) : string := lower_from [] s.

(** [bool(s)] for a string: non-empty. *)
Definition nonempty (s : string) : bool :=
  match s with
  | EmptyString => false
  | String _ _ => true
  end.

(** [s.lstrip(chars)], the set of characters given by a predicate. *)
Fixpoint lstrip_by (p : char -> bool) (s : string) : string :=
  match s with
  | EmptyString => EmptyString
  | String c s' => if p c then lstrip_by p s' else s
  end.

(** [s.rstrip(chars)] *)
Fixpoint rstrip_by (p : char -> bool) (s : string) : string :=
  match s with
  | EmptyString => EmptyString
  | String c s' =>
      match rstrip_by p s' with
      | EmptyString => if p c then EmptyString else String c EmptyString
      | r => String c r
      end
  end.

Definition strip_by (p : char -> bool) (s : string) : string :=
  rstrip_by p (lstrip_by p s).

(** [s.strip()] *)
Definition strip (s : string) : string := strip_by is_space s.

(** [s.startswith(p)] *)
Fixpoint startswith (p s : string) : bool :=
  match p, s with
  | EmptyString, _ => true
  | String a p', String b s' => if decide (a = b) then startswith p' s' else false
  | String _ _, EmptyString => false
  end.

(** [sub in s] *)
Fixpoint contains (sub s : string) : bool :=
  startswith sub s ||
  match s with
  | EmptyString => false
  | String _ s' => contains sub s'
  end.

(** [s.find(sub)], [None] for Python's [-1]. *)
Fixpoint find (sub s : string) : option nat :=
  if startswith sub s then Some 0
  else match s with
       | EmptyString => None
       | String _ s' => S <$> find sub s'
       end.

(** [s[:n]] and [s[n:]] for [0 <= n]. *)
Fixpoint take (n : nat) (s : string) : string :=
  match n, s with
  | S k, String c s' => String c (take k s')
  | _, _ => EmptyString
  end.

Fixpoint drop (n : nat) (s : string) : string :=
  match n, s with
  | S k, String _ s' => drop k s'
  | _, _ => s
  end.

(** [s[i:j]] for [0 <= i], [0 <= j]. *)
Definition slice (i j : nat) (s : string) : string := take (j - i) (drop i s).

(** [s.replace(old, new)] for a non-empty [old]: occurrences are replaced
    left to right and do not overlap.  [skip] counts the characters of an
    occurrence that are still to be passed over. *)
Fixpoint replace_from (old new : string) (skip : nat) (s : string) : string :=
  match s with
  | EmptyString => EmptyString
  | String c s' =>
      match skip with
      | S k => replace_from old new k s'
      | O =>
          if startswith old s
          then new +:+ replace_from old new (String.length old - 1) s'
          else String c (replace_from old new 0 s')
      end
  end.

Definition replace (old new s : string) : string := replace_from old new 0 s.

(** [s.split(sep)] for a one-character separator. *)
Fixpoint split (sep : char) (s : string) : list string :=
  match s with
  | EmptyString => [EmptyString]
  | String c s' =>
      if decide (c = sep) then EmptyString :: split sep s'
      else match split sep s' with
           | h :: t => String c h :: t
           | [] => [String c EmptyString]
           end
  end.

(** [sep.join(parts)] *)
Fixpoint join (sep : string) (parts : list string) : string :=
  match parts with
  | [] => EmptyString
  | [p] => p
  | p :: rest => p +:+ sep +:+ join sep rest
  end.

(** [str(x)] inside an f-string, for a value that is a string or [None]. *)
Definition format_opt (o : option string) : string :=
  match o with
  | Some s => s
  | None => "None"
  end.

(** [max(texts, key=len)]: the first element of greatest length. *)
Fixpoint longest_from (best : string) (texts : list string) : string :=
  match texts with
  | [] => best
  | t :: rest =>
      if (String.length best <? String.length t)%nat
      then longest_from t rest
      else longest_from best rest
  end.

Definition longest (texts : list string) : option string :=
  match texts with
  | [] => None
  | t :: rest => Some (longest_from t rest)
  end.

End PyStr.

(* ===================================================================== *)
(** * Python values and insertion-ordered dictionaries *)
(* ===================================================================== *)

(** The values that occur in a hotel record: [None], a boolean, a string, a
    list of strings (amenities, nearby places, airports) and a dict from
    strings to strings (overview table, parking and pet policy). *)
Inductive pyval : Type :=
| VNone
| VBool (b : bool)
| VStr (s : string)
| VList (l : list string)
| VDict (d : list (string * string)).

#[global] Instance pyval_eq_dec : EqDecision pyval.
Proof. solve_decision. Defined.

(** [bool(v)] *)
Definition truthy (v : pyval) : bool :=
  match v with
  | VNone => false
  | VBool b => b
  | VStr s => PyStr.nonempty s
  | VList l => match l with [] => false | _ => true end
  | VDict d => match d with [] => false | _ => true end
  end.

Definition of_opt_str (o : option string) : pyval :=
  match o with
  | Some s => VStr s
  | None => VNone
  end.

Module PyDict.

(** A [dict]: keys in insertion order.  Assigning to a key that is present
    replaces the value where it stands; a new key goes to the end. *)
Section Dict.
Context {K V : Type} `{EqDecision K}.

(** [d.get(k)] *)
Fixpoint get (d : list (K * V)) (k : K) : option V :=
  match d with
  | [] => None
  | (k', v) :: d' => if decide (k' = k) then Some v else get d' k
  end.

(** [k in d] *)
Definition mem (d : list (K * V)) (k : K) : bool :=
  match get d k with
  | Some _ => true
  | None => false
  end.

(** [d[k] = v] *)
Fixpoint assign (d : list (K * V)) (k : K) (v : V) : list (K * V) :=
  match d with
  | [] => [(k, v)]
  | (k', v') :: d' =>
      if decide (k' = k) then (k', v) :: d' else (k', v') :: assign d' k v
  end.

(** [d.update(other)] *)
Definition update (d other : list (K * V)) : list (K * V) :=
  fold_left (fun acc kv => assign acc (fst kv) (snd kv)) other d.

(** [d.pop(k, None)], the dictionary that is left. *)
Fixpoint pop (d : list (K * V)) (k : K) : list (K * V) :=
  match d with
  | [] => []
  | (k', v) :: d' => if decide (k' = k) then d' else (k', v) :: pop d' k
  end.

(** [list(d.keys())] and [list(d.values())] *)
Definition keys (d : list (K * V)) : list K := map fst d.
Definition values (d : list (K * V)) : list V := map snd d.

(** The invariant of a [dict]: no key twice. *)
Definition wf (d : list (K * V)) : Prop := NoDup (keys d).

End Dict.
End PyDict.

(* ===================================================================== *)
(** * [json.dumps(v, ensure_char=False)] and the JSON grammar *)
(* ===================================================================== *)

Module Json.

Definition dquote : char := 34%N.
Definition backslash : char := 92%N.

Definition hex_digit (n : N) : char :=
  if (n <? 10)%N then (48 + n)%N else (87 + n)%N.

(** The replacement of one character inside a string literal
    ([ESCAPE_DCT] of the [json.encoder] module). *)
Definition escape_char (c : char) : string :=
  let n := PyStr.code c in
  if (n =? 34)%N then String backslash (String dquote EmptyString)
  else if (n =? 92)%N then String backslash (String backslash EmptyString)
  else if (n =? 10)%N then String backslash "n"
  else if (n =? 13)%N then String backslash "r"
  else if (n =? 9)%N then String backslash "t"
  else if (n =? 8)%N then String backslash "b"
  else if (n =? 12)%N then String backslash "f"
  else if (n <? 32)%N
       then String backslash
              (String "u" (String "0" (String "0"
                 (String (hex_digit (n / 16))
                    (String (hex_digit (n mod 16)) EmptyString)))))
  else String c EmptyString.

Fixpoint escape (s : string) : string :=
  match s with
  | EmptyString => EmptyString
  | String c s' => escape_char c +:+ escape s'
  end.

(** [py_encode_basestring(s)] *)
Definition encode_string (s : string) : string :=
  String dquote (escape s +:+ String dquote EmptyString).

Definition encode_item (kv : string * string) : string :=
  encode_string (fst kv) +:+ ": " +:+ encode_string (snd kv).

(** [json.dumps(v, ensure_char=False)] with the default separators. *)
Definition dumps (v : pyval) : string :=
  match v with
  | VNone => "null"
  | VBool true => "true"
  | VBool false => "false"
  | VStr s => encode_string s
  | VList l => "[" +:+ PyStr.join ", " (map encode_string l) +:+ "]"
  | VDict d => "{" +:+ PyStr.join ", " (map encode_item d) +:+ "}"
  end.

(** ** The grammar of RFC 8259 *)

Definition is_ws (c : char) : bool :=
  let n := PyStr.code c in
  (n =? 32)%N || (n =? 9)%N || (n =? 10)%N || (n =? 13)%N.

Definition is_hex (c : char) : bool :=
  let n := PyStr.code c in
  PyStr.is_digit09 c
  || ((65 <=? n)%N && (n <=? 70)%N)
  || ((97 <=? n)%N && (n <=? 102)%N).

(** A character that stands for itself inside a string literal. *)
Definition is_unescaped (c : char) : bool :=
  let n := PyStr.code c in
  (32 <=? n)%N && negb (n =? 34)%N && negb (n =? 92)%N.

(** The character after a backslash in a two-character escape. *)
Definition is_escape_letter (c : char) : bool :=
  bool_decide (c ∈ [dquote; backslash; "/"; "b"; "f"; "n"; "r"; "t"]%char).

Inductive ws : string -> Prop :=
| ws_nil : ws EmptyString
| ws_cons c s : is_ws c = true -> ws s -> ws (String c s).

(** The characters between the quotes of a string literal. *)
Inductive chars : string -> Prop :=
| chars_nil : chars EmptyString
| chars_plain c s : is_unescaped c = true -> chars s -> chars (String c s)
| chars_escape c s :
    is_escape_letter c = true -> chars s ->
    chars (String backslash (String c s))
| chars_unicode h1 h2 h3 h4 s :
    is_hex h1 = true -> is_hex h2 = true ->
    is_hex h3 = true -> is_hex h4 = true -> chars s ->
    chars (String backslash
             (String "u" (String h1 (String h2 (String h3 (String h4 s)))))).

Inductive digits : string -> Prop :=
| digits_one c : PyStr.is_digit09 c = true -> digits (String c EmptyString)
| digits_more c s : PyStr.is_digit09 c = true -> digits s -> digits (String c s).

Inductive int_part : string -> Prop :=
| int_zero : int_part "0"
| int_one c : PyStr.is_digit09 c = true -> c <> "0"%char ->
    int_part (String c EmptyString)
| int_many c s : PyStr.is_digit09 c = true -> c <> "0"%char -> digits s ->
    int_part (String c s).

Inductive frac_part : string -> Prop :=
| frac_none : frac_part EmptyString
| frac_some s : digits s -> frac_part ("." +:+ s).

Inductive exp_part : string -> Prop :=
| exp_none : exp_part EmptyString
| exp_some e sign s :
    e = "e"%char \/ e = "E"%char ->
    sign = EmptyString \/ sign = "+" \/ sign = "-" ->
    digits s -> exp_part (String e (sign +:+ s)).

Inductive number : string -> Prop :=
| number_intro sign i f e :
    sign = EmptyString \/ sign = "-" ->
    int_part i -> frac_part f -> exp_part e ->
    number (sign +:+ i +:+ f +:+ e).

Inductive value : string -> Prop :=
| value_null : value "null"
| value_true : value "true"
| value_false : value "false"
| value_number s : number s -> value s
| value_string s : chars s -> value (String dquote (s +:+ String dquote EmptyString))
| value_array_empty w : ws w -> value ("[" +:+ w +:+ "]")
| value_array es : elements es -> value ("[" +:+ es +:+ "]")
| value_object_empty w : ws w -> value ("{" +:+ w +:+ "}")
| value_object ms : members ms -> value ("{" +:+ ms +:+ "}")
with element : string -> Prop :=
| element_intro w1 v w2 : ws w1 -> value v -> ws w2 -> element (w1 +:+ v +:+ w2)
with elements : string -> Prop :=
| elements_one e : element e -> elements e
| elements_more e es : element e -> elements es -> elements (e +:+ "," +:+ es)
with member : string -> Prop :=
| member_intro w1 k w2 e :
    ws w1 -> chars k -> ws w2 -> element e ->
    member (w1 +:+ String dquote (k +:+ String dquote EmptyString)
            +:+ w2 +:+ ":" +:+ e)
with members : string -> Prop :=
| members_one m : member m -> members m
| members_more m ms : member m -> members ms -> members (m +:+ "," +:+ ms).

(** A JSON text: one value, white space around it. *)
Definition valid (s : string) : Prop := element s.

End Json.

(* ===================================================================== *)
(** * Utilities of the pipeline *)
(* ===================================================================== *)

(** A DOM element as the scraper reads it: its visible text and its [href]
    attribute ([None] when the attribute is missing). *)
Record Elem : Type := mkElem {
  el_text : string;
  el_href : option string;
}.

(** [safe_text(el)]: [el.text.strip()]. *)
Definition safe_text (el : Elem) : option string :=
  Some (PyStr.strip (el_text el)).

(** Truth value of a string-or-[None]. *)
Definition truthy_opt (o : option string) : bool :=
  match o with
  | Some s => PyStr.nonempty s
  | None => false
  end.

(** [cleanup_price(text)] *)
Definition cleanup_price (text : option string) : option string :=
  match text with
  | Some s => if PyStr.nonempty s then Some (PyStr.strip s) else None
  | None => None
  end.

Section HotelCode.

(** [urlparse(url).path] of the standard library; [None] stands for the
    [ValueError] it raises on a malformed URL. *)
Variable urlparse_path : string -> option string.

(** What [[a-z0-9]] matches under [re.I]: the ASCII letters and digits, and
    the four characters whose case forms are ASCII letters: U+0130 and
    U+0131 (dotted and dotless i), U+017F (long s) and U+212A (the Kelvin
    sign). *)
Definition is_alnum (c : char) : bool :=
  PyStr.is_digit09 c || PyStr.is_lower c || PyStr.is_upper c
  || bool_decide (PyStr.code c ∈ [304; 305; 383; 8490]%N).

Fixpoint all_chars (p : char -> bool) (s : string) : bool :=
  match s with
  | EmptyString => true
  | String c s' => p c && all_chars p s'
  end.

(** [len(p) == 5 and re.match(r"^[a-z0-9]{5}$", p, re.I)] *)
Definition is_code_segment (p : string) : bool :=
  (String.length p =? 5)%nat && all_chars is_alnum p.

(** [p and p.lower() not in ("hoteldetail", "amenities")] *)
Definition is_meaningful_segment (p : string) : bool :=
  PyStr.nonempty p
  && negb (bool_decide (PyStr.lower p ∈ ["hoteldetail"; "amenities"])).

(** The first element of a list that satisfies a test: the [for ... if ...:
    return] loops of the source. *)
Fixpoint first_such (p : string -> bool) (l : list string) : option string :=
  match l with
  | [] => None
  | x :: l' => if p x then Some x else first_such p l'
  end.

Definition path_parts (path : string) : list string :=
  PyStr.split "/" (PyStr.rstrip_by (fun c => bool_decide (c = "/"%char)) path).

Definition get_hotel_code_from_url (url : option string) : option string :=
  match url with
  | None => None
  | Some u =>
      if negb (PyStr.nonempty u) then None
      else
        match urlparse_path u with
        | None => None
        | Some path =>
            let parts := path_parts path in
            match first_such is_code_segment parts with
            | Some p => Some (PyStr.lower p)
            | None =>
                match first_such is_meaningful_segment (rev parts) with
                | Some p => Some (PyStr.lower p)
                | None => None
                end
            end
        end
  end.

End HotelCode.

(* ===================================================================== *)
(** * Step 1: the city enumerator *)
(* ===================================================================== *)

Record CityRef : Type := mkCity {
  city_name : string;
  city_url : string;
}.

(** The test on an href in [scrape_city_urls]. *)
Definition looks_like_city_url (url : string) : bool :=
  PyStr.contains "ihg.com" url
  && (PyStr.contains "hotels" url
      || PyStr.contains "/explore/" url
      || PyStr.contains "/destinations" url
      || PyStr.contains "pet" (PyStr.lower url)).

(** The loop of [scrape_city_urls] over the link elements found on the page,
    with its two accumulators [seen] and [cities]. *)
Fixpoint city_loop (links : list Elem) (seen : list string)
    (cities : list CityRef) : list CityRef :=
  match links with
  | [] => cities
  | el :: rest =>
      let name := PyStr.strip (el_text el) in
      match el_href el with
      | None => city_loop rest seen cities
      | Some url =>
          if negb (PyStr.nonempty url) || bool_decide (url ∈ seen)
          then city_loop rest seen cities
          else if looks_like_city_url url
               then city_loop rest (seen ++ [url]) (cities ++ [mkCity name url])
               else city_loop rest seen cities
      end
  end.

(** [IHGCitiesScraper.scrape_city_urls]: [links] are the elements matching
    [ul.cmp-list a.cmp-list__item-link] once the wait is over; the list is
    empty when none appeared before the timeout ([wait_presence] swallows the
    [TimeoutException]). *)
Definition scrape_city_urls (links : list Elem) : list CityRef :=
  city_loop links [] [].

(** The contract in the words of the specification: collect every element's
    href and text, deduplicate by href, then filter by the substrings. *)
Fixpoint dedup_by_href (seen : list string) (pairs : list (string * string))
    : list (string * string) :=
  match pairs with
  | [] => []
  | (name, url) :: rest =>
      if bool_decide (url ∈ seen) then dedup_by_href seen rest
      else (name, url) :: dedup_by_href (url :: seen) rest
  end.

Definition collect_links (links : list Elem) : list (string * string) :=
  omap (fun el =>
          match el_href el with
          | Some url =>
              if PyStr.nonempty url then Some (PyStr.strip (el_text el), url)
              else None
          | None => None
          end) links.

Definition city_of_pair (p : string * string) : CityRef :=
  mkCity (fst p) (snd p).

Definition city_urls_spec (links : list Elem) : list CityRef :=
  city_of_pair <$>
    filter (fun p => looks_like_city_url (snd p) = true)
           (dedup_by_href [] (collect_links links)).

(* ===================================================================== *)
(** * Step 2: probes on a hotel page *)
(* ===================================================================== *)

(** ** Phone *)

(** The character class [[\d\-\(\) \.]] *)
Definition is_phone_char (c : char) : bool :=
  PyStr.is_digit c || bool_decide (c ∈ ["-"; "("; ")"; " "; "."]%char).

(** [[\d\-\(\) \.]{7,}\d] tried at the head of [s] after [n] characters of
    the class were consumed: greedy, so a longer run is tried first, and the
    match may stop on a digit only once seven characters were consumed. *)
Fixpoint phone_tail (n : nat) (s : string) : option string :=
  match s with
  | EmptyString => None
  | String c s' =>
      let stop :=
        if (7 <=? n)%nat && PyStr.is_digit c
        then Some (String c EmptyString) else None in
      if is_phone_char c then
        match phone_tail (S n) s' with
        | Some m => Some (String c m)
        | None => stop
        end
      else stop
  end.

(** [\d[\d\-\(\) \.]{7,}\d] at the head of [s]. *)
Definition phone_core (s : string) : option string :=
  match s with
  | String c s' =>
      if PyStr.is_digit c then String c <$> phone_tail 0 s' else None
  | EmptyString => None
  end.

(** [\+?\d[\d\-\(\) \.]{7,}\d] at the head of [s]: the optional sign is
    taken first when it is there. *)
Definition phone_here (s : string) : option string :=
  match s with
  | String c s' =>
      if decide (c = "+"%char) then
        match phone_core s' with
        | Some m => Some (String "+" m)
        | None => phone_core s
        end
      else phone_core s
  | EmptyString => phone_core s
  end.

(** [re.search(r"(\+?\d[\d\-\(\) \.]{7,}\d)", s)]: the match at the
    leftmost position that has one. *)
Fixpoint phone_search (s : string) : option string :=
  match phone_here s with
  | Some m => Some m
  | None =>
      match s with
      | EmptyString => None
      | String _ s' => phone_search s'
      end
  end.

(** The first loop of [_extract_phone], over the [a[href^="tel:"]] links. *)
Fixpoint first_tel_number (tel_hrefs : list (option string)) : option string :=
  match tel_hrefs with
  | [] => None
  | h :: rest =>
      let href := default EmptyString h in
      let num := PyStr.strip (PyStr.replace "tel:" EmptyString href) in
      if PyStr.nonempty num then Some num else first_tel_number rest
  end.

(** [IHGHotelScraper._extract_phone]: [tel_hrefs] are the hrefs of the
    [tel:] links of the page, [body_text] the visible text of the page. *)
Definition _extract_phone (tel_hrefs : list (option string))
    (body_text : string) : option string :=
  match first_tel_number tel_hrefs with
  | Some num => Some num
  | None =>
      match phone_search body_text with
      | Some m => Some (PyStr.strip m)
      | None => None
      end
  end.

(** ** Section text by keyword *)

(** A page as [_collect_section_text] reads it: the texts of the section
    like containers and the text of the body. *)
Record PageText : Type := mkPageText {
  pt_sections : list string;
  pt_body : string;
}.

Definition any_keyword_in (keywords : list string) (text : string) : bool :=
  existsb (fun k => PyStr.contains k text) keywords.

Fixpoint matching_sections (keywords : list string) (sections : list string)
    (texts : list string) : list string :=
  match sections with
  | [] => texts
  | sec :: rest =>
      if any_keyword_in keywords (PyStr.lower sec) then
        let txt := PyStr.strip sec in
        if PyStr.nonempty txt && negb (bool_decide (txt ∈ texts))
        then matching_sections keywords rest (texts ++ [txt])
        else matching_sections keywords rest texts
      else matching_sections keywords rest texts
  end.

(** The fallback of [_collect_section_text]: a window of the body around the
    first occurrence of the first keyword that occurs. *)
Fixpoint keyword_window (keywords : list string) (full : string)
    : list string :=
  match keywords with
  | [] => []
  | k :: rest =>
      match PyStr.find k (PyStr.lower full) with
      | Some idx => [PyStr.slice (idx - 500) (idx + 700) full]
      | None => keyword_window rest full
      end
  end.

(** [IHGHotelScraper._collect_section_text] *)
Definition _collect_section_text (page : PageText) (keywords : list string)
    : option string :=
  let texts := matching_sections keywords (pt_sections page) [] in
  let texts :=
    match texts with
    | [] => keyword_window keywords (pt_body page)
    | _ => texts
    end in
  PyStr.longest texts.

(** ** The amenities page *)

Record AmenitiesPage : Type := mkAmenitiesPage {
  ap_amenity_texts : list (list string);
      (* per selector of [_scrape_amenities_list_from_page], in order *)
  ap_text : PageText;
  ap_dts : list string;
  ap_dds : list string;
  ap_rows : list (list string * list string);
      (* per row container: the label texts and the value texts *)
  ap_tel_hrefs : list (option string);
}.

(** [IHGHotelScraper._scrape_amenities_list_from_page] *)
Definition _scrape_amenities_list_from_page (page : AmenitiesPage) : pyval :=
  let items :=
    fold_left
      (fun items e =>
         let t := PyStr.strip e in
         if PyStr.nonempty t && negb (bool_decide (t ∈ items))
         then items ++ [t] else items)
      (concat (ap_amenity_texts page)) [] in
  match items with
  | [] => VNone
  | _ => VList items
  end.

(** [IHGHotelScraper._scrape_parking_from_page] *)
Definition _scrape_parking_from_page (page : AmenitiesPage) : pyval :=
  match _collect_section_text (ap_text page) ["parking"; "valet"; "self-parking"] with
  | Some text =>
      if PyStr.nonempty text then VDict [("parking_info", text)] else VNone
  | None => VNone
  end.

(** The loop [for k, v in zip(ks, vs): if k and v: data[k] = v]. *)
Definition add_pairs (data : list (string * string)) (ks vs : list string)
    : list (string * string) :=
  fold_left
    (fun data kv =>
       let k := PyStr.strip (fst kv) in
       let v := PyStr.strip (snd kv) in
       if PyStr.nonempty k && PyStr.nonempty v
       then PyDict.assign data k v else data)
    (zip ks vs) data.

Definition nonempty_list {A : Type} (l : list A) : bool :=
  match l with
  | [] => false
  | _ => true
  end.

(** [if xs and ys and len(xs) == len(ys)] *)
Definition pairable (xs ys : list string) : bool :=
  nonempty_list xs && nonempty_list ys && (length xs =? length ys)%nat.

(** [IHGHotelScraper._scrape_overview_table_from_page] *)
Definition _scrape_overview_table_from_page (page : AmenitiesPage) : pyval :=
  let data :=
    if pairable (ap_dts page) (ap_dds page)
    then add_pairs [] (ap_dts page) (ap_dds page) else [] in
  let data :=
    match data with
    | [] =>
        fold_left
          (fun data row =>
             if pairable (fst row) (snd row)
             then add_pairs data (fst row) (snd row) else data)
          (ap_rows page) []
    | _ => data
    end in
  match data with
  | [] => VNone
  | _ => VDict data
  end.

(** [s.splitlines()]; [after_cr] is set right
    after a carriage return, whose line feed belongs to the same boundary. *)
Definition is_linebreak (c : char) : bool :=
  bool_decide (PyStr.code c ∈ [10; 11; 12; 13; 28; 29; 30; 133; 8232; 8233]%N).

Fixpoint splitlines_from (after_cr : bool) (s : string) : list string :=
  match s with
  | EmptyString => []
  | String c s' =>
      if after_cr && bool_decide (PyStr.code c = 10%N) then splitlines_from false s'
      else if is_linebreak c
           then EmptyString :: splitlines_from (bool_decide (PyStr.code c = 13%N)) s'
           else match splitlines_from false s' with
                | [] => [String c EmptyString]
                | h :: t => String c h :: t
                end
  end.

Definition splitlines (s : string) : list string := splitlines_from false s.

(** The character set of [ln.strip(" -•\t")]; the bullet is U+2022. *)
Definition is_bullet_char (c : char) : bool :=
  bool_decide (PyStr.code c ∈ [32; 45; 8226; 9]%N).

(** [[ln.strip(" -•\t") for ln in text.splitlines() if ln.strip()]] *)
Definition clean_lines (text : string) : list string :=
  map (PyStr.strip_by is_bullet_char)
      (filter (fun ln => PyStr.nonempty (PyStr.strip ln) = true) (splitlines text)).

Definition lines_probe (page : AmenitiesPage) (keywords : list string) : pyval :=
  match _collect_section_text (ap_text page) keywords with
  | Some text =>
      if PyStr.nonempty text then
        match clean_lines text with
        | [] => VNone
        | lines => VList lines
        end
      else VNone
  | None => VNone
  end.

(** [IHGHotelScraper._scrape_nearby_from_page] *)
Definition _scrape_nearby_from_page (page : AmenitiesPage) : pyval :=
  lines_probe page ["nearby"; "attractions"; "points of interest"].

(** [IHGHotelScraper._scrape_airport_from_page] *)
Definition _scrape_airport_from_page (page : AmenitiesPage) : pyval :=
  lines_probe page ["airport"; "airports"; "shuttle"].

(** The first button whose text contains a phrase: the [for b in buttons]
    loops of [_open_amenities_page_and_scrape] and
    [_open_pet_policy_if_available]. *)
Fixpoint first_button (phrases : list string) (buttons : list Elem)
    : option Elem :=
  match buttons with
  | [] => None
  | b :: rest =>
      let txt := PyStr.lower (PyStr.strip (el_text b)) in
      if any_keyword_in phrases txt then Some b else first_button phrases rest
  end.

(** The [data] dictionary of [_open_amenities_page_and_scrape]. *)
Definition amenities_page_data (page : AmenitiesPage)
    : list (string * pyval) :=
  [ ("amenities", _scrape_amenities_list_from_page page);
    ("parking", _scrape_parking_from_page page);
    ("overview", _scrape_overview_table_from_page page);
    ("nearby", _scrape_nearby_from_page page);
    ("airport", _scrape_airport_from_page page);
    ("phone", of_opt_str (_extract_phone (ap_tel_hrefs page)
                                          (pt_body (ap_text page)))) ].

(** [d.get(k)] of Python, [None] for a missing key. *)
Definition pyget (d : list (string * pyval)) (k : string) : pyval :=
  default VNone (PyDict.get d k).

(** The guard at the end of [_open_amenities_page_and_scrape]:
    [if not any([data.get("amenities"), data.get("parking"),
    data.get("overview"), data.get("nearby"), data.get("airport")])]. *)
Definition aggregate (data : list (string * pyval))
    : option (list (string * pyval)) :=
  if negb (existsb truthy
             [pyget data "amenities"; pyget data "parking";
              pyget data "overview"; pyget data "nearby";
              pyget data "airport"])
  then None else Some data.

(** [IHGHotelScraper._open_amenities_page_and_scrape]: [buttons] are the
    [a.cmp-button, a.cmp-teaser__action-link] elements of the detail page,
    [page] is what the amenities page shows once the link is followed. *)
Definition _open_amenities_page_and_scrape (buttons : list Elem)
    (page : AmenitiesPage) : option (list (string * pyval)) :=
  match first_button ["view all amenities"] buttons with
  | None => None
  | Some btn =>
      if truthy_opt (el_href btn)
      then aggregate (amenities_page_data page)
      else None
  end.

(** [IHGHotelScraper._open_pet_policy_if_available] *)
Definition _open_pet_policy_if_available (links : list Elem)
    (page : PageText) : pyval :=
  match first_button ["view pet policy"; "pet policy"] links with
  | None => VNone
  | Some pet_link =>
      if truthy_opt (el_href pet_link) then
        match _collect_section_text page ["pet"; "pets"; "pet policy"; "dog"; "cat"] with
        | Some policy =>
            if PyStr.nonempty policy then VDict [("policy", policy)] else VNone
        | None => VNone
        end
      else VNone
  end.

(* ===================================================================== *)
(** * Step 2: the detail page and the hotel cards *)
(* ===================================================================== *)

(** What the browser shows while one hotel's detail page is visited. *)
Record DetailPage : Type := mkDetailPage {
  dp_nav_ok : bool;
      (* [false]: [self.open(url)] raised a [WebDriverException] *)
  dp_desc_groups : list (list string);
      (* per selector group of [_extract_description_text]: block texts *)
  dp_paragraphs : list string;
  dp_highlights : option (list string);
      (* [None]: no [.vx-highlight-items] container; else the item titles *)
  dp_tel_hrefs : list (option string);
  dp_body : string;
  dp_buttons : list Elem;
  dp_amenities_page : AmenitiesPage;
  dp_pet_links : list Elem;
  dp_pet_page : PageText;
}.

(** [t and len(t) > 120] over the blocks of one selector group. *)
Definition long_blocks (blocks : list string) : list string :=
  filter (fun t => (120 <? String.length t)%nat = true) (map PyStr.strip blocks).

Fixpoint first_described (groups : list (list string)) : option string :=
  match groups with
  | [] => None
  | g :: rest =>
      match PyStr.longest (long_blocks g) with
      | Some t => Some t
      | None => first_described rest
      end
  end.

Definition longest_paragraph (ps : list string) : string :=
  fold_left
    (fun best p =>
       let t := PyStr.strip p in
       if (String.length best <? String.length t)%nat then t else best)
    ps EmptyString.

(** [IHGHotelScraper._extract_description_text] *)
Definition _extract_description_text (page : DetailPage) : option string :=
  match first_described (dp_desc_groups page) with
  | Some t => Some t
  | None =>
      let best := longest_paragraph (dp_paragraphs page) in
      if PyStr.nonempty best then Some best else None
  end.

(** [IHGHotelScraper._extract_highlights_section] *)
Definition _extract_highlights_section (page : DetailPage) : pyval :=
  match dp_highlights page with
  | None => VNone
  | Some items =>
      match filter (fun t => PyStr.nonempty t = true) (map PyStr.strip items) with
      | [] => VNone
      | titles => VList titles
      end
  end.

Section Scraper.

(** [urlparse(url).path], as in [HotelCode]. *)
Variable urlparse_path : string -> option string.

(** [json.loads(s)] when it returns a list of strings; [None] when it raises
    or returns anything else. *)
Variable json_loads_list : string -> option (list string).

Definition mentions_pets (ams : list string) : bool :=
  any_keyword_in ["pet"; "pets allowed"; "pet-friendly"]
    (PyStr.lower (PyStr.join " " ams)).

(** [IHGHotelScraper._infer_pet_friendly]; the description is a string or
    [None] wherever the pipeline calls it. *)
Definition _infer_pet_friendly (detail_dict : list (string * pyval)) : bool :=
  if truthy (pyget detail_dict "pets_json") then true
  else
    let desc :=
      PyStr.lower
        match pyget detail_dict "description" with
        | VStr s => s
        | _ => EmptyString
        end in
    if any_keyword_in
         ["pet-friendly"; "pets allowed"; "pet friendly";
          "pet-friendly hotel"; "pet policy"] desc
    then true
    else
      match pyget detail_dict "amenities_json" with
      | VList ams => mentions_pets ams
      | VStr s =>
          match json_loads_list s with
          | Some lst => mentions_pets lst
          | None => false
          end
      | _ => false
      end.

(** The [out] dictionary of [scrape_hotel_detail] as it starts. *)
Definition detail_defaults : list (string * pyval) :=
  [ ("phone", VNone);
    ("description", VNone);
    ("overview_table_json", VNone);
    ("pets_json", VNone);
    ("parking_json", VNone);
    ("amenities_json", VNone);
    ("nearby_json", VNone);
    ("airport_json", VNone);
    ("is_pet_friendly", VNone) ].

(** [if data.get(src): out[dst] = data[src]] *)
Definition copy_if_found (data : list (string * pyval)) (src dst : string)
    (out : list (string * pyval)) : list (string * pyval) :=
  if truthy (pyget data src) then PyDict.assign out dst (pyget data src) else out.

(** The block of [scrape_hotel_detail] under [if amenities_detail_data:]. *)
Definition merge_amenities_data (data out : list (string * pyval))
    : list (string * pyval) :=
  let out := copy_if_found data "amenities" "amenities_json" out in
  let out := copy_if_found data "parking" "parking_json" out in
  let out := copy_if_found data "overview" "overview_table_json" out in
  let out := copy_if_found data "nearby" "nearby_json" out in
  let out := copy_if_found data "airport" "airport_json" out in
  if truthy (pyget data "phone") && negb (truthy (pyget out "phone"))
  then PyDict.assign out "phone" (pyget data "phone")
  else out.

(** [IHGHotelScraper.scrape_hotel_detail] *)
Definition scrape_hotel_detail (url : string) (page : DetailPage)
    : list (string * pyval) :=
  let out := detail_defaults in
  if negb (PyStr.nonempty url) then out
  else if negb (dp_nav_ok page) then out
  else
    let out :=
      PyDict.assign out "description" (of_opt_str (_extract_description_text page)) in
    let highlights := _extract_highlights_section page in
    let out :=
      if truthy highlights then PyDict.assign out "amenities_json" highlights
      else out in
    let phone := _extract_phone (dp_tel_hrefs page) (dp_body page) in
    let out :=
      if truthy_opt phone then PyDict.assign out "phone" (of_opt_str phone)
      else out in
    let out :=
      match _open_amenities_page_and_scrape (dp_buttons page)
              (dp_amenities_page page) with
      | Some data => merge_amenities_data data out
      | None => out
      end in
    let pets_data :=
      _open_pet_policy_if_available (dp_pet_links page) (dp_pet_page page) in
    if truthy pets_data
    then PyDict.assign (PyDict.assign out "pets_json" pets_data)
           "is_pet_friendly" (VBool true)
    else PyDict.assign out "is_pet_friendly" (VBool (_infer_pet_friendly out)).

(** One [li] of the hotel list, with the detail page its link leads to. *)
Record Card : Type := mkCard {
  c_title : option Elem;
      (* [None]: no [a.cmp-card__title-link], the card is skipped *)
  c_address : option string;
  c_amenity_titles : list string;
  c_price_value : option string;
  c_currency : option string;
  c_rating : option string;
  c_now : string;                       (* [now_iso()] *)
  c_detail : DetailPage;
}.

Definition text_of (o : option string) : option string :=
  PyStr.strip <$> o.

(** The labels [safe_text(li)] that are not empty. *)
Definition card_amenities (card : Card) : list string :=
  filter (fun t => PyStr.nonempty t = true) (map PyStr.strip (c_amenity_titles card)).

(** [f"{price_value} {currency}".strip() if price_value else None] *)
Definition card_price (price_value currency : option string) : pyval :=
  if truthy_opt price_value
  then VStr (PyStr.strip (PyStr.format_opt price_value +:+ " "
                          +:+ PyStr.format_opt currency))
  else VNone.

(** The base record of [scrape_city], before the detail page is visited. *)
Definition base_record (city : CityRef) (card : Card) (name_el : Elem)
    : list (string * pyval) :=
  let hotel_url := default EmptyString (el_href name_el) in
  [ ("hotel_code",
       of_opt_str (get_hotel_code_from_url urlparse_path (Some hotel_url)));
    ("hotel_name", of_opt_str (safe_text name_el));
    ("address", of_opt_str (text_of (c_address card)));
    ("phone", VNone);
    ("rating", of_opt_str (text_of (c_rating card)));
    ("description", VNone);
    ("card_price",
       card_price (cleanup_price (text_of (c_price_value card)))
                  (text_of (c_currency card)));
    ("overview_table_json", VNone);
    ("pets_json", VNone);
    ("parking_json", VNone);
    ("amenities_json",
       match card_amenities card with
       | [] => VNone
       | labels => VStr (Json.dumps (VList labels))
       end);
    ("nearby_json", VNone);
    ("airport_json", VNone);
    ("is_pet_friendly", VNone);
    ("last_updated", VStr (c_now card));
    ("_detail_url", VStr hotel_url);
    ("_city", VStr (city_name city)) ].

Definition json_keys : list string :=
  [ "overview_table_json"; "pets_json"; "parking_json";
    "amenities_json"; "nearby_json"; "airport_json" ].

(** One turn of the loop [for key in [...]]: a value that is neither [None]
    nor a string is replaced by its JSON text. *)
Definition normalize_key (rec : list (string * pyval)) (key : string)
    : list (string * pyval) :=
  match pyget rec key with
  | VNone => rec
  | VStr _ => rec
  | val => PyDict.assign rec key (VStr (Json.dumps val))
  end.

Definition normalize_json (rec : list (string * pyval)) : list (string * pyval) :=
  fold_left normalize_key json_keys rec.

(** [if isinstance(rec.get("is_pet_friendly"), bool): ...] *)
Definition coerce_pet_flag (rec : list (string * pyval)) : list (string * pyval) :=
  match pyget rec "is_pet_friendly" with
  | VBool b =>
      PyDict.assign rec "is_pet_friendly" (VStr (if b then "true" else "false"))
  | _ => rec
  end.

(** The body of the loop of [scrape_city] for one card; [None] when the card
    is skipped. *)
Definition scrape_card (city : CityRef) (card : Card)
    : option (list (string * pyval)) :=
  match c_title card with
  | None => None
  | Some name_el =>
      let hotel_url := default EmptyString (el_href name_el) in
      let hotel_record := base_record city card name_el in
      let detail := scrape_hotel_detail hotel_url (c_detail card) in
      let hotel_record := PyDict.update hotel_record detail in
      let hotel_record := normalize_json hotel_record in
      let hotel_record := coerce_pet_flag hotel_record in
      let hotel_record := PyDict.pop hotel_record "_detail_url" in
      let hotel_record := PyDict.pop hotel_record "_city" in
      Some hotel_record
  end.

(** [IHGHotelScraper.scrape_city]: [cards] are the [li] elements of the
    hotel list of the city page. *)
Definition scrape_city (city : CityRef) (cards : list Card)
    : list (list (string * pyval)) :=
  omap (scrape_card city) cards.

(* ===================================================================== *)
(** * The resumable store *)
(* ===================================================================== *)

Definition FIELDS : list string :=
  [ "hotel_code"; "hotel_name"; "address"; "phone"; "rating"; "description";
    "card_price"; "overview_table_json"; "pets_json"; "parking_json";
    "amenities_json"; "nearby_json"; "airport_json"; "is_pet_friendly";
    "last_updated" ].

(** [(h.get("hotel_code"), h.get("hotel_name"))] *)
Definition record_key (h : list (string * pyval)) : pyval * pyval :=
  (pyget h "hotel_code", pyget h "hotel_name").

(** The [result_map] of [append_or_merge] when its loop is over. *)
Definition merge_into (overwrite : bool) (hotels : list (list (string * pyval)))
    (existing_map : list ((pyval * pyval) * list (string * pyval)))
    : list ((pyval * pyval) * list (string * pyval)) :=
  fold_left
    (fun result_map h =>
       let key := record_key h in
       if PyDict.mem result_map key && negb overwrite then result_map
       else PyDict.assign result_map key h)
    hotels existing_map.

(** [append_or_merge(hotels, existing_map)], the constant [OVERWRITE] made
    an argument. *)
Definition append_or_merge (overwrite : bool)
    (hotels : list (list (string * pyval)))
    (existing_map : list ((pyval * pyval) * list (string * pyval)))
    : list (list (string * pyval)) :=
  PyDict.values (merge_into overwrite hotels existing_map).

(** [{(h.get("hotel_code"), h.get("hotel_name")): h for h in records}] *)
Definition index_by_key (records : list (list (string * pyval)))
    : list ((pyval * pyval) * list (string * pyval)) :=
  fold_left (fun m h => PyDict.assign m (record_key h) h) records [].

(** The two output documents; [None] while a file does not exist.  The JSON
    document is an array of records, as [save_outputs] writes it; the values
    of a record may be any JSON values the model has, lists and objects
    among them.  The CSV document is its header and rows. *)
Record Files : Type := mkFiles {
  hotel_json : option (list (list (string * pyval)));
  hotel_csv : option (list string * list (list pyval));
}.

(** [{k: r.get(k) for k in FIELDS}] as the row that is written. *)
Definition csv_row (r : list (string * pyval)) : list pyval :=
  map (pyget r) FIELDS.

(** [save_outputs(records)]: both files are opened with mode [w]. *)
Definition save_outputs (records : list (list (string * pyval))) (fs : Files)
    : Files :=
  match records with
  | [] => fs
  | _ =>
      {| hotel_json := Some records;
         hotel_csv := Some (FIELDS, map csv_row records) |}
  end.

(** [hash(v)] succeeds: a list or a dict cannot be hashed. *)
Definition hashable (v : pyval) : bool :=
  match v with
  | VList _ | VDict _ => false
  | _ => true
  end.

(** The loop of [load_existing_output], under its [try]: at the first record
    whose key cannot be hashed the assignment raises a [TypeError], which
    [except Exception: pass] swallows; [existing] keeps what it holds by
    then. *)
Fixpoint load_loop (data : list (list (string * pyval)))
    (existing : list ((pyval * pyval) * list (string * pyval)))
    : list ((pyval * pyval) * list (string * pyval)) :=
  match data with
  | [] => existing
  | d :: rest =>
      let key := record_key d in
      if hashable (fst key) && hashable (snd key)
      then load_loop rest (PyDict.assign existing key d)
      else existing
  end.

(** [load_existing_output()] *)
Definition load_existing_output (overwrite : bool) (fs : Files)
    : list ((pyval * pyval) * list (string * pyval)) :=
  match hotel_json fs with
  | Some data => if negb overwrite then load_loop data [] else []
  | None => []
  end.

(** The state of [main] while it loops: the records so far, the files, and
    the arguments of the calls of [save_outputs] made so far. *)
Record Run : Type := mkRun {
  all_hotels : list (list (string * pyval));
  files : Files;
  saves : list (list (list (string * pyval)));
}.

(** One turn of the loop of [main]; [visit] is [None] when [scrape_city]
    raised, and the cards of the city page otherwise. *)
Definition main_step (overwrite : bool) (st : Run)
    (visit : CityRef * option (list Card)) : Run :=
  let hotels :=
    match snd visit with
    | Some cards => scrape_city (fst visit) cards
    | None => []
    end in
  let merged := append_or_merge overwrite hotels (index_by_key (all_hotels st)) in
  {| all_hotels := merged;
     files := save_outputs merged (files st);
     saves := saves st ++ [merged] |}.

(** [main()], the constants [RUN_ONLY_ONE_CITY] and [OVERWRITE] made
    arguments. *)
Definition main (run_only_one_city overwrite : bool)
    (visits : list (CityRef * option (list Card))) (fs : Files) : Run :=
  let visits := if run_only_one_city then take 1 visits else visits in
  let existing_map := load_existing_output overwrite fs in
  fold_left (main_step overwrite)
    visits
    {| all_hotels := PyDict.values existing_map; files := fs; saves := [] |}.

End Scraper.

(** A stand-in for [urlparse(url).path] on plain [scheme://host/path?query#frag]
    URLs, used to run examples; the theorems hold for every path function. *)
Definition example_url_path (u : string) : option string :=
  let cut (sep : string) (s : string) :=
    match PyStr.find sep s with
    | Some i => PyStr.take i s
    | None => s
    end in
  let after_scheme :=
    match PyStr.find "://" u with
    | Some i => PyStr.drop (i + 3) u
    | None => u
    end in
  let host_and_path := cut "?" (cut "#" after_scheme) in
  match PyStr.find "/" host_and_path with
  | Some i => Some (PyStr.drop i host_and_path)
  | None => Some EmptyString
  end.

(* ===================================================================== *)
(** * Notions used to state the properties *)
(* ===================================================================== *)

(** The number of decimal digits in a string. *)
Fixpoint count_digits (s : string) : nat :=
  match s with
  | EmptyString => 0
  | String c s' => (if PyStr.is_digit c then 1 else 0) + count_digits s'
  end.

(** [m] occurs in [s]. *)
Definition substring_of (m s : string) : Prop :=
  exists pre post, s = pre +:+ m +:+ post.

(** The shape of a match of [\+?\d[\d\-\(\) \.]{7,}\d]: an optional plus
    sign, a digit, at least seven digits or separators, a digit. *)
Definition phone_shape (m : string) : Prop :=
  exists sign d1 mid d2,
    m = sign +:+ String d1 (mid +:+ String d2 EmptyString)
    /\ (sign = EmptyString \/ sign = "+")
    /\ PyStr.is_digit d1 = true
    /\ all_chars is_phone_char mid = true
    /\ 7 <= String.length mid
    /\ PyStr.is_digit d2 = true.

(** The entries a merge without overwrite adds: for each key that is not in
    [seen], the first record of [hotels] with that key, in order. *)
Fixpoint first_new (seen : list (pyval * pyval))
    (hotels : list (list (string * pyval)))
    : list ((pyval * pyval) * list (string * pyval)) :=
  match hotels with
  | [] => []
  | h :: rest =>
      if bool_decide (record_key h ∈ seen) then first_new seen rest
      else (record_key h, h) :: first_new (record_key h :: seen) rest
  end.

(** The last record of [hotels] with key [k]. *)
Definition latest (k : pyval * pyval) (hotels : list (list (string * pyval)))
    : option (list (string * pyval)) :=
  fold_left (fun acc h => if decide (record_key h = k) then Some h else acc)
            hotels None.

(** A mapping indexed by identity key: every record sits under its own key. *)
Definition keyed (m : list ((pyval * pyval) * list (string * pyval))) : Prop :=
  Forall (fun kv => record_key (snd kv) = fst kv) m.

(** What the normalization loop of [scrape_city] makes of one value. *)
Definition normalized (v : pyval) : pyval :=
  match v with
  | VNone => VNone
  | VStr s => VStr s
  | val => VStr (Json.dumps val)
  end.

(** [None], or a string that is a JSON text. *)
Definition json_text_or_none (v : pyval) : Prop :=
  v = VNone \/ exists s, v = VStr s /\ Json.valid s.

(** The serialization invariant of a hotel record. *)
Definition json_fields_ok (rec : list (string * pyval)) : Prop :=
  forall key, key ∈ json_keys -> json_text_or_none (pyget rec key).

(** The pet-friendly flag of a record is unset or one of the two literals. *)
Definition pet_flag_ok (rec : list (string * pyval)) : Prop :=
  pyget rec "is_pet_friendly" = VNone
  \/ pyget rec "is_pet_friendly" = VStr "true"
  \/ pyget rec "is_pet_friendly" = VStr "false".

(** [None], a list or a dict: what the detail page extraction leaves in a
    JSON-substructure field. *)
Definition structured (v : pyval) : Prop :=
  v = VNone \/ (exists l, v = VList l) \/ (exists d, v = VDict d).

Definition is_json_key (k : string) : bool :=
  existsb (String.eqb k) json_keys.

(** The shape of one entry of the dictionary [scrape_hotel_detail] returns. *)
Definition detail_field_ok (kv : string * pyval) : Prop :=
  if is_json_key (fst kv) then structured (snd kv)
  else if String.eqb (fst kv) "is_pet_friendly"
       then snd kv = VNone \/ exists b, snd kv = VBool b
       else True.

(** The shape of one entry of a record before normalization. *)
Definition raw_field_ok (kv : string * pyval) : Prop :=
  if is_json_key (fst kv)
  then structured (snd kv) \/ exists s, snd kv = VStr s /\ Json.valid s
  else if String.eqb (fst kv) "is_pet_friendly"
       then snd kv = VNone \/ exists b, snd kv = VBool b
       else True.

(** The results of the five content probes of the amenities page. *)
Definition content_probes (page : AmenitiesPage) : list pyval :=
  [ _scrape_amenities_list_from_page page;
    _scrape_parking_from_page page;
    _scrape_overview_table_from_page page;
    _scrape_nearby_from_page page;
    _scrape_airport_from_page page ].

(** A property of records holds of the JSON document, when there is one. *)
Definition files_ok (P : list (string * pyval) -> Prop) (fs : Files) : Prop :=
  forall data, hotel_json fs = Some data -> Forall P data.

(** A property of records holds of everything a run of [main] holds: the
    records gathered, the JSON document, and every list handed to
    [save_outputs]. *)
Definition run_ok (P : list (string * pyval) -> Prop) (st : Run) : Prop :=
  Forall P (all_hotels st) /\ files_ok P (files st)
  /\ Forall (Forall P) (saves st).

(** The keys of the dictionary [scrape_hotel_detail] returns. *)
Definition detail_keys : list string := PyDict.keys detail_defaults.

(** The number [_extract_phone] reads off one [tel:] link. *)
Definition tel_number (href : option string) : string :=
  PyStr.strip (PyStr.replace "tel:" EmptyString (default EmptyString href)).

(* ===================================================================== *)
(** * Example inputs *)
(* ===================================================================== *)

(** A detail page button leading to the amenities page. *)
Definition amenities_button : Elem :=
  mkElem "View all amenities"
         (Some "https://www.ihg.com/hotels/us/en/miami/miaep/hoteldetail/amenities").

(** An amenities page that shows a phone link and nothing the other probes
    look for. *)
Definition phone_only_page : AmenitiesPage :=
  {| ap_amenity_texts := [];
     ap_text := mkPageText [] "Call us at 305-555-0100";
     ap_dts := [];
     ap_dds := [];
     ap_rows := [];
     ap_tel_hrefs := [Some "tel:305-555-0100"] |}.

(** An amenities page with one amenity in its list. *)
Definition pool_page : AmenitiesPage :=
  {| ap_amenity_texts := [["Pool"]];
     ap_text := mkPageText [] "Welcome";
     ap_dts := [];
     ap_dds := [];
     ap_rows := [];
     ap_tel_hrefs := [] |}.

(** The links of a landing page: a city twice, a link without href, a link
    to another site and a brand page without any of the keywords. *)
Definition landing_links : list Elem :=
  [ mkElem " Miami " (Some "https://www.ihg.com/explore/pet-friendly-hotels/miami");
    mkElem "Broken" None;
    mkElem "Miami again" (Some "https://www.ihg.com/explore/pet-friendly-hotels/miami");
    mkElem "Elsewhere" (Some "https://example.org/hotels");
    mkElem "Brand" (Some "https://www.ihg.com/holidayinn");
    mkElem "Austin" (Some "https://www.ihg.com/destinations/us/en/austin") ].

(** Two readings of the same hotel, taken at different times. *)
Definition hotel_x (now : string) : list (string * pyval) :=
  [ ("hotel_code", VStr "miaep"); ("hotel_name", VStr "Hotel X");
    ("last_updated", VStr now) ].

Definition hotel_y : list (string * pyval) :=
  [ ("hotel_code", VStr "ausms"); ("hotel_name", VStr "Hotel Y");
    ("last_updated", VStr "2025-01-01T10:00:00") ].

(** A detail page that cannot be opened. *)
Definition unreachable_page : DetailPage :=
  {| dp_nav_ok := false;
     dp_desc_groups := [];
     dp_paragraphs := [];
     dp_highlights := None;
     dp_tel_hrefs := [];
     dp_body := EmptyString;
     dp_buttons := [];
     dp_amenities_page := pool_page;
     dp_pet_links := [];
     dp_pet_page := mkPageText [] EmptyString |}.

(** A card with every card-level field present. *)
Definition pool_card (detail : DetailPage) : Card :=
  {| c_title :=
       Some (mkElem "Hotel X"
               (Some "https://www.ihg.com/hotels/us/en/miami/miaep/hoteldetail"));
     c_address := Some "1 Ocean Drive, Miami";
     c_amenity_titles := ["Pool"; "Pets allowed"];
     c_price_value := Some "129";
     c_currency := Some "USD";
     c_rating := Some "4.5";
     c_now := "2025-01-01T10:00:00";
     c_detail := detail |}.

(** A detail page without buttons whose description mentions pets. *)
Definition pet_text_page : DetailPage :=
  {| dp_nav_ok := true;
     dp_desc_groups := [];
     dp_paragraphs := ["A pet-friendly hotel by the beach."; "Book now"];
     dp_highlights := None;
     dp_tel_hrefs := [];
     dp_body := "A pet-friendly hotel by the beach. Book now";
     dp_buttons := [];
     dp_amenities_page := pool_page;
     dp_pet_links := [];
     dp_pet_page := mkPageText [] EmptyString |}.

(** A record left in the output files by an earlier run. *)
Definition stale_record : list (string * pyval) :=
  [ ("hotel_code", VStr "miaep"); ("hotel_name", VStr "Hotel X") ].

Definition stale_files : Files :=
  {| hotel_json := Some [stale_record];
     hotel_csv := Some (FIELDS, [csv_row stale_record]) |}.

Definition miami : CityRef :=
  mkCity "Miami" "https://www.ihg.com/explore/pet-friendly-hotels/miami".

(** [json.loads] is not needed by the examples. *)
Definition no_json_loads (s : string) : option (list string) := None.

(* ===================================================================== *)
(** * The link scraper of [testing.py] *)
(* ===================================================================== *)

(** The dictionary [scrape_links] appends for one link. *)
Definition link_row (title href now : string) : list (string * string) :=
  [ ("title", title); ("url", href); ("source", "IHG Pet Friendly");
    ("scraped_at", now) ].

(** The loop of [scrape_links] with its accumulators [seen] and [results].
    An element is [None] when reading its [href] or its text raises a
    [StaleElementReferenceException]; the string beside it is what
    [datetime.utcnow().isoformat()] gives when its row is built. *)
Fixpoint links_loop (elements : list (option Elem * string)) (seen : list string)
    (results : list (list (string * string))) : list (list (string * string)) :=
  match elements with
  | [] => results
  | (None, _) :: rest => links_loop rest seen results
  | (Some el, now) :: rest =>
      let title := PyStr.strip (el_text el) in
      match el_href el with
      | None => links_loop rest seen results
      | Some href =>
          if negb (PyStr.nonempty href) || bool_decide (href ∈ seen)
          then links_loop rest seen results
          else links_loop rest (seen ++ [href])
                 (results ++ [link_row title href now])
      end
  end.

(** [IHGPetFriendlyLinksScraper.scrape_links]: [wait_ok] is [false] when
    [wait_for] raises a [TimeoutException]; [elements] is what
    [find_all_safe] returns. *)
Definition scrape_links (wait_ok : bool) (elements : list (option Elem * string))
    : list (list (string * string)) :=
  if wait_ok then links_loop elements [] [] else [].

(** [DictWriter._dict_to_list]: [None] for the [ValueError] raised when the
    row has a key that is not a field name; a missing key gives an empty
    cell. *)
Definition dict_to_list (fieldnames : list string) (row : list (string * string))
    : option (list string) :=
  if forallb (fun k => bool_decide (k ∈ fieldnames)) (PyDict.keys row)
  then Some (map (fun k => default EmptyString (PyDict.get row k)) fieldnames)
  else None.

(** [writer.writerows(rows)]: the rows written, and [false] when a row
    raised; the rows before it are written by then. *)
Fixpoint writerows (fieldnames : list string) (rows : list (list (string * string)))
    : list (list string) * bool :=
  match rows with
  | [] => ([], true)
  | r :: rest =>
      match dict_to_list fieldnames r with
      | None => ([], false)
      | Some line =>
          let '(lines, ok) := writerows fieldnames rest in (line :: lines, ok)
      end
  end.

(** [DataWriter.save_csv(path, rows)]: the document at [path] afterwards,
    header and rows, and whether the call returned without raising. *)
Definition save_csv (rows : list (list (string * string)))
    (file : option (list string * list (list string)))
    : option (list string * list (list string)) * bool :=
  match rows with
  | [] => (file, true)
  | first :: _ =>
      let fieldnames := PyDict.keys first in
      let '(lines, ok) := writerows fieldnames rows in
      (Some (fieldnames, lines), ok)
  end.

(** [DataWriter.save_json(path, data)]: the document at [path] afterwards. *)
Definition save_json (data : list (list (string * string)))
    (file : option (list (list (string * string))))
    : option (list (list (string * string))) :=
  Some data.

(** The two documents of [testing.py]. *)
Record LinkFiles : Type := mkLinkFiles {
  links_csv : option (list string * list (list string));
  links_json : option (list (list (string * string)));
}.

(** The block under [if __name__ == "__main__":] of [testing.py]: the JSON
    document is written only when [save_csv] has returned. *)
Definition testing_main (wait_ok : bool) (elements : list (option Elem * string))
    (fs : LinkFiles) : LinkFiles :=
  let links := scrape_links wait_ok elements in
  let '(csv, ok) := save_csv links (links_csv fs) in
  {| links_csv := csv;
     links_json := if ok then save_json links (links_json fs) else links_json fs |}.

(** The title and the address of a row of [scrape_links]. *)
Definition row_pair (r : list (string * string)) : string * string :=
  (default EmptyString (PyDict.get r "title"),
   default EmptyString (PyDict.get r "url")).

(** The elements of [landing_links] as [scrape_links] meets them, one of
    them stale. *)
Definition landing_elements : list (option Elem * string) :=
  (None, "2025-01-01T09:59:59")
  :: map (fun el => (Some el, "2025-01-01T10:00:00")) landing_links.

(** The elements of [landing_links] when all of them can be read. *)
Definition readable_elements : list (option Elem * string) :=
  map (fun el => (Some el, "2025-01-01T10:00:00")) landing_links.

(* ===================================================================== *)
(** * The city list of [ihg_pipeline.py] *)
(* ===================================================================== *)

(** [load_or_create_city_csv()]: [city_csv] is the city document, [None]
    while it does not exist, else its rows under the header
    [city_name,city_url]; [links] are the link elements the landing page shows
    if it is visited.  The result is the list returned and the document
    afterwards. *)
Definition load_or_create_city_csv (city_csv : option (list CityRef))
    (links : list Elem) : list CityRef * option (list CityRef) :=
  match city_csv with
  | Some (row :: rows) => (row :: rows, city_csv)
  | _ =>
      let cities := scrape_city_urls links in
      (cities, Some cities)
  end.

(* ===================================================================== *)
(** * Further notions *)
(* ===================================================================== *)

(** The code points an entry of the table of lowercase mappings applies
    to. *)
Definition entry_points (e : N * N * N * N) : list N :=
  let '(lo, hi, step, _) := e in
  map (fun k => (lo + N.of_nat k * step)%N)
      (seq 0 (S (N.to_nat ((hi - lo) / step)))).

(** A relation between a character and its lowercase form, checked on every
    character that has a lowercase mapping. *)
Definition lower_check (q : N -> N -> bool) : bool :=
  forallb (fun e => forallb (fun c => q c (PyStr.lower_char c)) (entry_points e))
          PyStr.lower_table.

(** A character that [str.lower] leaves as it is, wherever it stands. *)
Definition settled (c : char) : bool :=
  (PyStr.lower_char c =? c)%N && negb (bool_decide (c ∈ [304; 931]%N)).

(** The two small sigmas, final and medial. *)
Definition is_small_sigma (c : char) : bool := bool_decide (c ∈ [962; 963]%N).

Definition no_small_sigma (s : string) : bool :=
  all_chars (fun c => negb (is_small_sigma c)) s.

(** [g] begins with [h], up to which of the small sigmas stands where. *)
Fixpoint sigma_prefix (h g : string) : bool :=
  match h, g with
  | EmptyString, _ => true
  | String a h', String b g' =>
      ((a =? b)%N || is_small_sigma a && is_small_sigma b) && sigma_prefix h' g'
  | String _ _, EmptyString => false
  end.

(** No capital I with dot above, the one character whose lowercase form
    has two code points. *)
Definition no_dotted_I (s : string) : bool :=
  all_chars (fun c => negb (c =? 304)%N) s.

(** No letter from [A] to [Z]. *)
Definition no_upper (s : string) : bool :=
  all_chars (fun c => negb (PyStr.is_upper c)) s.

(** No [/] in a string. *)
Definition no_slash (s : string) : bool :=
  all_chars (fun c => negb (bool_decide (c = "/"%char))) s.


(** A row of the overview table: neither the label nor the value is empty. *)
Definition filled (kv : string * string) : Prop :=
  fst kv <> EmptyString /\ snd kv <> EmptyString.

(** The hotels one turn of the loop of [main] merges: those of the city, or
    none when [scrape_city] raised. *)
Definition scraped (urlparse_path : string -> option string)
    (json_loads_list : string -> option (list string))
    (visit : CityRef * option (list Card)) : list (list (string * pyval)) :=
  match snd visit with
  | Some cards => scrape_city urlparse_path json_loads_list (fst visit) cards
  | None => []
  end.

(** The two output documents agree: the CSV document has the columns of
    [FIELDS] and one row per record of the JSON document, in the same order. *)
Definition files_agree (fs : Files) : Prop :=
  match hotel_json fs, hotel_csv fs with
  | Some data, Some (header, rows) => header = FIELDS /\ rows = map csv_row data
  | None, None => True
  | _, _ => False
  end.

(** The same card, read at another time. *)
Definition seen_later (card : Card) (now : string) : Card :=
  {| c_title := c_title card;
     c_address := c_address card;
     c_amenity_titles := c_amenity_titles card;
     c_price_value := c_price_value card;
     c_currency := c_currency card;
     c_rating := c_rating card;
     c_now := now;
     c_detail := c_detail card |}.

(** A value that is false in a condition only when it is [None]. *)
Definition none_or_truthy (v : pyval) : Prop := v = VNone \/ truthy v = true.

(** A detail page with a link to the pet policy. *)
Definition pet_policy_page : DetailPage :=
  {| dp_nav_ok := true;
     dp_desc_groups := [];
     dp_paragraphs := ["A hotel by the beach."];
     dp_highlights := None;
     dp_tel_hrefs := [];
     dp_body := "A hotel by the beach.";
     dp_buttons := [];
     dp_amenities_page := pool_page;
     dp_pet_links :=
       [mkElem "View pet policy"
          (Some "https://www.ihg.com/hotels/us/en/miami/miaep/hoteldetail/pets")];
     dp_pet_page := mkPageText [] "Dogs up to 25 lb are welcome." |}.

(** The price string of a card in closed form: [None] without a price
    text; else the price, followed by the currency text when there is one
    and by the word [None] when the currency element is missing. *)
Definition price_string (price_value currency : option string) : pyval :=
  match price_value with
  | None => VNone
  | Some raw =>
      if PyStr.nonempty (PyStr.strip raw) then
        VStr (PyStr.strip raw
              +:+ match currency with
                  | None => " None"
                  | Some cur =>
                      if PyStr.nonempty (PyStr.strip cur)
                      then " " +:+ PyStr.strip cur
                      else EmptyString
                  end)
      else VNone
  end.

(** A card with a price and no currency element. *)
Definition no_currency_card : Card :=
  {| c_title :=
       Some (mkElem "Hotel X"
               (Some "https://www.ihg.com/hotels/us/en/miami/miaep/hoteldetail"));
     c_address := None;
     c_amenity_titles := [];
     c_price_value := Some " 129 ";
     c_currency := None;
     c_rating := None;
     c_now := "2025-01-01T10:00:00";
     c_detail := unreachable_page |}.

(** The identity key of a record can be hashed. *)
Definition hashable_record (h : list (string * pyval)) : bool :=
  hashable (fst (record_key h)) && hashable (snd (record_key h)).

(** A record whose hotel code is a list, as a document edited by hand may
    hold, and a document with such a record in the middle. *)
Definition unhashable_record : list (string * pyval) :=
  [ ("hotel_code", VList ["miaep"]); ("hotel_name", VStr "Hotel Z") ].

Definition damaged_files : Files :=
  {| hotel_json := Some [stale_record; unhashable_record; hotel_y];
     hotel_csv := None |}.

(** [x] is the one record of [records] with identity key [k]. *)
Definition only_record (records : list (list (string * pyval)))
    (k : pyval * pyval) (x : list (string * pyval)) : Prop :=
  x ∈ records /\ record_key x = k
  /\ forall h, h ∈ records -> record_key h = k -> h = x.

(** The record an earlier run has left for the hotel of [pool_card], found
    not pet-friendly then, and the documents holding it. *)
Definition older_record : list (string * pyval) :=
  [ ("hotel_code", VStr "miami"); ("hotel_name", VStr "Hotel X");
    ("is_pet_friendly", VStr "false") ].

Definition older_files : Files :=
  {| hotel_json := Some [older_record];
     hotel_csv := Some (FIELDS, [csv_row older_record]) |}.

(** [c * n + rest] *)
Fixpoint repeated (n : nat) (c : char) (rest : string) : string :=
  match n with
  | 0 => rest
  | S n' => String c (repeated n' c rest)
  end.

(** A pet policy page without sections whose text is the word [pet] after
    503 capital letters I with dot above: in the lowercased text the word
    stands at position 1006, past the end of the text itself. *)
Definition dotted_page : PageText := mkPageText [] (repeated 503 304%N "pet").

(** A detail page without a phone whose amenities link leads to a page that
    shows a phone and nothing else. *)
Definition phone_only_detail : DetailPage :=
  {| dp_nav_ok := true;
     dp_desc_groups := [];
     dp_paragraphs := ["A hotel by the beach."];
     dp_highlights := None;
     dp_tel_hrefs := [];
     dp_body := "A hotel by the beach.";
     dp_buttons := [amenities_button];
     dp_amenities_page := phone_only_page;
     dp_pet_links := [];
     dp_pet_page := mkPageText [] EmptyString |}.

(** An amenities page with an amenity list and a phone link, and a detail
    page without a phone that leads to it. *)
Definition pool_phone_page : AmenitiesPage :=
  {| ap_amenity_texts := [["Pool"]];
     ap_text := mkPageText [] "Welcome";
     ap_dts := [];
     ap_dds := [];
     ap_rows := [];
     ap_tel_hrefs := [Some "tel:305-555-0100"] |}.

Definition pool_phone_detail : DetailPage :=
  {| dp_nav_ok := true;
     dp_desc_groups := [];
     dp_paragraphs := ["A hotel by the beach."];
     dp_highlights := None;
     dp_tel_hrefs := [];
     dp_body := "A hotel by the beach.";
     dp_buttons := [amenities_button];
     dp_amenities_page := pool_phone_page;
     dp_pet_links := [];
     dp_pet_page := mkPageText [] EmptyString |}.

(** A detail page whose one description block has 120 characters, the last
    of them an accented letter: it is not longer than 120, and the
    description is the longest paragraph. *)
Definition accent_page : DetailPage :=
  {| dp_nav_ok := true;
     dp_desc_groups := [[repeated 119 "a" "é"]];
     dp_paragraphs := ["Café by the sea."; "Bar"];
     dp_highlights := None;
     dp_tel_hrefs := [];
     dp_body := "Café by the sea. Bar";
     dp_buttons := [];
     dp_amenities_page := pool_page;
     dp_pet_links := [];
     dp_pet_page := mkPageText [] EmptyString |}.

(** An amenities page that names the pool twice, once between a no-break
    space and a space. *)
Definition spaced_page : AmenitiesPage :=
  {| ap_amenity_texts := [[String 160%N "Pool "; "Spa"]; ["Pool"; "  "]];
     ap_text := mkPageText [] EmptyString;
     ap_dts := [];
     ap_dds := [];
     ap_rows := [];
     ap_tel_hrefs := [] |}.
(* ===================================================================== *)
(** * Theorems *)
(* ===================================================================== *)

(** ** Strings *)

Lemma sapp_nil_r (s : string) : s +:+ EmptyString = s.
Proof. induction s as [|c s IH]; simpl; [reflexivity | now rewrite IH]. Qed.

Lemma sapp_assoc (a b c : string) : (a +:+ b) +:+ c = a +:+ (b +:+ c).
Proof. induction a as [|x a IH]; simpl; [reflexivity | now rewrite IH]. Qed.

Lemma sapp_length (a b : string) :
  String.length (a +:+ b) = String.length a + String.length b.
Proof. induction a as [|x a IH]; simpl; [reflexivity | now rewrite IH]. Qed.

Lemma rstrip_by_last (p : char -> bool) (s : string) (c : char) :
  p c = false ->
  PyStr.rstrip_by p (s +:+ String c EmptyString) = s +:+ String c EmptyString.
Proof.
  intros H. induction s as [|x s IH]; simpl.
  - now rewrite H.
  - rewrite IH. destruct s; reflexivity.
Qed.

Lemma digit_not_space (c : char) :
  PyStr.is_digit c = true -> PyStr.is_space c = false.
Proof.
  intros H. destruct (PyStr.is_space c) eqn:Hs; [|reflexivity].
  unfold PyStr.is_space, PyStr.code in Hs. apply bool_decide_eq_true in Hs.
  repeat (apply elem_of_cons in Hs as [->|Hs]; [vm_compute in H; discriminate H|]).
  inversion Hs.
Qed.

(** ** Hotel code from a URL *)

Example get_hotel_code_ex1 :
  get_hotel_code_from_url example_url_path
    (Some "https://www.ihg.com/holidayinn/hotels/us/en/x-y/MIAEP/hoteldetail?a=1")
  = Some "miaep".
Proof. vm_compute. reflexivity. Qed.

Example get_hotel_code_ex2 :
  get_hotel_code_from_url example_url_path
    (Some "https://www.ihg.com/a/b/long-hotel-name/HotelDetail/amenities/")
  = Some "long-hotel-name".
Proof. vm_compute. reflexivity. Qed.

Lemma first_such_hit (p : string -> bool) (pre : list string) (x : string)
    (post : list string) :
  Forall (fun q => p q = false) pre -> p x = true ->
  first_such p (pre ++ x :: post) = Some x.
Proof.
  intros Hpre Hx. induction Hpre as [|q pre Hq _ IH]; simpl.
  - now rewrite Hx.
  - now rewrite Hq.
Qed.

Lemma first_such_miss (p : string -> bool) (l : list string) :
  Forall (fun q => p q = false) l -> first_such p l = None.
Proof.
  induction 1 as [|q l Hq _ IH]; simpl; [reflexivity|]. now rewrite Hq.
Qed.

(** C9. [get_hotel_code_from_url] returns [None] for a missing or empty URL.
    Otherwise, on the segments of the URL's path (split at [/], trailing
    slashes removed): when a segment of exactly five alphanumeric characters
    exists, the first such segment, lowercased; otherwise the last non-empty
    segment that is not [hoteldetail] or [amenities], lowercased; and [None]
    when there is no such segment either, or when [urlparse] raises.
    Alphanumeric is what [[a-z0-9]]
    matches when case is ignored ([is_code_segment]): the letters and digits
    of ASCII and the four characters that case folding sends to [i], [s] and
    [k]; lowercased is [str.lower], on strings of any script. *)
Theorem get_hotel_code_from_url_spec (urlparse_path : string -> option string) :
  get_hotel_code_from_url urlparse_path None = None
  /\ get_hotel_code_from_url urlparse_path (Some EmptyString) = None
  /\ forall u,
      (forall path,
       u <> EmptyString -> urlparse_path u = Some path ->
       (forall pre p post,
           path_parts path = pre ++ p :: post ->
           Forall (fun q => is_code_segment q = false) pre ->
           is_code_segment p = true ->
           get_hotel_code_from_url urlparse_path (Some u) = Some (PyStr.lower p))
       /\ (Forall (fun q => is_code_segment q = false) (path_parts path) ->
           (forall pre p post,
               path_parts path = pre ++ p :: post ->
               is_meaningful_segment p = true ->
               Forall (fun q => is_meaningful_segment q = false) post ->
               get_hotel_code_from_url urlparse_path (Some u)
               = Some (PyStr.lower p))
           /\ (Forall (fun q => is_meaningful_segment q = false) (path_parts path) ->
               get_hotel_code_from_url urlparse_path (Some u) = None)))
      /\ (urlparse_path u = None ->
          get_hotel_code_from_url urlparse_path (Some u) = None).
Proof.
  split; [reflexivity|]. split; [reflexivity|].
  intros u. split.
  2: { intros Hnone. unfold get_hotel_code_from_url.
       destruct (negb (PyStr.nonempty u)); [reflexivity | now rewrite Hnone]. }
  intros path Hu Hpath.
  assert (Hne : negb (PyStr.nonempty u) = false) by (destruct u; [congruence|reflexivity]).
  unfold get_hotel_code_from_url. rewrite Hne, Hpath. cbv zeta.
  split.
  - intros pre p post Hparts Hpre Hp.
    rewrite Hparts, (first_such_hit _ pre p post Hpre Hp). reflexivity.
  - intros Hnone. rewrite (first_such_miss _ _ Hnone). split.
    + intros pre p post Hparts Hp Hpost.
      rewrite Hparts, rev_app_distr. simpl. rewrite <- app_assoc. simpl.
      rewrite (first_such_hit is_meaningful_segment (rev post) p (rev pre)); auto.
      apply Forall_rev; exact Hpost.
    + intros Hnone'. rewrite first_such_miss; [reflexivity|].
      apply Forall_rev; exact Hnone'.
Qed.

(** The path [/hotels/us/en/miami/MIAEP/hoteldetail]: [hotels] has six
    characters, [us] and [en] two, and [miami] is the first segment of five.
    In [/CafÉ/ΟΔΟΣ/HotelDetail] no segment has five characters, and the last
    segment that counts is [ΟΔΟΣ], whose lowercase form ends in a final
    sigma. *)
Lemma get_hotel_code_from_url_spec_witness :
  get_hotel_code_from_url example_url_path
    (Some "https://www.ihg.com/hotels/us/en/miami/MIAEP/hoteldetail")
  = Some "miami"
  /\ get_hotel_code_from_url example_url_path
       (Some "https://www.ihg.com/a/b/long-hotel-name/HotelDetail/amenities/")
     = Some "long-hotel-name"
  /\ get_hotel_code_from_url example_url_path
       (Some "https://www.ihg.com/CafÉ/ΟΔΟΣ/HotelDetail")
     = Some "οδος".
Proof.
  pose proof (get_hotel_code_from_url_spec example_url_path) as (_ & _ & H).
  split; [|split].
  - assert (Hp : example_url_path "https://www.ihg.com/hotels/us/en/miami/MIAEP/hoteldetail"
                 = Some "/hotels/us/en/miami/MIAEP/hoteldetail")
      by (vm_compute; reflexivity).
    assert (Hu : "https://www.ihg.com/hotels/us/en/miami/MIAEP/hoteldetail" <> EmptyString)
      by discriminate.
    destruct (proj1 (H _) _ Hu Hp) as [Hfirst _].
    apply (Hfirst [EmptyString; "hotels"; "us"; "en"] "miami" ["MIAEP"; "hoteldetail"]).
    + vm_compute; reflexivity.
    + repeat (constructor; [vm_compute; reflexivity|]). constructor.
    + vm_compute; reflexivity.
  - assert (Hp : example_url_path
                   "https://www.ihg.com/a/b/long-hotel-name/HotelDetail/amenities/"
                 = Some "/a/b/long-hotel-name/HotelDetail/amenities/")
      by (vm_compute; reflexivity).
    assert (Hu : "https://www.ihg.com/a/b/long-hotel-name/HotelDetail/amenities/" <> EmptyString)
      by discriminate.
    destruct (proj1 (H _) _ Hu Hp) as [_ Hlast].
    assert (Hparts : path_parts "/a/b/long-hotel-name/HotelDetail/amenities/"
                     = [EmptyString; "a"; "b"; "long-hotel-name"; "HotelDetail"; "amenities"])
      by (vm_compute; reflexivity).
    destruct Hlast as [Hlast _].
    + rewrite Hparts. repeat (constructor; [vm_compute; reflexivity|]). constructor.
    + apply (Hlast [EmptyString; "a"; "b"] "long-hotel-name" ["HotelDetail"; "amenities"]).
      * exact Hparts.
      * vm_compute; reflexivity.
      * repeat (constructor; [vm_compute; reflexivity|]). constructor.
  - assert (Hp : example_url_path "https://www.ihg.com/CafÉ/ΟΔΟΣ/HotelDetail"
                 = Some "/CafÉ/ΟΔΟΣ/HotelDetail")
      by (vm_compute; reflexivity).
    assert (Hu : "https://www.ihg.com/CafÉ/ΟΔΟΣ/HotelDetail" <> EmptyString)
      by discriminate.
    destruct (proj1 (H _) _ Hu Hp) as [_ Hlast].
    assert (Hparts : path_parts "/CafÉ/ΟΔΟΣ/HotelDetail"
                     = [EmptyString; "CafÉ"; "ΟΔΟΣ"; "HotelDetail"])
      by (vm_compute; reflexivity).
    assert (Hlow : PyStr.lower "ΟΔΟΣ" = "οδος") by (vm_compute; reflexivity).
    destruct Hlast as [Hlast _].
    + rewrite Hparts. repeat (constructor; [vm_compute; reflexivity|]). constructor.
    + rewrite <- Hlow.
      apply (Hlast [EmptyString; "CafÉ"] "ΟΔΟΣ" ["HotelDetail"]).
      * exact Hparts.
      * vm_compute; reflexivity.
      * repeat (constructor; [vm_compute; reflexivity|]). constructor.
Defined.

(** ** The aggregate step of the amenities page *)

Lemma amenities_probe_shape (page : AmenitiesPage) :
  _scrape_amenities_list_from_page page = VNone
  \/ truthy (_scrape_amenities_list_from_page page) = true.
Proof.
  unfold _scrape_amenities_list_from_page.
  destruct (fold_left _ _ _); [left|right]; reflexivity.
Qed.

Lemma parking_probe_shape (page : AmenitiesPage) :
  _scrape_parking_from_page page = VNone
  \/ truthy (_scrape_parking_from_page page) = true.
Proof.
  unfold _scrape_parking_from_page.
  destruct (_collect_section_text _ _) as [text|]; [|now left].
  destruct (PyStr.nonempty text); [right|left]; reflexivity.
Qed.

Lemma overview_probe_shape (page : AmenitiesPage) :
  _scrape_overview_table_from_page page = VNone
  \/ truthy (_scrape_overview_table_from_page page) = true.
Proof.
  unfold _scrape_overview_table_from_page. cbv zeta.
  match goal with |- context [match ?d with [] => VNone | _ => _ end] =>
    destruct d end; [left|right]; reflexivity.
Qed.

Lemma lines_probe_shape (page : AmenitiesPage) (keywords : list string) :
  lines_probe page keywords = VNone
  \/ truthy (lines_probe page keywords) = true.
Proof.
  unfold lines_probe.
  destruct (_collect_section_text _ _) as [text|]; [|now left].
  destruct (PyStr.nonempty text); [|now left].
  destruct (clean_lines text); [left|right]; reflexivity.
Qed.

Lemma content_probe_shape (page : AmenitiesPage) :
  Forall (fun v => v = VNone \/ truthy v = true) (content_probes page).
Proof.
  unfold content_probes.
  apply Forall_cons_2; [apply amenities_probe_shape|].
  apply Forall_cons_2; [apply parking_probe_shape|].
  apply Forall_cons_2; [apply overview_probe_shape|].
  apply Forall_cons_2; [apply lines_probe_shape|].
  apply Forall_cons_2; [apply lines_probe_shape|].
  apply Forall_nil_2.
Qed.

Lemma existsb_truthy_none (vs : list pyval) :
  Forall (fun v => v = VNone \/ truthy v = true) vs ->
  existsb truthy vs = false <-> Forall (fun v => v = VNone) vs.
Proof.
  induction 1 as [|v vs Hv _ IH]; simpl.
  - split; [constructor | reflexivity].
  - rewrite orb_false_iff, IH. split.
    + intros [Hf Hall]. constructor; [|exact Hall].
      destruct Hv as [Hv|Hv]; [exact Hv | congruence].
    + intros Hall. inversion Hall as [|? ? Hn Hrest]; subst. split; [reflexivity | exact Hrest].
Qed.

Lemma aggregate_page_data (page : AmenitiesPage) :
  aggregate (amenities_page_data page)
  = if existsb truthy (content_probes page)
    then Some (amenities_page_data page) else None.
Proof.
  unfold aggregate. change
    [pyget (amenities_page_data page) "amenities";
     pyget (amenities_page_data page) "parking";
     pyget (amenities_page_data page) "overview";
     pyget (amenities_page_data page) "nearby";
     pyget (amenities_page_data page) "airport"] with (content_probes page).
  destruct (existsb truthy (content_probes page)); reflexivity.
Qed.

(** C6, as stated, fails: on a page where only the phone probe finds
    something, the aggregate step returns [None]. *)
Lemma amenities_aggregate_ignores_phone :
  _open_amenities_page_and_scrape [amenities_button] phone_only_page = None
  /\ pyget (amenities_page_data phone_only_page) "phone" = VStr "305-555-0100".
Proof. split; vm_compute; reflexivity. Qed.

(** C6, amended.  Once the "view all amenities" link is found and has an
    href, the aggregate step returns [None] exactly when each of the five
    content probes (amenities, parking, overview table, nearby, airport)
    returned [None]; the phone probe is not consulted.  When one of the five
    produced data, the result is the dictionary of all six probe results. *)
Theorem amenities_aggregate_spec (buttons : list Elem) (page : AmenitiesPage)
    (btn : Elem) :
  first_button ["view all amenities"] buttons = Some btn ->
  truthy_opt (el_href btn) = true ->
  (_open_amenities_page_and_scrape buttons page = None
   <-> Forall (fun v => v = VNone) (content_probes page))
  /\ (Exists (fun v => v <> VNone) (content_probes page) ->
      _open_amenities_page_and_scrape buttons page
      = Some (amenities_page_data page)).
Proof.
  intros Hbtn Hhref. unfold _open_amenities_page_and_scrape.
  rewrite Hbtn, Hhref, aggregate_page_data.
  pose proof (existsb_truthy_none _ (content_probe_shape page)) as Hiff.
  destruct (existsb truthy (content_probes page)) eqn:E.
  - split.
    + split; [discriminate|]. intros Hall. apply Hiff in Hall. discriminate.
    + reflexivity.
  - split.
    + split; [intros _; apply Hiff; reflexivity | reflexivity].
    + intros Hex. exfalso. apply Exists_exists in Hex as (v & Hin & Hv).
      assert (Hall : Forall (fun v => v = VNone) (content_probes page)) by (apply Hiff; reflexivity).
      rewrite Forall_forall in Hall. exact (Hv (Hall v Hin)).
Qed.

Lemma amenities_aggregate_spec_witness :
  (_open_amenities_page_and_scrape [amenities_button] phone_only_page = None
   <-> Forall (fun v => v = VNone) (content_probes phone_only_page))
  /\ (Exists (fun v => v <> VNone) (content_probes pool_page) ->
      _open_amenities_page_and_scrape [amenities_button] pool_page
      = Some (amenities_page_data pool_page)).
Proof.
  split.
  - apply (amenities_aggregate_spec [amenities_button] phone_only_page
             amenities_button); reflexivity.
  - apply (amenities_aggregate_spec [amenities_button] pool_page
             amenities_button); reflexivity.
Defined.

(** ** Persisting the store *)

Section MainLoop.

Variable urlparse_path : string -> option string.
Variable json_loads_list : string -> option (list string).
Variable overwrite : bool.

Local Abbreviation step := (main_step urlparse_path json_loads_list overwrite).

Lemma main_step_saves (st : Run) (v : CityRef * option (list Card)) :
  saves (step st v) = saves st ++ [all_hotels (step st v)]
  /\ files (step st v) = save_outputs (all_hotels (step st v)) (files st).
Proof. split; reflexivity. Qed.

Lemma loop_saves_length (vs : list (CityRef * option (list Card))) (st : Run) :
  length (saves (fold_left step vs st)) = length (saves st) + length vs.
Proof.
  revert st. induction vs as [|v vs IH]; intros st; simpl; [lia|].
  rewrite IH. simpl. rewrite length_app. simpl. lia.
Qed.

Lemma loop_saves_prefix (vs : list (CityRef * option (list Card))) (st : Run) :
  exists more, saves (fold_left step vs st) = saves st ++ more.
Proof.
  revert st. induction vs as [|v vs IH]; intros st; simpl.
  - exists []. now rewrite app_nil_r.
  - destruct (IH (step st v)) as [more Hmore]. rewrite Hmore. simpl.
    exists (all_hotels (step st v) :: more). now rewrite <- app_assoc.
Qed.

Lemma loop_files (vs : list (CityRef * option (list Card))) (st : Run) :
  exists more,
    saves (fold_left step vs st) = saves st ++ more
    /\ files (fold_left step vs st)
       = fold_left (fun fs recs => save_outputs recs fs) more (files st).
Proof.
  revert st. induction vs as [|v vs IH]; intros st; simpl.
  - exists []. now rewrite app_nil_r.
  - destruct (IH (step st v)) as (more & Hs & Hf).
    exists (all_hotels (step st v) :: more). split.
    + rewrite Hs. simpl. now rewrite <- app_assoc.
    + rewrite Hf. reflexivity.
Qed.

Lemma loop_save_nth (vs : list (CityRef * option (list Card))) (st : Run) (n : nat) :
  n < length vs ->
  saves (fold_left step vs st) !! (length (saves st) + n)
  = Some (all_hotels (fold_left step (take (S n) vs) st)).
Proof.
  intros Hn.
  rewrite <- (take_drop (S n) vs) at 1. rewrite fold_left_app.
  destruct (loop_saves_prefix (drop (S n) vs) (fold_left step (take (S n) vs) st))
    as [more ->].
  destruct (lookup_lt_is_Some_2 vs n Hn) as [x Hx].
  rewrite (take_S_r vs n x Hx), fold_left_app.
  change (fold_left step [x] (fold_left step (take n vs) st))
    with (step (fold_left step (take n vs) st) x).
  rewrite (proj1 (main_step_saves _ x)).
  assert (Hlen : length (saves (fold_left step (take n vs) st))
                 = length (saves st) + n).
  { rewrite loop_saves_length, length_take. lia. }
  rewrite lookup_app_l by (rewrite length_app, Hlen; simpl; lia).
  rewrite lookup_app_r by (rewrite Hlen; lia).
  rewrite Hlen. replace (length (saves st) + n - (length (saves st) + n)) with 0 by lia.
  reflexivity.
Qed.

End MainLoop.

(** C5, as stated, fails: with nothing to write, [save_outputs] returns before
    it opens a file.  Here overwrite mode is on, the files of an earlier run
    hold a record, and the city yields no hotel: [save_outputs] is called
    with the empty list and both files keep their old content. *)
Lemma save_outputs_skips_empty :
  let run := main example_url_path no_json_loads true true
               [(miami, Some [])] stale_files in
  saves run = [[]]
  /\ all_hotels run = []
  /\ files run = stale_files
  /\ hotel_json (files run) <> Some (all_hotels run).
Proof. vm_compute. repeat split; discriminate. Qed.

(** C5, amended.  A call of [save_outputs] with a non-empty list of records
    writes all of them, in the order of the list (the iteration order of the
    mapping they came from), to the JSON document and, under the fixed
    columns, to the CSV document, whatever the files held before; a call with
    an empty list writes nothing.  [main] calls [save_outputs] once after
    every city it processes, with all the records gathered so far. *)
Theorem save_outputs_spec (urlparse_path : string -> option string)
    (json_loads_list : string -> option (list string))
    (run_only_one_city overwrite : bool)
    (visits : list (CityRef * option (list Card))) (fs : Files) :
  (forall records fs', records <> [] ->
     save_outputs records fs'
     = {| hotel_json := Some records;
          hotel_csv := Some (FIELDS, map csv_row records) |})
  /\ (forall fs', save_outputs [] fs' = fs')
  /\ let processed := if run_only_one_city then take 1 visits else visits in
     let run := main urlparse_path json_loads_list run_only_one_city
                  overwrite visits fs in
     length (saves run) = length processed
     /\ files run = fold_left (fun fs' recs => save_outputs recs fs') (saves run) fs
     /\ forall n, n < length processed ->
          saves run !! n
          = Some (all_hotels (main urlparse_path json_loads_list false
                                overwrite (take (S n) processed) fs)).
Proof.
  split; [|split].
  - intros [|r records] fs' Hne; [congruence | reflexivity].
  - reflexivity.
  - cbv zeta. unfold main.
    set (processed := if run_only_one_city then take 1 visits else visits).
    set (st := {| all_hotels := _; files := fs; saves := [] |}).
    split; [|split].
    + rewrite loop_saves_length. reflexivity.
    + destruct (loop_files urlparse_path json_loads_list overwrite processed st)
        as (more & Hs & Hf).
      rewrite Hs, Hf. reflexivity.
    + intros n Hn.
      exact (loop_save_nth urlparse_path json_loads_list overwrite processed st n Hn).
Qed.

Lemma save_outputs_spec_witness :
  save_outputs [stale_record] (mkFiles None None) = stale_files
  /\ saves (main example_url_path no_json_loads true false
              [(miami, None); (miami, None)] stale_files) !! 0
     = Some [stale_record].
Proof.
  pose proof (save_outputs_spec example_url_path no_json_loads true false
                [(miami, None); (miami, None)] stale_files) as (Hw & _ & Hm).
  split.
  - apply (Hw [stale_record] (mkFiles None None)). discriminate.
  - cbv zeta in Hm. destruct Hm as (_ & _ & Hn).
    rewrite (Hn 0); [reflexivity | simpl; lia].
Defined.

(** ** Phone extraction *)

Lemma phone_tail_sound (s : string) :
  forall n m, phone_tail n s = Some m ->
  exists mid d2 rest,
    m = mid +:+ String d2 EmptyString
    /\ s = m +:+ rest
    /\ all_chars is_phone_char mid = true
    /\ PyStr.is_digit d2 = true
    /\ 7 <= n + String.length mid.
Proof.
  induction s as [|c s IH]; intros n m H; simpl in H; [discriminate|].
  assert (Hstop :
    (if (7 <=? n)%nat && PyStr.is_digit c then Some (String c EmptyString) else None)
    = Some m ->
    exists mid d2 rest,
      m = mid +:+ String d2 EmptyString /\ String c s = m +:+ rest
      /\ all_chars is_phone_char mid = true /\ PyStr.is_digit d2 = true
      /\ 7 <= n + String.length mid).
  { destruct ((7 <=? n)%nat && PyStr.is_digit c) eqn:E; [|discriminate].
    intros [= <-]. apply andb_true_iff in E as [E1 E2]. apply Nat.leb_le in E1.
    exists EmptyString, c, s. simpl. repeat split; auto. lia. }
  destruct (is_phone_char c) eqn:Hc; [|exact (Hstop H)].
  destruct (phone_tail (S n) s) as [m'|] eqn:Hrec; [|exact (Hstop H)].
  injection H as <-.
  destruct (IH _ _ Hrec) as (mid & d2 & rest & -> & -> & Hmid & Hd & Hlen).
  exists (String c mid), d2, rest. simpl. rewrite Hc, Hmid.
  repeat split; auto. lia.
Qed.

Lemma phone_core_sound (s m : string) :
  phone_core s = Some m ->
  exists d1 mid d2 rest,
    m = String d1 (mid +:+ String d2 EmptyString)
    /\ s = m +:+ rest
    /\ PyStr.is_digit d1 = true
    /\ all_chars is_phone_char mid = true
    /\ 7 <= String.length mid
    /\ PyStr.is_digit d2 = true.
Proof.
  destruct s as [|c s]; simpl; [discriminate|].
  destruct (PyStr.is_digit c) eqn:Hc; [|discriminate].
  destruct (phone_tail 0 s) as [t|] eqn:Ht; simpl; [|discriminate].
  intros [= <-].
  destruct (phone_tail_sound _ _ _ Ht) as (mid & d2 & rest & -> & -> & Hmid & Hd & Hlen).
  exists c, mid, d2, rest. repeat split; auto.
Qed.

Lemma phone_here_sound (s m : string) :
  phone_here s = Some m ->
  phone_shape m /\ exists rest, s = m +:+ rest.
Proof.
  assert (Hcore : forall s m, phone_core s = Some m ->
            phone_shape m /\ exists rest, s = m +:+ rest).
  { intros s0 m0 H0.
    destruct (phone_core_sound _ _ H0) as (d1 & mid & d2 & rest & -> & -> & ? & ? & ? & ?).
    split; [|eauto]. exists EmptyString, d1, mid, d2. simpl. repeat split; auto. }
  unfold phone_here. destruct s as [|c s]; [apply Hcore|].
  destruct (decide (c = "+"%char)) as [->|Hne].
  - destruct (phone_core s) as [t|] eqn:Ht.
    + intros [= <-].
      destruct (phone_core_sound _ _ Ht) as (d1 & mid & d2 & rest & -> & -> & ? & ? & ? & ?).
      split; [|exists rest; reflexivity].
      exists "+", d1, mid, d2. simpl. repeat split; auto.
    + apply Hcore.
  - intros H. apply Hcore. destruct (decide (c = "+"%char)); [congruence | exact H].
Qed.

Lemma phone_search_sound (s m : string) :
  phone_search s = Some m -> phone_shape m /\ substring_of m s.
Proof.
  induction s as [|c s IH].
  - discriminate.
  - change (phone_search (String c s))
      with (match phone_here (String c s) with
            | Some m => Some m
            | None => phone_search s
            end).
    destruct (phone_here (String c s)) as [t|] eqn:Ht.
    + intros [= <-]. destruct (phone_here_sound _ _ Ht) as [Hs [rest Hr]].
      split; [exact Hs|]. exists EmptyString, rest. exact Hr.
    + intros H. destruct (IH H) as [Hs (pre & post & ->)].
      split; [exact Hs|]. exists (String c pre), post. reflexivity.
Qed.

Lemma phone_tail_cons (n : nat) (c : char) (s : string) :
  phone_tail n (String c s)
  = if is_phone_char c
    then match phone_tail (S n) s with
         | Some m => Some (String c m)
         | None =>
             if (7 <=? n)%nat && PyStr.is_digit c
             then Some (String c EmptyString) else None
         end
    else if (7 <=? n)%nat && PyStr.is_digit c
         then Some (String c EmptyString) else None.
Proof. reflexivity. Qed.

Lemma phone_tail_complete (mid : string) :
  forall n d2 rest,
    all_chars is_phone_char mid = true ->
    PyStr.is_digit d2 = true ->
    7 <= n + String.length mid ->
    is_Some (phone_tail n (mid +:+ String d2 rest)).
Proof.
  induction mid as [|c mid IH]; intros n d2 rest Hmid Hd Hlen.
  - simpl in Hlen. change (EmptyString +:+ String d2 rest) with (String d2 rest).
    rewrite phone_tail_cons.
    assert (Hn : (7 <=? n)%nat = true) by (apply Nat.leb_le; lia).
    rewrite Hn, Hd.
    destruct (is_phone_char d2); [|eauto].
    destruct (phone_tail (S n) rest); eauto.
  - change (String c mid +:+ String d2 rest) with (String c (mid +:+ String d2 rest)).
    rewrite phone_tail_cons.
    change (all_chars is_phone_char (String c mid))
      with (is_phone_char c && all_chars is_phone_char mid) in Hmid.
    apply andb_true_iff in Hmid as [Hc Hmid]. rewrite Hc.
    simpl in Hlen.
    destruct (IH (S n) d2 rest Hmid Hd ltac:(lia)) as [m ->]. eauto.
Qed.

Lemma phone_here_unfold (c : char) (s : string) :
  phone_here (String c s)
  = if decide (c = "+"%char)
    then match phone_core s with
         | Some m => Some (String "+" m)
         | None => phone_core (String c s)
         end
    else phone_core (String c s).
Proof. reflexivity. Qed.

Lemma phone_here_complete (m rest : string) :
  phone_shape m -> is_Some (phone_here (m +:+ rest)).
Proof.
  intros (sign & d1 & mid & d2 & -> & Hsign & Hd1 & Hmid & Hlen & Hd2).
  assert (Hcore : is_Some (phone_core (String d1 ((mid +:+ String d2 EmptyString) +:+ rest)))).
  { simpl. rewrite Hd1, sapp_assoc. simpl.
    destruct (phone_tail_complete mid 0 d2 rest Hmid Hd2 ltac:(lia)) as [t ->].
    simpl. eauto. }
  destruct Hsign as [-> | ->].
  - change (is_Some (phone_here
              (String d1 ((mid +:+ String d2 EmptyString) +:+ rest)))).
    rewrite phone_here_unfold. destruct (decide (d1 = "+"%char)) as [->|_].
    + discriminate Hd1.
    + exact Hcore.
  - change (is_Some (phone_here
              (String "+" (String d1 ((mid +:+ String d2 EmptyString) +:+ rest))))).
    rewrite phone_here_unfold. destruct (decide _) as [_|Hne]; [|congruence].
    destruct Hcore as [t ->]. eauto.
Qed.

Lemma phone_search_unfold (s : string) :
  phone_search s
  = match phone_here s with
    | Some m => Some m
    | None =>
        match s with
        | EmptyString => None
        | String _ s' => phone_search s'
        end
    end.
Proof. destruct s; reflexivity. Qed.

Lemma phone_search_complete (s m : string) :
  substring_of m s -> phone_shape m -> is_Some (phone_search s).
Proof.
  intros (pre & post & ->) Hm. induction pre as [|c pre IH].
  - change (EmptyString +:+ m +:+ post) with (m +:+ post).
    rewrite phone_search_unfold.
    destruct (phone_here_complete m post Hm) as [t ->]. eauto.
  - change (String c pre +:+ m +:+ post) with (String c (pre +:+ m +:+ post)).
    rewrite phone_search_unfold.
    destruct (phone_here _); eauto.
Qed.

(** The match at a position is the longest there: the class is taken
    greedily and given back only down to the last digit. *)
Lemma phone_tail_longest (s : string) :
  forall n m, phone_tail n s = Some m ->
  forall mid d2 rest,
    s = mid +:+ String d2 rest ->
    all_chars is_phone_char mid = true ->
    PyStr.is_digit d2 = true ->
    7 <= n + String.length mid ->
    String.length mid + 1 <= String.length m.
Proof.
  induction s as [|c s IH]; intros n m H mid d2 rest Hs Hmid Hd Hlen.
  - discriminate H.
  - assert (Hm : 1 <= String.length m).
    { rewrite phone_tail_cons in H.
      destruct (is_phone_char c); [destruct (phone_tail (S n) s)|];
        try (injection H as <-; simpl; lia);
        destruct ((7 <=? n)%nat && PyStr.is_digit c); try discriminate H;
        injection H as <-; simpl; lia. }
    destruct mid as [|x mid]; [simpl; lia|].
    change (String x mid +:+ String d2 rest) with (String x (mid +:+ String d2 rest)) in Hs.
    injection Hs as <- Hs.
    change (all_chars is_phone_char (String c mid))
      with (is_phone_char c && all_chars is_phone_char mid) in Hmid.
    apply andb_true_iff in Hmid as [Hc Hmid]. simpl in Hlen.
    rewrite phone_tail_cons, Hc in H.
    destruct (phone_tail_complete mid (S n) d2 rest Hmid Hd ltac:(lia)) as [t Ht].
    rewrite <- Hs in Ht. rewrite Ht in H. injection H as <-.
    pose proof (IH (S n) t Ht mid d2 rest Hs Hmid Hd ltac:(lia)) as Hle.
    simpl. lia.
Qed.

Lemma phone_core_longest (s m : string) :
  phone_core s = Some m ->
  forall d1 mid d2 rest,
    s = String d1 (mid +:+ String d2 EmptyString) +:+ rest ->
    all_chars is_phone_char mid = true ->
    7 <= String.length mid ->
    PyStr.is_digit d2 = true ->
    String.length (String d1 (mid +:+ String d2 EmptyString)) <= String.length m.
Proof.
  intros H d1 mid d2 rest -> Hmid Hlen Hd2.
  change (String d1 (mid +:+ String d2 EmptyString) +:+ rest)
    with (String d1 ((mid +:+ String d2 EmptyString) +:+ rest)) in H.
  rewrite sapp_assoc in H. simpl in H.
  destruct (PyStr.is_digit d1); [|discriminate H].
  destruct (phone_tail 0 (mid +:+ String d2 rest)) as [t|] eqn:Ht; [|discriminate H].
  injection H as <-.
  pose proof (phone_tail_longest _ _ _ Ht mid d2 rest eq_refl Hmid Hd2 ltac:(lia)) as Hle.
  simpl. rewrite sapp_length. simpl. lia.
Qed.

Lemma phone_here_longest (s m : string) :
  phone_here s = Some m ->
  forall m' rest, s = m' +:+ rest -> phone_shape m' ->
                  String.length m' <= String.length m.
Proof.
  intros H m' rest -> (sign & d1 & mid & d2 & -> & Hsign & Hd1 & Hmid & Hlen & Hd2).
  destruct Hsign as [-> | ->].
  - change (EmptyString +:+ String d1 (mid +:+ String d2 EmptyString))
      with (String d1 (mid +:+ String d2 EmptyString)) in *.
    change (String d1 (mid +:+ String d2 EmptyString) +:+ rest)
      with (String d1 ((mid +:+ String d2 EmptyString) +:+ rest)) in H.
    rewrite phone_here_unfold in H.
    destruct (decide (d1 = "+"%char)) as [->|_]; [discriminate Hd1|].
    exact (phone_core_longest _ _ H d1 mid d2 rest eq_refl Hmid Hlen Hd2).
  - change (("+" +:+ String d1 (mid +:+ String d2 EmptyString)) +:+ rest)
      with (String "+" (String d1 (mid +:+ String d2 EmptyString) +:+ rest)) in H.
    rewrite phone_here_unfold in H.
    destruct (decide ("+"%char = "+"%char)) as [_|Hne]; [|congruence].
    destruct (phone_core (String d1 (mid +:+ String d2 EmptyString) +:+ rest))
      as [t|] eqn:Ht.
    + injection H as <-.
      pose proof (phone_core_longest _ _ Ht d1 mid d2 rest eq_refl Hmid Hlen Hd2) as Hle.
      change ("+" +:+ String d1 (mid +:+ String d2 EmptyString))
        with (String "+" (String d1 (mid +:+ String d2 EmptyString))).
      simpl in *. lia.
    + exfalso.
      assert (Hc : is_Some (phone_core
                (String d1 ((mid +:+ String d2 EmptyString) +:+ rest)))).
      { simpl. rewrite Hd1, sapp_assoc. simpl.
        destruct (phone_tail_complete mid 0 d2 rest Hmid Hd2 ltac:(lia)) as [t ->].
        simpl. eauto. }
      change (String d1 ((mid +:+ String d2 EmptyString) +:+ rest))
        with (String d1 (mid +:+ String d2 EmptyString) +:+ rest) in Hc.
      rewrite Ht in Hc. destruct Hc as [? Hc]. discriminate Hc.
Qed.

(** [re.search] answers with the match that starts first, and with the
    longest of those that start there. *)
Lemma phone_search_leftmost (s m : string) :
  phone_search s = Some m ->
  exists pre post,
    s = pre +:+ m +:+ post
    /\ forall pre' m' post',
         s = pre' +:+ m' +:+ post' -> phone_shape m' ->
         String.length pre <= String.length pre'
         /\ (String.length pre' = String.length pre ->
             String.length m' <= String.length m).
Proof.
  revert m. induction s as [|c s IH]; intros m H; [discriminate|].
  rewrite phone_search_unfold in H.
  destruct (phone_here (String c s)) as [t|] eqn:Ht.
  - injection H as <-. destruct (phone_here_sound _ _ Ht) as [_ [rest Hr]].
    exists EmptyString, rest. split; [exact Hr|].
    intros pre' m' post' Hs Hshape. split; [simpl; lia|].
    intros Hl. destruct pre' as [|x pre']; [|discriminate Hl].
    exact (phone_here_longest _ _ Ht m' post' Hs Hshape).
  - destruct (IH m H) as (pre & post & Hs & Hleft).
    exists (String c pre), post. split; [simpl; now rewrite Hs|].
    intros pre' m' post' Hs' Hshape.
    destruct pre' as [|x pre'].
    + exfalso. change (EmptyString +:+ m' +:+ post') with (m' +:+ post') in Hs'.
      destruct (phone_here_complete m' post' Hshape) as [t Ht'].
      rewrite <- Hs' in Ht'. congruence.
    + change (String x pre' +:+ m' +:+ post') with (String x (pre' +:+ m' +:+ post')) in Hs'.
      injection Hs' as <- Hs'.
      destruct (Hleft pre' m' post' Hs' Hshape) as [H1 H2].
      simpl. split; [lia|]. intros Hl. apply H2. lia.
Qed.

Lemma phone_shape_strip (m : string) : phone_shape m -> PyStr.strip m = m.
Proof.
  intros (sign & d1 & mid & d2 & -> & Hsign & Hd1 & Hmid & Hlen & Hd2).
  unfold PyStr.strip, PyStr.strip_by.
  assert (Hl : forall t, PyStr.lstrip_by PyStr.is_space (sign +:+ String d1 t)
                         = sign +:+ String d1 t).
  { intros t. destruct Hsign as [-> | ->]; simpl.
    - now rewrite (digit_not_space d1 Hd1).
    - reflexivity. }
  rewrite Hl.
  change (String d1 (mid +:+ String d2 EmptyString))
    with (String d1 mid +:+ String d2 EmptyString).
  rewrite <- sapp_assoc. apply rstrip_by_last, digit_not_space, Hd2.
Qed.

Lemma phone_shape_size (m : string) :
  phone_shape m -> 9 <= String.length m /\ 2 <= count_digits m.
Proof.
  intros (sign & d1 & mid & d2 & -> & Hsign & Hd1 & Hmid & Hlen & Hd2).
  assert (Hcount : forall a b, count_digits (a +:+ b) = count_digits a + count_digits b).
  { intros a b. induction a as [|x a IH]; simpl; [reflexivity | rewrite IH; lia]. }
  split.
  - rewrite sapp_length. simpl. rewrite sapp_length. simpl. lia.
  - rewrite Hcount. simpl. rewrite Hd1, Hcount. simpl. rewrite Hd2. lia.
Qed.

Lemma first_tel_number_hit (pre : list (option string)) (h : option string)
    (post : list (option string)) :
  Forall (fun x => tel_number x = EmptyString) pre ->
  tel_number h <> EmptyString ->
  first_tel_number (pre ++ h :: post) = Some (tel_number h).
Proof.
  intros Hpre Hh. induction Hpre as [|x pre Hx _ IH]; simpl.
  - fold (tel_number h). destruct (tel_number h); [congruence | reflexivity].
  - fold (tel_number x). rewrite Hx. simpl. exact IH.
Qed.

Lemma first_tel_number_miss (hrefs : list (option string)) :
  Forall (fun x => tel_number x = EmptyString) hrefs ->
  first_tel_number hrefs = None.
Proof.
  induction 1 as [|x l Hx _ IH]; simpl; [reflexivity|].
  fold (tel_number x). rewrite Hx. simpl. exact IH.
Qed.

(** C10, as stated, fails: the pattern asks for two digits with at least
    seven digits or separators between them, not for nine digits.  Here the
    page has no [tel:] link and its text holds a range of years. *)
Lemma extract_phone_two_years :
  _extract_phone [] "Open 2019 - 2020 season" = Some "2019 - 2020"
  /\ count_digits "2019 - 2020" = 8.
Proof. split; vm_compute; reflexivity. Qed.

(** The digits of the pattern are those of any script: here full-width
    digits. *)
Lemma extract_phone_fullwidth :
  _extract_phone [] "Tel ０３-１２３４-５６７８ today" = Some "０３-１２３４-５６７８".
Proof. vm_compute. reflexivity. Qed.

(** C10, amended.  [_extract_phone] returns the number of the first [tel:]
    link whose number (the href without [tel:], stripped) is not empty.
    When no link has one, it returns the leftmost match in the visible text
    of the pattern "optional plus sign, digit, at least seven digits or
    separators, digit": a substring of the text of at least nine characters
    of which at least two are digits, such that no substring of that shape
    starts before it and none that starts where it starts is longer.  It
    returns [None] exactly when no link has a number and the text has no
    substring of that shape.  A digit is a decimal digit of any script, as
    for [\d] in a [str] pattern. *)
Theorem extract_phone_spec (tel_hrefs : list (option string)) (body : string) :
  (forall pre h post,
      tel_hrefs = pre ++ h :: post ->
      Forall (fun x => tel_number x = EmptyString) pre ->
      tel_number h <> EmptyString ->
      _extract_phone tel_hrefs body = Some (tel_number h))
  /\ (Forall (fun x => tel_number x = EmptyString) tel_hrefs ->
      _extract_phone tel_hrefs body = phone_search body
      /\ (forall m, _extract_phone tel_hrefs body = Some m ->
            substring_of m body /\ phone_shape m
            /\ 9 <= String.length m /\ 2 <= count_digits m)
      /\ (forall m, _extract_phone tel_hrefs body = Some m ->
            exists before after,
              body = before +:+ m +:+ after
              /\ forall before' m' after',
                   body = before' +:+ m' +:+ after' -> phone_shape m' ->
                   String.length before <= String.length before'
                   /\ (String.length before' = String.length before ->
                       String.length m' <= String.length m))
      /\ (_extract_phone tel_hrefs body = None
          <-> ~ exists m, substring_of m body /\ phone_shape m)).
Proof.
  split.
  - intros pre h post -> Hpre Hh. unfold _extract_phone.
    now rewrite (first_tel_number_hit pre h post Hpre Hh).
  - intros Hnone. unfold _extract_phone.
    rewrite (first_tel_number_miss _ Hnone).
    assert (Heq : match phone_search body with
                  | Some m => Some (PyStr.strip m)
                  | None => None
                  end = phone_search body).
    { destruct (phone_search body) as [m|] eqn:Hs; [|reflexivity].
      destruct (phone_search_sound _ _ Hs) as [Hshape _].
      now rewrite (phone_shape_strip m Hshape). }
    rewrite Heq. split; [reflexivity|]. split; [|split].
    + intros m Hm. destruct (phone_search_sound _ _ Hm) as [Hshape Hsub].
      destruct (phone_shape_size m Hshape). auto.
    + intros m Hm. now apply phone_search_leftmost.
    + split.
      * intros Hn (m & Hsub & Hshape).
        destruct (phone_search_complete body m Hsub Hshape) as [t Ht]. congruence.
      * intros Hno. destruct (phone_search body) as [m|] eqn:Hs; [|reflexivity].
        exfalso. apply Hno. exists m.
        destruct (phone_search_sound _ _ Hs). auto.
Qed.

Lemma extract_phone_spec_witness :
  _extract_phone [Some "tel:"; Some "tel: +1 305 555 0100"] "Call 305-555-0199"
  = Some "+1 305 555 0100"
  /\ _extract_phone [Some "tel:"] "Call 305-555-0199 today" = phone_search "Call 305-555-0199 today".
Proof.
  split.
  - apply (proj1 (extract_phone_spec [Some "tel:"; Some "tel: +1 305 555 0100"]
                    "Call 305-555-0199")
             [Some "tel:"] (Some "tel: +1 305 555 0100") []).
    + reflexivity.
    + constructor; [vm_compute; reflexivity | constructor].
    + vm_compute. discriminate.
  - apply (proj2 (extract_phone_spec [Some "tel:"] "Call 305-555-0199 today")).
    constructor; [vm_compute; reflexivity | constructor].
Defined.

(** ** The city enumerator *)

Lemma city_loop_spec (links : list Elem) :
  forall seen_c seen_s cities,
    (forall u, looks_like_city_url u = true -> u ∈ seen_c <-> u ∈ seen_s) ->
    city_loop links seen_c cities
    = cities ++ (city_of_pair <$>
                   filter (fun p => looks_like_city_url (snd p) = true)
                          (dedup_by_href seen_s (collect_links links))).
Proof.
  induction links as [|el links IH]; intros seen_c seen_s cities Hinv.
  - simpl. now rewrite app_nil_r.
  - unfold collect_links. simpl. fold (collect_links links).
    destruct (el_href el) as [url|]; [|now apply IH].
    destruct (PyStr.nonempty url) eqn:Hne; simpl; [|now apply IH].
    destruct (looks_like_city_url url) eqn:Hkeep.
    + destruct (bool_decide (url ∈ seen_c)) eqn:Hc.
      * apply bool_decide_eq_true in Hc.
        rewrite (bool_decide_eq_true_2 (url ∈ seen_s)) by (now apply Hinv).
        now apply IH.
      * apply bool_decide_eq_false in Hc.
        rewrite (bool_decide_eq_false_2 (url ∈ seen_s)) by (now rewrite <- Hinv).
        rewrite filter_cons_True by exact Hkeep.
        rewrite (IH (seen_c ++ [url]) (url :: seen_s)).
        -- rewrite <- app_assoc. reflexivity.
        -- intros u Hu. rewrite elem_of_app, list_elem_of_singleton, elem_of_cons.
           rewrite (Hinv u Hu). tauto.
    + transitivity (city_loop links seen_c cities);
        [destruct (bool_decide (url ∈ seen_c)); reflexivity|].
      destruct (bool_decide (url ∈ seen_s)) eqn:Hs.
      * now apply IH.
      * rewrite filter_cons_False by (simpl; congruence).
        apply IH. intros u Hu. rewrite (Hinv u Hu), elem_of_cons.
        split; [tauto|]. intros [->|H]; [congruence | exact H].
Qed.

Lemma dedup_by_href_sublist (l : list (string * string)) :
  forall seen, sublist (dedup_by_href seen l) l.
Proof.
  induction l as [|[name url] l IH]; intros seen; simpl.
  - constructor.
  - destruct (bool_decide (url ∈ seen)).
    + apply sublist_cons, IH.
    + apply sublist_skip, IH.
Qed.

Lemma dedup_by_href_fresh (l : list (string * string)) :
  forall seen p, p ∈ dedup_by_href seen l -> snd p ∉ seen.
Proof.
  induction l as [|[name url] l IH]; intros seen p; simpl.
  - intros H. inversion H.
  - destruct (bool_decide (url ∈ seen)) eqn:Hs.
    + apply IH.
    + apply bool_decide_eq_false in Hs. intros H.
      apply elem_of_cons in H as [->|H]; [exact Hs|].
      intros Hin. apply (IH _ _ H). now right.
Qed.

Lemma dedup_by_href_nodup (l : list (string * string)) :
  forall seen, NoDup ((dedup_by_href seen l).*2).
Proof.
  induction l as [|[name url] l IH]; intros seen; simpl.
  - constructor.
  - destruct (bool_decide (url ∈ seen)); [apply IH|].
    rewrite fmap_cons. constructor; [|apply IH].
    intros Hin. apply list_elem_of_fmap in Hin as (p & Hp & Hin).
    apply dedup_by_href_fresh in Hin. apply Hin. simpl in Hp. rewrite <- Hp. now left.
Qed.

Lemma dedup_by_href_complete (l : list (string * string)) :
  forall seen p, p ∈ l -> snd p ∈ seen \/ snd p ∈ (dedup_by_href seen l).*2.
Proof.
  induction l as [|[name url] l IH]; intros seen p Hin.
  - inversion Hin.
  - simpl. apply elem_of_cons in Hin as [->|Hin].
    + simpl. destruct (bool_decide (url ∈ seen)) eqn:Hs.
      * apply bool_decide_eq_true in Hs. now left.
      * right. rewrite fmap_cons. now left.
    + destruct (bool_decide (url ∈ seen)) eqn:Hs; [now apply IH|].
      destruct (IH (url :: seen) p Hin) as [H|H].
      * apply elem_of_cons in H as [->|H]; [|now left].
        right. rewrite fmap_cons. now left.
      * right. rewrite fmap_cons. now right.
Qed.

Lemma city_url_of_pairs (l : list (string * string)) :
  city_url <$> (city_of_pair <$> l) = l.*2.
Proof.
  induction l as [|p l IH]; [reflexivity|].
  rewrite !fmap_cons, IH. reflexivity.
Qed.

(** C7. [scrape_city_urls] computes what the contract says: the (name, url)
    pairs of the matching link elements, deduplicated by href, then filtered
    to the hrefs that contain the domain and one of the keywords.  The result
    keeps the order of the page, holds no href twice, holds only hrefs that
    pass the filter, and holds every href of the page that passes it.  When
    no element appeared before the timeout the result is empty. *)
Theorem scrape_city_urls_spec (links : list Elem) :
  scrape_city_urls links = city_urls_spec links
  /\ sublist (scrape_city_urls links) (city_of_pair <$> collect_links links)
  /\ NoDup (city_url <$> scrape_city_urls links)
  /\ (forall c, c ∈ scrape_city_urls links -> looks_like_city_url (city_url c) = true)
  /\ (forall el url,
        el ∈ links -> el_href el = Some url -> url <> EmptyString ->
        looks_like_city_url url = true ->
        url ∈ city_url <$> scrape_city_urls links)
  /\ scrape_city_urls [] = [].
Proof.
  assert (Heq : scrape_city_urls links = city_urls_spec links).
  { unfold scrape_city_urls. rewrite (city_loop_spec links [] [] []); [reflexivity|].
    intros u _. reflexivity. }
  split; [exact Heq|]. rewrite Heq. unfold city_urls_spec.
  split; [|split; [|split; [|split]]].
  - apply fmap_sublist. etransitivity; [apply sublist_filter|].
    apply dedup_by_href_sublist.
  - rewrite city_url_of_pairs.
    apply (sublist_NoDup _ ((dedup_by_href [] (collect_links links)).*2));
      first [apply dedup_by_href_nodup | apply fmap_sublist, sublist_filter].
  - intros c Hc. apply list_elem_of_fmap in Hc as (p & -> & Hp).
    apply list_elem_of_filter in Hp as [Hp _]. exact Hp.
  - intros el url Hel Hhref Hne Hkeep. rewrite city_url_of_pairs.
    assert (Hin : (PyStr.strip (el_text el), url) ∈ collect_links links).
    { apply list_elem_of_omap. exists el. split; [exact Hel|].
      rewrite Hhref. destruct url; [congruence | reflexivity]. }
    destruct (dedup_by_href_complete _ [] _ Hin) as [H|H]; [inversion H|].
    apply list_elem_of_fmap in H as (p & Hp & Hpin). simpl in Hp.
    apply list_elem_of_fmap. exists p. split; [exact Hp|].
    apply list_elem_of_filter. split; [|exact Hpin]. now rewrite <- Hp.
  - reflexivity.
Qed.

Lemma scrape_city_urls_spec_witness :
  scrape_city_urls landing_links
  = [ mkCity "Miami" "https://www.ihg.com/explore/pet-friendly-hotels/miami";
      mkCity "Austin" "https://www.ihg.com/destinations/us/en/austin" ]
  /\ "https://www.ihg.com/destinations/us/en/austin"
       ∈ city_url <$> scrape_city_urls landing_links.
Proof.
  split; [vm_compute; reflexivity|].
  apply (proj1 (proj2 (proj2 (proj2 (proj2 (scrape_city_urls_spec landing_links)))))
           (mkElem "Austin" (Some "https://www.ihg.com/destinations/us/en/austin"))).
  - vm_compute. do 5 right. left.
  - reflexivity.
  - discriminate.
  - vm_compute; reflexivity.
Defined.

(** ** Dictionaries *)

Section DictFacts.
Context {K V : Type} `{EqDecision K}.
Implicit Types (d : list (K * V)) (k : K) (v : V).

Lemma get_assign d k v j :
  PyDict.get (PyDict.assign d k v) j
  = if decide (k = j) then Some v else PyDict.get d j.
Proof.
  induction d as [|[k' v'] d IH]; simpl.
  - destruct (decide (k = j)); reflexivity.
  - destruct (decide (k' = k)) as [->|Hne]; simpl.
    + destruct (decide (k = j)); reflexivity.
    + destruct (decide (k' = j)) as [->|Hne'].
      * destruct (decide (k = j)); [congruence | reflexivity].
      * exact IH.
Qed.

Lemma mem_keys d k : PyDict.mem d k = true <-> k ∈ PyDict.keys d.
Proof.
  unfold PyDict.mem, PyDict.keys. induction d as [|[k' v'] d IH]; simpl.
  - split; [discriminate | intros Hin; inversion Hin].
  - rewrite elem_of_cons. destruct (decide (k' = k)) as [->|Hne].
    + split; [now left | reflexivity].
    + rewrite IH. split; [now right | intros [->|Hin]; [congruence | exact Hin]].
Qed.

Lemma mem_false_keys d k : PyDict.mem d k = false <-> k ∉ PyDict.keys d.
Proof.
  rewrite <- mem_keys. destruct (PyDict.mem d k); split; congruence.
Qed.

Lemma assign_absent d k v :
  k ∉ PyDict.keys d -> PyDict.assign d k v = d ++ [(k, v)].
Proof.
  unfold PyDict.keys. induction d as [|[k' v'] d IH]; simpl; intros Hk.
  - reflexivity.
  - apply not_elem_of_cons in Hk as [Hne Hk].
    destruct (decide (k' = k)); [congruence|]. now rewrite IH.
Qed.

Lemma keys_assign d k v :
  PyDict.keys (PyDict.assign d k v)
  = if PyDict.mem d k then PyDict.keys d else PyDict.keys d ++ [k].
Proof.
  unfold PyDict.mem, PyDict.keys. induction d as [|[k' v'] d IH]; simpl.
  - reflexivity.
  - destruct (decide (k' = k)) as [->|Hne]; simpl; [reflexivity|].
    rewrite IH. destruct (PyDict.get d k); reflexivity.
Qed.

End DictFacts.

(** ** Merging new records into the store *)

Lemma first_new_keyed (hotels : list (list (string * pyval))) :
  forall seen, keyed (first_new seen hotels).
Proof.
  induction hotels as [|h hotels IH]; intros seen; simpl.
  - constructor.
  - destruct (bool_decide (record_key h ∈ seen)); [apply IH|].
    constructor; [reflexivity | apply IH].
Qed.

Lemma first_new_fresh (hotels : list (list (string * pyval))) :
  forall seen kv, kv ∈ first_new seen hotels -> (fst kv ∉ seen) /\ (snd kv ∈ hotels).
Proof.
  induction hotels as [|h hotels IH]; intros seen kv; simpl.
  - intros Hin. inversion Hin.
  - destruct (bool_decide (record_key h ∈ seen)) eqn:Hs.
    + intros Hin. destruct (IH _ _ Hin). split; [assumption | now right].
    + apply bool_decide_eq_false in Hs. intros Hin.
      apply elem_of_cons in Hin as [->|Hin]; [split; [exact Hs | now left]|].
      destruct (IH _ _ Hin) as [Hf Hh]. split; [|now right].
      intros Hk. apply Hf. now right.
Qed.

Lemma first_new_nodup (hotels : list (list (string * pyval))) :
  forall seen, NoDup (PyDict.keys (first_new seen hotels)).
Proof.
  induction hotels as [|h hotels IH]; intros seen; simpl.
  - constructor.
  - destruct (bool_decide (record_key h ∈ seen)); [apply IH|].
    simpl. constructor; [|apply IH].
    intros Hin. apply list_elem_of_In, in_map_iff in Hin as (kv & Hk & Hin).
    apply list_elem_of_In, first_new_fresh in Hin as [Hf _].
    apply Hf. rewrite Hk. now left.
Qed.

Lemma first_new_complete (hotels : list (list (string * pyval))) :
  forall seen h, h ∈ hotels ->
    record_key h ∈ seen \/ record_key h ∈ PyDict.keys (first_new seen hotels).
Proof.
  induction hotels as [|h0 hotels IH]; intros seen h Hin.
  - inversion Hin.
  - simpl. destruct (bool_decide (record_key h0 ∈ seen)) eqn:Hs.
    + apply elem_of_cons in Hin as [->|Hin]; [|now apply IH].
      apply bool_decide_eq_true in Hs. now left.
    + simpl. apply elem_of_cons in Hin as [->|Hin]; [right; now left|].
      destruct (IH (record_key h0 :: seen) h Hin) as [H|H].
      * apply elem_of_cons in H as [->|H]; [right; now left | now left].
      * right. now right.
Qed.

Lemma first_new_first (pre : list (list (string * pyval))) :
  forall seen h post,
    record_key h ∉ seen ->
    record_key h ∉ (record_key <$> pre) ->
    (record_key h, h) ∈ first_new seen (pre ++ h :: post).
Proof.
  induction pre as [|p pre IH]; intros seen h post Hseen Hpre; simpl.
  - rewrite bool_decide_eq_false_2 by exact Hseen. now left.
  - rewrite fmap_cons in Hpre. apply not_elem_of_cons in Hpre as [Hne Hpre].
    destruct (bool_decide (record_key p ∈ seen)); [now apply IH|].
    right. apply IH; [|exact Hpre].
    intros H. apply elem_of_cons in H as [H|H]; [congruence | exact (Hseen H)].
Qed.

Lemma merge_without_overwrite (hotels : list (list (string * pyval))) :
  forall existing_map seen,
    (forall k, k ∈ PyDict.keys existing_map <-> k ∈ seen) ->
    merge_into false hotels existing_map
    = existing_map ++ first_new seen hotels.
Proof.
  unfold merge_into.
  induction hotels as [|h hotels IH]; intros E seen Hseen; simpl.
  - now rewrite app_nil_r.
  - rewrite andb_true_r. destruct (PyDict.mem E (record_key h)) eqn:Hm.
    + apply mem_keys in Hm.
      rewrite bool_decide_eq_true_2 by (now apply Hseen). now apply IH.
    + apply mem_false_keys in Hm.
      rewrite bool_decide_eq_false_2 by (now rewrite <- Hseen).
      rewrite (assign_absent _ _ _ Hm).
      rewrite (IH _ (record_key h :: seen)).
      * now rewrite <- app_assoc.
      * intros k. unfold PyDict.keys. rewrite map_app. simpl.
        rewrite elem_of_app, list_elem_of_singleton, elem_of_cons.
        specialize (Hseen k). unfold PyDict.keys in Hseen. tauto.
Qed.

Lemma merge_into_cons (overwrite : bool) (h : list (string * pyval))
    (hotels : list (list (string * pyval)))
    (existing_map : list ((pyval * pyval) * list (string * pyval))) :
  merge_into overwrite (h :: hotels) existing_map
  = merge_into overwrite hotels
      (if PyDict.mem existing_map (record_key h) && negb overwrite
       then existing_map
       else PyDict.assign existing_map (record_key h) h).
Proof. reflexivity. Qed.

Lemma latest_from_some (k : pyval * pyval) (hotels : list (list (string * pyval)))
    (x : list (string * pyval)) :
  fold_left (fun acc h => if decide (record_key h = k) then Some h else acc)
            hotels (Some x)
  = match latest k hotels with
    | Some y => Some y
    | None => Some x
    end.
Proof.
  unfold latest. revert x. induction hotels as [|h hotels IH]; intros x; simpl.
  - reflexivity.
  - destruct (decide (record_key h = k)).
    + rewrite !IH. destruct (fold_left _ hotels None); reflexivity.
    + apply IH.
Qed.

Lemma merge_with_overwrite_get (hotels : list (list (string * pyval))) :
  forall existing_map k,
    PyDict.get (merge_into true hotels existing_map) k
    = match latest k hotels with
      | Some h => Some h
      | None => PyDict.get existing_map k
      end.
Proof.
  induction hotels as [|h hotels IH]; intros E k.
  - reflexivity.
  - rewrite merge_into_cons, andb_false_r.
    rewrite IH, get_assign. unfold latest at 2. simpl.
    destruct (decide (record_key h = k)).
    + rewrite latest_from_some. destruct (latest k hotels); reflexivity.
    + reflexivity.
Qed.

Lemma merge_with_overwrite_keys (hotels : list (list (string * pyval))) :
  forall existing_map seen,
    (forall k, k ∈ PyDict.keys existing_map <-> k ∈ seen) ->
    PyDict.keys (merge_into true hotels existing_map)
    = PyDict.keys existing_map ++ PyDict.keys (first_new seen hotels).
Proof.
  induction hotels as [|h hotels IH]; intros E seen Hseen.
  - unfold merge_into. simpl. now rewrite app_nil_r.
  - rewrite merge_into_cons, andb_false_r.
    change (first_new seen (h :: hotels))
      with (if bool_decide (record_key h ∈ seen) then first_new seen hotels
            else (record_key h, h) :: first_new (record_key h :: seen) hotels).
    destruct (bool_decide (record_key h ∈ seen)) eqn:Hs.
    + apply bool_decide_eq_true in Hs.
      assert (Hm : PyDict.mem E (record_key h) = true) by (now apply mem_keys, Hseen).
      rewrite (IH _ seen).
      * rewrite keys_assign, Hm. reflexivity.
      * intros k. rewrite keys_assign, Hm. apply Hseen.
    + apply bool_decide_eq_false in Hs.
      assert (Hm : PyDict.mem E (record_key h) = false)
        by (apply mem_false_keys; now rewrite Hseen).
      rewrite (IH _ (record_key h :: seen)).
      * rewrite keys_assign, Hm, <- app_assoc. reflexivity.
      * intros k. rewrite keys_assign, Hm.
        rewrite elem_of_app, list_elem_of_singleton, elem_of_cons, (Hseen k). tauto.
Qed.

Lemma get_app_l {K V : Type} `{EqDecision K} (d d' : list (K * V)) (k : K) :
  k ∈ PyDict.keys d -> PyDict.get (d ++ d') k = PyDict.get d k.
Proof.
  unfold PyDict.keys. induction d as [|[k' v'] d IH]; simpl; intros Hin.
  - inversion Hin.
  - destruct (decide (k' = k)); [reflexivity|].
    apply elem_of_cons in Hin as [->|Hin]; [congruence | now apply IH].
Qed.

Lemma values_length {K V : Type} (d : list (K * V)) :
  length (PyDict.values d) = length (PyDict.keys d).
Proof. unfold PyDict.values, PyDict.keys. now rewrite !length_map. Qed.

(** C1, as stated, fails: of two new records with the same key, absent from
    the existing mapping, only the first gets in. *)
Lemma append_or_merge_skips_repeated_key :
  append_or_merge false
    [hotel_x "2025-01-01T10:00:00"; hotel_x "2025-01-01T10:05:00"] []
  = [hotel_x "2025-01-01T10:00:00"]
  /\ (record_key (hotel_x "2025-01-01T10:05:00")
        ∉ PyDict.keys ([] : list ((pyval * pyval) * list (string * pyval))))
  /\ (hotel_x "2025-01-01T10:05:00"
        ∉ append_or_merge false
            [hotel_x "2025-01-01T10:00:00"; hotel_x "2025-01-01T10:05:00"] []).
Proof.
  split; [vm_compute; reflexivity|]. split.
  - intros H. inversion H.
  - intros H. vm_compute in H. apply list_elem_of_singleton in H. discriminate H.
Qed.

(** C1, amended.  With overwrite disabled, [append_or_merge] returns the
    entries of the existing mapping, unchanged and in order, followed by the
    first new record of each key that the mapping lacks; a new record whose
    key the mapping has, or that a new record before it has, is skipped.
    With overwrite enabled, every key of the mapping stays where it is and
    holds the last new record with that key, or its old entry when no new
    record has the key.  In both modes no key of the mapping is dropped. *)
Theorem append_or_merge_spec (hotels : list (list (string * pyval)))
    (existing_map : list ((pyval * pyval) * list (string * pyval))) :
  let added := first_new (PyDict.keys existing_map) hotels in
  append_or_merge false hotels existing_map
  = PyDict.values existing_map ++ PyDict.values added
  /\ (forall k, k ∈ PyDict.keys existing_map ->
        PyDict.get (merge_into false hotels existing_map) k
        = PyDict.get existing_map k)
  /\ (forall kv, kv ∈ added ->
        (snd kv ∈ hotels) /\ record_key (snd kv) = fst kv
        /\ (fst kv ∉ PyDict.keys existing_map))
  /\ NoDup (PyDict.keys added)
  /\ (forall pre h post,
        hotels = pre ++ h :: post ->
        record_key h ∉ PyDict.keys existing_map ->
        record_key h ∉ (record_key <$> pre) ->
        h ∈ append_or_merge false hotels existing_map)
  /\ (forall k,
        PyDict.get (merge_into true hotels existing_map) k
        = match latest k hotels with
          | Some h => Some h
          | None => PyDict.get existing_map k
          end)
  /\ PyDict.keys (merge_into true hotels existing_map)
     = PyDict.keys existing_map ++ PyDict.keys added
  /\ (forall overwrite,
        length existing_map
        <= length (append_or_merge overwrite hotels existing_map)).
Proof.
  intros added.
  assert (Hfalse : merge_into false hotels existing_map = existing_map ++ added)
    by (apply merge_without_overwrite; reflexivity).
  assert (Htrue : PyDict.keys (merge_into true hotels existing_map)
                  = PyDict.keys existing_map ++ PyDict.keys added)
    by (apply merge_with_overwrite_keys; reflexivity).
  assert (Hvals : append_or_merge false hotels existing_map
                  = PyDict.values existing_map ++ PyDict.values added).
  { unfold append_or_merge. rewrite Hfalse. unfold PyDict.values. apply map_app. }
  split; [exact Hvals|]. split; [|split; [|split; [|split; [|split; [|split]]]]].
  - intros k Hk. rewrite Hfalse. now apply get_app_l.
  - intros kv Hkv. destruct (first_new_fresh _ _ _ Hkv) as [Hf Hin].
    pose proof (first_new_keyed hotels (PyDict.keys existing_map)) as Hkeyed.
    unfold keyed in Hkeyed. rewrite Forall_forall in Hkeyed. auto.
  - apply first_new_nodup.
  - intros pre h post -> Hk Hpre. rewrite Hvals. apply elem_of_app. right.
    apply list_elem_of_In. unfold PyDict.values.
    apply (in_map snd _ (record_key h, h)), list_elem_of_In.
    now apply first_new_first.
  - apply merge_with_overwrite_get.
  - exact Htrue.
  - intros overwrite. unfold append_or_merge. rewrite values_length.
    destruct overwrite.
    + rewrite Htrue, length_app. unfold PyDict.keys at 1. rewrite length_map. lia.
    + rewrite Hfalse. unfold PyDict.keys. rewrite length_map, length_app. lia.
Qed.

Lemma append_or_merge_spec_witness :
  hotel_y ∈ append_or_merge false
              [hotel_x "2025-01-01T10:05:00"; hotel_y; hotel_y]
              (index_by_key [hotel_x "2025-01-01T10:00:00"])
  /\ PyDict.get (merge_into false [hotel_x "2025-01-01T10:05:00"; hotel_y; hotel_y]
                   (index_by_key [hotel_x "2025-01-01T10:00:00"]))
       (VStr "miaep", VStr "Hotel X")
     = Some (hotel_x "2025-01-01T10:00:00").
Proof.
  pose proof (append_or_merge_spec
                [hotel_x "2025-01-01T10:05:00"; hotel_y; hotel_y]
                (index_by_key [hotel_x "2025-01-01T10:00:00"])) as H.
  cbv zeta in H. destruct H as (_ & Hkeep & _ & _ & Hfirst & _).
  split.
  - apply (Hfirst [hotel_x "2025-01-01T10:05:00"] hotel_y [hotel_y]).
    + reflexivity.
    + vm_compute. intros H. apply list_elem_of_singleton in H. discriminate H.
    + vm_compute. intros H. apply list_elem_of_singleton in H. discriminate H.
  - rewrite Hkeep; [vm_compute; reflexivity|]. vm_compute. left.
Defined.

(** ** Running the merge twice *)

Lemma index_from (m2 : list ((pyval * pyval) * list (string * pyval))) :
  forall m1,
    keyed m2 -> PyDict.wf (m1 ++ m2) ->
    fold_left (fun m h => PyDict.assign m (record_key h) h) (PyDict.values m2) m1
    = m1 ++ m2.
Proof.
  induction m2 as [|[k h] m2 IH]; intros m1 Hkeyed Hwf; simpl.
  - now rewrite app_nil_r.
  - inversion Hkeyed as [|? ? Hk Hrest]; subst. simpl in Hk.
    unfold PyDict.wf, PyDict.keys in Hwf. rewrite map_app in Hwf. simpl in Hwf.
    assert (Hfresh : k ∉ PyDict.keys m1).
    { apply NoDup_app in Hwf as (_ & Hdisj & _). intros Hin.
      apply (Hdisj k Hin). now left. }
    rewrite Hk, (assign_absent m1 k h Hfresh), (IH (m1 ++ [(k, h)]) Hrest).
    + now rewrite <- app_assoc.
    + unfold PyDict.wf, PyDict.keys. rewrite !map_app. simpl.
      rewrite <- app_assoc. exact Hwf.
Qed.

Lemma index_by_key_values (m : list ((pyval * pyval) * list (string * pyval))) :
  PyDict.wf m -> keyed m -> index_by_key (PyDict.values m) = m.
Proof. intros Hwf Hkeyed. exact (index_from m [] Hkeyed Hwf). Qed.

Lemma merge_all_present (hotels : list (list (string * pyval))) :
  forall m,
    (forall h, h ∈ hotels -> record_key h ∈ PyDict.keys m) ->
    merge_into false hotels m = m.
Proof.
  induction hotels as [|h hotels IH]; intros m Hall; [reflexivity|].
  rewrite merge_into_cons.
  assert (Hm : PyDict.mem m (record_key h) = true)
    by (apply mem_keys, Hall; now left).
  rewrite Hm. simpl. apply IH. intros h' Hh'. apply Hall. now right.
Qed.

Lemma merged_map_wf (hotels : list (list (string * pyval)))
    (m : list ((pyval * pyval) * list (string * pyval))) :
  PyDict.wf m -> keyed m ->
  PyDict.wf (merge_into false hotels m) /\ keyed (merge_into false hotels m).
Proof.
  intros Hwf Hkeyed.
  rewrite (merge_without_overwrite hotels m (PyDict.keys m)) by reflexivity.
  split.
  - unfold PyDict.wf, PyDict.keys. rewrite map_app. apply NoDup_app.
    split; [exact Hwf|]. split; [|apply first_new_nodup].
    intros k Hk Hin. apply list_elem_of_In, in_map_iff in Hin as (kv & <- & Hin).
    apply list_elem_of_In, first_new_fresh in Hin as [Hf _]. exact (Hf Hk).
  - apply Forall_app. split; [exact Hkeyed | apply first_new_keyed].
Qed.

Lemma index_by_key_wf (records : list (list (string * pyval))) :
  PyDict.wf (index_by_key records) /\ keyed (index_by_key records).
Proof.
  unfold index_by_key.
  assert (H : forall m, PyDict.wf m -> keyed m ->
            PyDict.wf (fold_left (fun m h => PyDict.assign m (record_key h) h) records m)
            /\ keyed (fold_left (fun m h => PyDict.assign m (record_key h) h) records m)).
  { induction records as [|h records IH]; intros m Hwf Hkeyed; simpl; [auto|].
    apply IH.
    - unfold PyDict.wf. rewrite keys_assign.
      destruct (PyDict.mem m (record_key h)) eqn:Hm; [exact Hwf|].
      apply NoDup_app. split; [exact Hwf|]. split; [|apply NoDup_singleton].
      intros k Hk Hin. apply list_elem_of_singleton in Hin as ->.
      apply mem_false_keys in Hm. exact (Hm Hk).
    - clear IH Hwf. induction Hkeyed as [|[k v] m Hk Hrest IHm]; simpl.
      + constructor; [reflexivity | constructor].
      + destruct (decide (k = record_key h)) as [->|Hne].
        * constructor; [reflexivity | exact Hrest].
        * constructor; [exact Hk | exact IHm]. }
  apply H; [apply NoDup_nil_2 | constructor].
Qed.

(** C3. With overwrite disabled, merging is idempotent: for a mapping
    indexed by identity key and any list of new records, re-indexing the
    result by identity key gives back the merged mapping, and merging the
    same records into it again returns the same records in the same order:
    nothing is duplicated and nothing is dropped. *)
Theorem append_or_merge_idempotent (hotels : list (list (string * pyval)))
    (existing_map : list ((pyval * pyval) * list (string * pyval))) :
  PyDict.wf existing_map -> keyed existing_map ->
  let once := append_or_merge false hotels existing_map in
  let twice := append_or_merge false hotels (index_by_key once) in
  index_by_key once = merge_into false hotels existing_map
  /\ twice = once
  /\ length twice = length once.
Proof.
  intros Hwf Hkeyed once twice.
  destruct (merged_map_wf hotels existing_map Hwf Hkeyed) as [Hwf' Hkeyed'].
  assert (Hindex : index_by_key once = merge_into false hotels existing_map)
    by (apply index_by_key_values; assumption).
  assert (Htwice : twice = once).
  { unfold twice, append_or_merge at 1. rewrite Hindex.
    unfold once, append_or_merge. f_equal.
    apply merge_all_present. intros h Hh.
    rewrite (merge_without_overwrite hotels existing_map (PyDict.keys existing_map))
      by reflexivity.
    unfold PyDict.keys. rewrite map_app. apply elem_of_app.
    exact (first_new_complete hotels (PyDict.keys existing_map) h Hh). }
  split; [exact Hindex|]. split; [exact Htwice | now rewrite Htwice].
Qed.

Lemma append_or_merge_idempotent_witness :
  append_or_merge false [hotel_x "2025-01-01T10:05:00"; hotel_y; hotel_y]
    (index_by_key
       (append_or_merge false [hotel_x "2025-01-01T10:05:00"; hotel_y; hotel_y]
          (index_by_key [hotel_x "2025-01-01T10:00:00"])))
  = [hotel_x "2025-01-01T10:00:00"; hotel_y].
Proof.
  destruct (index_by_key_wf [hotel_x "2025-01-01T10:00:00"]) as [Hwf Hkeyed].
  pose proof (append_or_merge_idempotent
                [hotel_x "2025-01-01T10:05:00"; hotel_y; hotel_y]
                (index_by_key [hotel_x "2025-01-01T10:00:00"]) Hwf Hkeyed) as H.
  cbv zeta in H. destruct H as (_ & -> & _). vm_compute. reflexivity.
Defined.

(** ** [json.dumps] produces JSON *)

Lemma hex_digit_is_hex (n : N) : (n < 16)%N -> Json.is_hex (Json.hex_digit n) = true.
Proof.
  intros H.
  assert (Hall : forallb (fun k => Json.is_hex (Json.hex_digit k))
                         (map N.of_nat (seq 0 16)) = true)
    by (vm_compute; reflexivity).
  rewrite forallb_forall in Hall. apply Hall.
  apply in_map_iff. exists (N.to_nat n).
  split; [apply N2Nat.id | apply in_seq; lia].
Qed.

Lemma escape_char_chars (c : char) (rest : string) :
  Json.chars rest -> Json.chars (Json.escape_char c +:+ rest).
Proof.
  intros Hrest. unfold Json.escape_char, PyStr.code. cbv zeta.
  destruct (c =? 34)%N eqn:E34.
  { apply Json.chars_escape; [reflexivity | exact Hrest]. }
  destruct (c =? 92)%N eqn:E92.
  { apply Json.chars_escape; [reflexivity | exact Hrest]. }
  destruct (c =? 10)%N; [apply Json.chars_escape; [reflexivity | exact Hrest]|].
  destruct (c =? 13)%N; [apply Json.chars_escape; [reflexivity | exact Hrest]|].
  destruct (c =? 9)%N; [apply Json.chars_escape; [reflexivity | exact Hrest]|].
  destruct (c =? 8)%N; [apply Json.chars_escape; [reflexivity | exact Hrest]|].
  destruct (c =? 12)%N; [apply Json.chars_escape; [reflexivity | exact Hrest]|].
  destruct (c <? 32)%N eqn:E32.
  - apply N.ltb_lt in E32.
    apply Json.chars_unicode; [reflexivity | reflexivity | | | exact Hrest];
      apply hex_digit_is_hex.
    + apply N.Div0.div_lt_upper_bound. lia.
    + apply N.mod_lt. discriminate.
  - apply Json.chars_plain; [|exact Hrest].
    unfold Json.is_unescaped, PyStr.code. cbv zeta. rewrite E34, E92.
    apply N.ltb_ge, N.leb_le in E32. now rewrite E32.
Qed.

Lemma escape_chars (s : string) : Json.chars (Json.escape s).
Proof.
  induction s as [|c s IH]; simpl; [constructor | now apply escape_char_chars].
Qed.

Lemma encode_string_value (s : string) : Json.value (Json.encode_string s).
Proof. apply Json.value_string, escape_chars. Qed.

Lemma encode_string_element (w : string) (s : string) :
  Json.ws w -> Json.element (w +:+ Json.encode_string s).
Proof.
  intros Hw.
  rewrite <- (sapp_nil_r (Json.encode_string s)).
  apply Json.element_intro; [exact Hw | apply encode_string_value | constructor].
Qed.

Lemma space_ws : Json.ws " ".
Proof. constructor; [reflexivity | constructor]. Qed.

Lemma join_cons2 (sep p q : string) (rest : list string) :
  PyStr.join sep (p :: q :: rest) = p +:+ sep +:+ PyStr.join sep (q :: rest).
Proof. reflexivity. Qed.

Lemma dumps_list_elements (l : list string) :
  forall s w, Json.ws w ->
    Json.elements (w +:+ PyStr.join ", " (map Json.encode_string (s :: l))).
Proof.
  induction l as [|t l IH]; intros s w Hw.
  - apply Json.elements_one, encode_string_element, Hw.
  - change (map Json.encode_string (s :: t :: l))
      with (Json.encode_string s :: Json.encode_string t :: map Json.encode_string l).
    rewrite join_cons2.
    change (map Json.encode_string (t :: l))
      with (Json.encode_string t :: map Json.encode_string l) in IH.
    change (", " +:+ PyStr.join ", " (Json.encode_string t :: map Json.encode_string l))
      with ("," +:+ (" " +:+ PyStr.join ", " (Json.encode_string t :: map Json.encode_string l))).
    rewrite <- sapp_assoc.
    apply Json.elements_more; [apply encode_string_element, Hw | apply IH, space_ws].
Qed.

Lemma encode_item_member (w : string) (kv : string * string) :
  Json.ws w -> Json.member (w +:+ Json.encode_item kv).
Proof.
  intros Hw. unfold Json.encode_item.
  change (Json.encode_string (fst kv) +:+ ": " +:+ Json.encode_string (snd kv))
    with (Json.encode_string (fst kv) +:+ EmptyString +:+ ":"
          +:+ (" " +:+ Json.encode_string (snd kv))).
  apply (Json.member_intro w (Json.escape (fst kv)) EmptyString);
    [exact Hw | apply escape_chars | constructor
    | apply encode_string_element, space_ws].
Qed.

Lemma dumps_dict_members (d : list (string * string)) :
  forall kv w, Json.ws w ->
    Json.members (w +:+ PyStr.join ", " (map Json.encode_item (kv :: d))).
Proof.
  induction d as [|kv' d IH]; intros kv w Hw.
  - apply Json.members_one, encode_item_member, Hw.
  - change (map Json.encode_item (kv :: kv' :: d))
      with (Json.encode_item kv :: Json.encode_item kv' :: map Json.encode_item d).
    rewrite join_cons2.
    change (map Json.encode_item (kv' :: d))
      with (Json.encode_item kv' :: map Json.encode_item d) in IH.
    change (", " +:+ PyStr.join ", " (Json.encode_item kv' :: map Json.encode_item d))
      with ("," +:+ (" " +:+ PyStr.join ", " (Json.encode_item kv' :: map Json.encode_item d))).
    rewrite <- sapp_assoc.
    apply Json.members_more; [apply encode_item_member, Hw | apply IH, space_ws].
Qed.

Lemma dumps_value (v : pyval) : Json.value (Json.dumps v).
Proof.
  destruct v as [|[]|s|l|d]; simpl;
    try (constructor; fail).
  - apply encode_string_value.
  - destruct l as [|s l].
    + apply (Json.value_array_empty EmptyString). constructor.
    + apply Json.value_array. apply (dumps_list_elements l s EmptyString). constructor.
  - destruct d as [|kv d].
    + apply (Json.value_object_empty EmptyString). constructor.
    + apply Json.value_object. apply (dumps_dict_members d kv EmptyString). constructor.
Qed.

Lemma dumps_valid (v : pyval) : Json.valid (Json.dumps v).
Proof.
  unfold Json.valid.
  rewrite <- (sapp_nil_r (Json.dumps v)).
  apply (Json.element_intro EmptyString); [constructor | apply dumps_value | constructor].
Qed.

(** ** Records through [scrape_city] *)

Example pool_card_unreachable :
  scrape_card example_url_path no_json_loads miami (pool_card unreachable_page)
  = Some [ ("hotel_code", VStr "miami");
           ("hotel_name", VStr "Hotel X");
           ("address", VStr "1 Ocean Drive, Miami");
           ("phone", VNone);
           ("rating", VStr "4.5");
           ("description", VNone);
           ("card_price", VStr "129 USD");
           ("overview_table_json", VNone);
           ("pets_json", VNone);
           ("parking_json", VNone);
           ("amenities_json", VNone);
           ("nearby_json", VNone);
           ("airport_json", VNone);
           ("is_pet_friendly", VNone);
           ("last_updated", VStr "2025-01-01T10:00:00") ].
Proof. vm_compute. reflexivity. Qed.

Example pool_card_pet_text :
  scrape_card example_url_path no_json_loads miami (pool_card pet_text_page)
  = Some [ ("hotel_code", VStr "miami");
           ("hotel_name", VStr "Hotel X");
           ("address", VStr "1 Ocean Drive, Miami");
           ("phone", VNone);
           ("rating", VStr "4.5");
           ("description", VStr "A pet-friendly hotel by the beach.");
           ("card_price", VStr "129 USD");
           ("overview_table_json", VNone);
           ("pets_json", VNone);
           ("parking_json", VNone);
           ("amenities_json", VNone);
           ("nearby_json", VNone);
           ("airport_json", VNone);
           ("is_pet_friendly", VStr "true");
           ("last_updated", VStr "2025-01-01T10:00:00") ].
Proof. vm_compute. reflexivity. Qed.

Lemma pyget_assign (d : list (string * pyval)) (k : string) (v : pyval) (j : string) :
  pyget (PyDict.assign d k v) j = if decide (k = j) then v else pyget d j.
Proof.
  unfold pyget. rewrite get_assign. destruct (decide (k = j)); reflexivity.
Qed.

Lemma pyget_pop_ne (d : list (string * pyval)) (k j : string) :
  j <> k -> pyget (PyDict.pop d k) j = pyget d j.
Proof.
  intros Hne. unfold pyget. f_equal.
  induction d as [|[k' v'] d IH]; simpl; [reflexivity|].
  destruct (decide (k' = k)) as [->|Hk]; simpl.
  - destruct (decide (k = j)); [congruence | reflexivity].
  - destruct (decide (k' = j)); [reflexivity | exact IH].
Qed.

Lemma assign_shape {K V : Type} `{EqDecision K} (Q : K * V -> Prop)
    (d : list (K * V)) (k : K) (v : V) :
  Forall Q d -> Q (k, v) -> Forall Q (PyDict.assign d k v).
Proof.
  intros Hd Hv. induction Hd as [|[k' v'] d Hkv Hd IH]; simpl.
  - constructor; [exact Hv | constructor].
  - destruct (decide (k' = k)) as [->|Hne].
    + constructor; [exact Hv | exact Hd].
    + constructor; [exact Hkv | exact IH].
Qed.

Lemma update_shape {K V : Type} `{EqDecision K} (Q : K * V -> Prop)
    (other : list (K * V)) :
  forall d, Forall Q d -> Forall Q other -> Forall Q (PyDict.update d other).
Proof.
  unfold PyDict.update.
  induction other as [|[k v] other IH]; intros d Hd Ho; simpl; [exact Hd|].
  inversion Ho; subst. apply IH; [|assumption]. now apply assign_shape.
Qed.

Lemma pyget_shape (Q : string * pyval -> Prop) (d : list (string * pyval))
    (j : string) :
  Forall Q d -> Q (j, VNone) -> Q (j, pyget d j).
Proof.
  intros Hd Hnone. unfold pyget. induction Hd as [|[k v] d Hkv _ IH]; simpl.
  - exact Hnone.
  - destruct (decide (k = j)) as [->|Hne]; [exact Hkv | exact IH].
Qed.

Lemma pyget_normalize_key (rec : list (string * pyval)) (k j : string) :
  pyget (normalize_key rec k) j
  = if decide (k = j) then normalized (pyget rec k) else pyget rec j.
Proof.
  unfold normalize_key.
  destruct (pyget rec k) eqn:Hk; rewrite ?pyget_assign;
    destruct (decide (k = j)) as [<-|Hne]; simpl; congruence.
Qed.

Lemma normalized_idem (v : pyval) : normalized (normalized v) = normalized v.
Proof. destruct v; reflexivity. Qed.

Lemma pyget_normalize (keys : list string) :
  forall rec j,
    pyget (fold_left normalize_key keys rec) j
    = if bool_decide (j ∈ keys) then normalized (pyget rec j) else pyget rec j.
Proof.
  induction keys as [|k keys IH]; intros rec j; simpl; [reflexivity|].
  rewrite IH, pyget_normalize_key.
  destruct (decide (k = j)) as [->|Hne].
  - rewrite (bool_decide_eq_true_2 (j ∈ j :: keys)) by (now left).
    destruct (bool_decide (j ∈ keys)); [apply normalized_idem | reflexivity].
  - destruct (bool_decide (j ∈ keys)) eqn:Hj.
    + apply bool_decide_eq_true in Hj.
      rewrite (bool_decide_eq_true_2 (j ∈ k :: keys)) by (now right). reflexivity.
    + apply bool_decide_eq_false in Hj.
      rewrite (bool_decide_eq_false_2 (j ∈ k :: keys)); [reflexivity|].
      intros H. apply elem_of_cons in H as [->|H]; [congruence | exact (Hj H)].
Qed.

Lemma normalized_json_text (v : pyval) :
  (forall s, v = VStr s -> Json.valid s) -> json_text_or_none (normalized v).
Proof.
  intros Hs. destruct v as [|b|s|l|d].
  - now left.
  - right. exists (Json.dumps (VBool b)). split; [reflexivity | apply dumps_valid].
  - right. exists s. split; [reflexivity | now apply Hs].
  - right. exists (Json.dumps (VList l)). split; [reflexivity | apply dumps_valid].
  - right. exists (Json.dumps (VDict d)). split; [reflexivity | apply dumps_valid].
Qed.

Lemma pyget_coerce_ne (rec : list (string * pyval)) (j : string) :
  j <> "is_pet_friendly" -> pyget (coerce_pet_flag rec) j = pyget rec j.
Proof.
  intros Hne. unfold coerce_pet_flag.
  destruct (pyget rec "is_pet_friendly"); try reflexivity.
  rewrite pyget_assign. destruct (decide _); congruence.
Qed.

Lemma pyget_coerce_flag (rec : list (string * pyval)) :
  pyget (coerce_pet_flag rec) "is_pet_friendly"
  = match pyget rec "is_pet_friendly" with
    | VBool b => VStr (if b then "true" else "false")
    | v => v
    end.
Proof.
  unfold coerce_pet_flag.
  destruct (pyget rec "is_pet_friendly") eqn:E; rewrite ?pyget_assign; try exact E.
  destruct (decide _); congruence.
Qed.

(** Normalization alone: nested structures become JSON text, strings are
    kept as they are. *)
Lemma normalize_json_ok (rec : list (string * pyval)) :
  (forall key s, key ∈ json_keys -> pyget rec key = VStr s -> Json.valid s) ->
  json_fields_ok (normalize_json rec).
Proof.
  intros Hstr key Hkey. unfold normalize_json. rewrite pyget_normalize.
  rewrite bool_decide_eq_true_2 by exact Hkey.
  apply normalized_json_text. intros s Hs. exact (Hstr key s Hkey Hs).
Qed.

Lemma detail_field_other (k : string) (v : pyval) :
  is_json_key k = false -> String.eqb k "is_pet_friendly" = false ->
  detail_field_ok (k, v).
Proof. intros H1 H2. unfold detail_field_ok. simpl fst. now rewrite H1, H2. Qed.

Lemma detail_field_json (k : string) (v : pyval) :
  is_json_key k = true -> structured v -> detail_field_ok (k, v).
Proof. intros H1 Hv. unfold detail_field_ok. simpl fst. now rewrite H1. Qed.

Lemma detail_field_flag (b : bool) : detail_field_ok ("is_pet_friendly", VBool b).
Proof. right. now exists b. Qed.

Lemma detail_field_none (k : string) : detail_field_ok (k, VNone).
Proof.
  unfold detail_field_ok. simpl fst. simpl snd.
  destruct (is_json_key k); [now left|].
  destruct (String.eqb k "is_pet_friendly"); [now left | exact I].
Qed.

Lemma detail_defaults_shape : Forall detail_field_ok detail_defaults.
Proof.
  unfold detail_defaults.
  repeat (apply Forall_cons_2; [apply detail_field_none|]). apply Forall_nil_2.
Qed.

Lemma highlights_structured (page : DetailPage) :
  structured (_extract_highlights_section page).
Proof.
  unfold _extract_highlights_section, structured.
  destruct (dp_highlights page) as [items|]; [|now left].
  destruct (filter _ _); [now left | right; left; eauto].
Qed.

Lemma content_probes_structured (page : AmenitiesPage) :
  Forall structured (content_probes page).
Proof.
  unfold content_probes, structured.
  apply Forall_cons_2.
  { unfold _scrape_amenities_list_from_page.
    destruct (fold_left _ _ _); [now left | right; left; eauto]. }
  apply Forall_cons_2.
  { unfold _scrape_parking_from_page.
    destruct (_collect_section_text _ _) as [text|]; [|now left].
    destruct (PyStr.nonempty text); [right; right; eauto | now left]. }
  apply Forall_cons_2.
  { unfold _scrape_overview_table_from_page. cbv zeta.
    match goal with |- context [match ?d with [] => VNone | _ => _ end] =>
      destruct d end; [now left | right; right; eauto]. }
  assert (Hlines : forall kws, lines_probe page kws = VNone
            \/ (exists l, lines_probe page kws = VList l)
            \/ (exists d, lines_probe page kws = VDict d)).
  { intros kws. unfold lines_probe.
    destruct (_collect_section_text _ _) as [text|]; [|now left].
    destruct (PyStr.nonempty text); [|now left].
    destruct (clean_lines text); [now left | right; left; eauto]. }
  apply Forall_cons_2; [apply Hlines|].
  apply Forall_cons_2; [apply Hlines|]. apply Forall_nil_2.
Qed.

Lemma copy_if_found_shape (data : list (string * pyval)) (src dst : string)
    (out : list (string * pyval)) :
  is_json_key dst = true -> structured (pyget data src) ->
  Forall detail_field_ok out ->
  Forall detail_field_ok (copy_if_found data src dst out).
Proof.
  intros Hk Hv Hout. unfold copy_if_found.
  destruct (truthy (pyget data src)); [|exact Hout].
  apply assign_shape; [exact Hout | now apply detail_field_json].
Qed.

Lemma merge_amenities_data_shape (page : AmenitiesPage)
    (out : list (string * pyval)) :
  Forall detail_field_ok out ->
  Forall detail_field_ok (merge_amenities_data (amenities_page_data page) out).
Proof.
  intros Hout. unfold merge_amenities_data.
  pose proof (content_probes_structured page) as Hp.
  unfold content_probes in Hp.
  repeat match type of Hp with
         | Forall _ (_ :: _) => apply Forall_cons_1 in Hp as [? Hp]
         end.
  cbv zeta.
  match goal with
  | |- Forall _ (if ?c then PyDict.assign ?o _ _ else ?o) =>
      assert (Ho : Forall detail_field_ok o)
  end.
  { repeat (apply copy_if_found_shape; [reflexivity | assumption |]). exact Hout. }
  match goal with |- Forall _ (if ?c then _ else _) => destruct c end;
    [|exact Ho].
  apply assign_shape; [exact Ho | now apply detail_field_other].
Qed.

Lemma open_amenities_data (buttons : list Elem) (page : AmenitiesPage)
    (data : list (string * pyval)) :
  _open_amenities_page_and_scrape buttons page = Some data ->
  data = amenities_page_data page.
Proof.
  unfold _open_amenities_page_and_scrape, aggregate.
  destruct (first_button _ _) as [btn|]; [|discriminate].
  destruct (truthy_opt _); [|discriminate].
  destruct (negb _); [discriminate|]. now intros [= <-].
Qed.

Lemma pet_policy_structured (links : list Elem) (page : PageText) :
  structured (_open_pet_policy_if_available links page).
Proof.
  unfold _open_pet_policy_if_available, structured.
  destruct (first_button _ _) as [l|]; [|now left].
  destruct (truthy_opt _); [|now left].
  destruct (_collect_section_text _ _) as [policy|]; [|now left].
  destruct (PyStr.nonempty policy); [right; right; eauto | now left].
Qed.

Lemma scrape_hotel_detail_shape (json_loads_list : string -> option (list string))
    (url : string) (page : DetailPage) :
  Forall detail_field_ok (scrape_hotel_detail json_loads_list url page).
Proof.
  unfold scrape_hotel_detail. cbv zeta.
  destruct (negb (PyStr.nonempty url)); [apply detail_defaults_shape|].
  destruct (negb (dp_nav_ok page)); [apply detail_defaults_shape|].
  set (out1 := PyDict.assign detail_defaults "description" _).
  assert (H1 : Forall detail_field_ok out1).
  { apply assign_shape; [apply detail_defaults_shape | now apply detail_field_other]. }
  set (out2 := if truthy (_extract_highlights_section page) then _ else out1).
  assert (H2 : Forall detail_field_ok out2).
  { unfold out2. destruct (truthy _); [|exact H1].
    apply assign_shape; [exact H1|].
    apply detail_field_json; [reflexivity | apply highlights_structured]. }
  set (out3 := if truthy_opt _ then _ else out2).
  assert (H3 : Forall detail_field_ok out3).
  { unfold out3. destruct (truthy_opt _); [|exact H2].
    apply assign_shape; [exact H2 | now apply detail_field_other]. }
  set (out4 := match _open_amenities_page_and_scrape _ _ with
               | Some data => _ | None => out3 end).
  assert (H4 : Forall detail_field_ok out4).
  { unfold out4.
    destruct (_open_amenities_page_and_scrape _ _) as [data|] eqn:Hd; [|exact H3].
    apply open_amenities_data in Hd as ->. now apply merge_amenities_data_shape. }
  clearbody out4.
  destruct (truthy (_open_pet_policy_if_available _ _)).
  - apply assign_shape; [|apply detail_field_flag].
    apply assign_shape; [exact H4|].
    apply detail_field_json; [reflexivity | apply pet_policy_structured].
  - apply assign_shape; [exact H4 | apply detail_field_flag].
Qed.

Lemma raw_field_none (k : string) : raw_field_ok (k, VNone).
Proof.
  unfold raw_field_ok. simpl fst. simpl snd.
  destruct (is_json_key k); [left; now left|].
  destruct (String.eqb k "is_pet_friendly"); [now left | exact I].
Qed.

Lemma raw_field_other (k : string) (v : pyval) :
  is_json_key k = false -> String.eqb k "is_pet_friendly" = false ->
  raw_field_ok (k, v).
Proof. intros H1 H2. unfold raw_field_ok. simpl fst. now rewrite H1, H2. Qed.

Lemma detail_field_raw (kv : string * pyval) :
  detail_field_ok kv -> raw_field_ok kv.
Proof.
  unfold detail_field_ok, raw_field_ok.
  destruct (is_json_key (fst kv)); [now left | exact id].
Qed.

Lemma base_record_shape (urlparse_path : string -> option string)
    (city : CityRef) (card : Card) (name_el : Elem) :
  Forall raw_field_ok (base_record urlparse_path city card name_el).
Proof.
  unfold base_record. cbv zeta.
  repeat (apply Forall_cons_2;
          [first [ apply raw_field_none
                 | apply raw_field_other; reflexivity
                 | idtac ] |]);
    [|apply Forall_nil_2].
  unfold raw_field_ok. cbn [fst snd].
  change (is_json_key "amenities_json") with true. cbv iota.
  destruct (card_amenities card) as [|l ls]; [left; now left|].
  right. exists (Json.dumps (VList (l :: ls))).
  split; [reflexivity | apply dumps_valid].
Qed.

Lemma json_key_is (k : string) : k ∈ json_keys -> is_json_key k = true.
Proof.
  unfold json_keys. intros H.
  repeat (apply elem_of_cons in H as [->|H]; [reflexivity|]). inversion H.
Qed.

Lemma not_json_key (k : string) : is_json_key k = false -> k ∉ json_keys.
Proof. intros H Hin. apply json_key_is in Hin. congruence. Qed.

Section CardFacts.

Variable urlparse_path : string -> option string.
Variable json_loads_list : string -> option (list string).

Lemma scrape_card_raw (city : CityRef) (card : Card) (name_el : Elem) :
  Forall raw_field_ok
    (PyDict.update (base_record urlparse_path city card name_el)
       (scrape_hotel_detail json_loads_list
          (default EmptyString (el_href name_el)) (c_detail card))).
Proof.
  apply update_shape; [apply base_record_shape|].
  eapply Forall_impl; [apply scrape_hotel_detail_shape|].
  intros kv. apply detail_field_raw.
Qed.

Lemma scrape_card_json_fields (city : CityRef) (card : Card)
    (rec : list (string * pyval)) :
  scrape_card urlparse_path json_loads_list city card = Some rec ->
  json_fields_ok rec.
Proof.
  unfold scrape_card. destruct (c_title card) as [name_el|]; [|discriminate].
  cbv zeta. intros [= <-] key Hkey.
  pose proof (json_key_is key Hkey) as Hjk.
  rewrite !pyget_pop_ne by (intros ->; discriminate Hjk).
  rewrite pyget_coerce_ne by (intros ->; discriminate Hjk).
  apply normalize_json_ok; [|exact Hkey].
  intros k s Hk Hs.
  pose proof (pyget_shape raw_field_ok _ k (scrape_card_raw city card name_el)
                (raw_field_none k)) as Hraw.
  unfold raw_field_ok in Hraw. cbn [fst snd] in Hraw.
  rewrite (json_key_is k Hk), Hs in Hraw.
  destruct Hraw as [[H|[[l H]|[d H]]]|(s' & H & Hv)]; try discriminate H.
  now injection H as ->.
Qed.

Lemma scrape_card_pet_flag (city : CityRef) (card : Card)
    (rec : list (string * pyval)) :
  scrape_card urlparse_path json_loads_list city card = Some rec ->
  pet_flag_ok rec.
Proof.
  unfold scrape_card. destruct (c_title card) as [name_el|]; [|discriminate].
  cbv zeta. intros [= <-]. unfold pet_flag_ok.
  rewrite !pyget_pop_ne by discriminate.
  rewrite pyget_coerce_flag. unfold normalize_json. rewrite pyget_normalize.
  rewrite bool_decide_eq_false_2 by (now apply not_json_key).
  pose proof (pyget_shape raw_field_ok _ "is_pet_friendly"
                (scrape_card_raw city card name_el)
                (raw_field_none "is_pet_friendly")) as Hraw.
  unfold raw_field_ok in Hraw. cbn [fst snd] in Hraw.
  change (is_json_key "is_pet_friendly") with false in Hraw.
  change (String.eqb "is_pet_friendly" "is_pet_friendly") with true in Hraw.
  cbv iota in Hraw.
  destruct Hraw as [->|[[] ->]]; auto.
Qed.

Lemma scrape_city_records (city : CityRef) (cards : list Card) :
  Forall (fun rec => json_fields_ok rec /\ pet_flag_ok rec)
         (scrape_city urlparse_path json_loads_list city cards).
Proof.
  apply Forall_forall. intros rec Hin. unfold scrape_city in Hin.
  apply list_elem_of_omap in Hin as (card & _ & Hcard).
  split; [eapply scrape_card_json_fields | eapply scrape_card_pet_flag]; exact Hcard.
Qed.

End CardFacts.

(** ** Records through the store *)

Lemma assign_entries {K V : Type} `{EqDecision K} (d : list (K * V)) (k : K)
    (v : V) (kv : K * V) :
  kv ∈ PyDict.assign d k v -> kv ∈ d \/ kv = (k, v).
Proof.
  induction d as [|[k' v'] d IH]; simpl; intros Hin.
  - apply list_elem_of_singleton in Hin. now right.
  - destruct (decide (k' = k)) as [->|Hne].
    + apply elem_of_cons in Hin as [->|Hin]; [now right | left; now right].
    + apply elem_of_cons in Hin as [->|Hin]; [left; now left|].
      destruct (IH Hin) as [H'|H']; [left; now right | now right].
Qed.

Lemma merge_into_entries (overwrite : bool) (hotels : list (list (string * pyval))) :
  forall existing_map kv,
    kv ∈ merge_into overwrite hotels existing_map ->
    kv ∈ existing_map \/ snd kv ∈ hotels.
Proof.
  induction hotels as [|h hotels IH]; intros E kv Hin; [now left|].
  rewrite merge_into_cons in Hin. apply IH in Hin as [Hin|Hin]; [|right; now right].
  destruct (PyDict.mem E (record_key h) && negb overwrite); [now left|].
  apply assign_entries in Hin as [Hin| ->]; [now left | right; now left].
Qed.

Lemma index_by_key_entries (records : list (list (string * pyval)))
    (kv : (pyval * pyval) * list (string * pyval)) :
  kv ∈ index_by_key records -> snd kv ∈ records.
Proof.
  unfold index_by_key.
  assert (H : forall m, kv ∈ fold_left (fun m h => PyDict.assign m (record_key h) h)
                               records m -> kv ∈ m \/ snd kv ∈ records).
  { induction records as [|h records IH]; intros m Hin; [now left|].
    simpl in Hin. apply IH in Hin as [Hin|Hin]; [|right; now right].
    apply assign_entries in Hin as [Hin| ->]; [now left | right; now left]. }
  intros Hin. destruct (H [] Hin) as [Hnil|Hrec]; [inversion Hnil | exact Hrec].
Qed.

Section StoreInvariant.

Variable urlparse_path : string -> option string.
Variable json_loads_list : string -> option (list string).
Variable P : list (string * pyval) -> Prop.
Hypothesis scraped_ok :
  forall city cards,
    Forall P (scrape_city urlparse_path json_loads_list city cards).

Lemma append_or_merge_keeps (overwrite : bool)
    (hotels : list (list (string * pyval)))
    (existing_map : list ((pyval * pyval) * list (string * pyval))) :
  Forall P hotels -> Forall P (PyDict.values existing_map) ->
  Forall P (append_or_merge overwrite hotels existing_map).
Proof.
  intros Hn He. apply Forall_forall. intros h Hin.
  unfold append_or_merge, PyDict.values in Hin.
  apply list_elem_of_In, in_map_iff in Hin as (kv & <- & Hin).
  apply list_elem_of_In, merge_into_entries in Hin as [Hin|Hin].
  - rewrite Forall_forall in He. apply He.
    apply list_elem_of_In, in_map, list_elem_of_In, Hin.
  - rewrite Forall_forall in Hn. now apply Hn.
Qed.

Lemma load_loop_keeps (data : list (list (string * pyval))) :
  forall m, Forall P data -> Forall P (PyDict.values m) ->
            Forall P (PyDict.values (load_loop data m)).
Proof.
  induction data as [|d data IH]; intros m Hd Hm; [exact Hm|].
  apply Forall_cons in Hd as [Hd Hdata]. simpl.
  destruct (hashable _ && hashable _); [|exact Hm].
  apply IH; [exact Hdata|].
  apply Forall_forall. intros h Hin. unfold PyDict.values in Hin.
  apply list_elem_of_In, in_map_iff in Hin as (kv & <- & Hin).
  apply list_elem_of_In, assign_entries in Hin as [Hin| ->]; [|exact Hd].
  rewrite Forall_forall in Hm. apply Hm. unfold PyDict.values.
  apply list_elem_of_In, in_map, list_elem_of_In, Hin.
Qed.

Lemma index_by_key_keeps (records : list (list (string * pyval))) :
  Forall P records -> Forall P (PyDict.values (index_by_key records)).
Proof.
  intros Hr. apply Forall_forall. intros h Hin. unfold PyDict.values in Hin.
  apply list_elem_of_In, in_map_iff in Hin as (kv & <- & Hin).
  apply list_elem_of_In, index_by_key_entries in Hin.
  rewrite Forall_forall in Hr. now apply Hr.
Qed.

Lemma main_step_keeps (overwrite : bool) (st : Run)
    (visit : CityRef * option (list Card)) :
  run_ok P st ->
  run_ok P (main_step urlparse_path json_loads_list overwrite st visit).
Proof.
  intros (Hall & Hfiles & Hsaves).
  assert (Hmerged : Forall P (all_hotels
            (main_step urlparse_path json_loads_list overwrite st visit))).
  { unfold main_step. cbn [all_hotels]. apply append_or_merge_keeps.
    - destruct (snd visit); [apply scraped_ok | constructor].
    - now apply index_by_key_keeps. }
  split; [exact Hmerged|]. split.
  - unfold main_step in *. cbn [files all_hotels] in *.
    match goal with |- files_ok _ (save_outputs ?m _) =>
      destruct m eqn:Hm; [exact Hfiles|] end.
    intros data [= <-]. exact Hmerged.
  - unfold main_step in *. cbn [saves all_hotels] in *.
    apply Forall_app. split; [exact Hsaves|].
    constructor; [exact Hmerged | constructor].
Qed.

Lemma main_keeps (run_only_one_city overwrite : bool)
    (visits : list (CityRef * option (list Card))) (fs : Files) :
  files_ok P fs ->
  run_ok P (main urlparse_path json_loads_list run_only_one_city overwrite visits fs).
Proof.
  intros Hfs. unfold main.
  set (vs := if run_only_one_city then take 1 visits else visits). clearbody vs.
  assert (Hinit : run_ok P {| all_hotels := PyDict.values (load_existing_output overwrite fs);
                            files := fs; saves := [] |}).
  { split; [|split; [exact Hfs | constructor]]. cbn [all_hotels].
    unfold load_existing_output.
    destruct (hotel_json fs) as [data|] eqn:Hd; [|constructor].
    destruct (negb overwrite); [|constructor].
    apply load_loop_keeps; [apply Hfs; exact Hd | apply Forall_nil_2]. }
  revert Hinit. generalize {| all_hotels := PyDict.values (load_existing_output overwrite fs);
                              files := fs; saves := [] |}.
  induction vs as [|v vs IH]; intros st Hst; simpl; [exact Hst|].
  apply IH. now apply main_step_keeps.
Qed.

End StoreInvariant.

(** ** The pet-friendly flag *)

Lemma keys_assign_in {K V : Type} `{EqDecision K} (d : list (K * V)) (k : K) (v : V) :
  k ∈ PyDict.keys d -> PyDict.keys (PyDict.assign d k v) = PyDict.keys d.
Proof. intros Hin. rewrite keys_assign. apply mem_keys in Hin. now rewrite Hin. Qed.

Lemma get_update {K V : Type} `{EqDecision K} (other : list (K * V)) :
  forall d j,
    PyDict.wf other ->
    PyDict.get (PyDict.update d other) j
    = match PyDict.get other j with
      | Some v => Some v
      | None => PyDict.get d j
      end.
Proof.
  unfold PyDict.update, PyDict.wf, PyDict.keys.
  induction other as [|[k v] other IH]; intros d j Hwf; simpl; [reflexivity|].
  apply NoDup_cons in Hwf as [Hk Hwf]. rewrite (IH _ _ Hwf), get_assign.
  destruct (decide (k = j)) as [->|Hne]; [|reflexivity].
  destruct (PyDict.get other j) eqn:Hg; [|reflexivity].
  exfalso. apply Hk. apply (mem_keys other j). unfold PyDict.mem. now rewrite Hg.
Qed.

Lemma copy_if_found_keys (data : list (string * pyval)) (src dst : string)
    (out : list (string * pyval)) :
  dst ∈ detail_keys -> PyDict.keys out = detail_keys ->
  PyDict.keys (copy_if_found data src dst out) = detail_keys.
Proof.
  intros Hdst Hout. unfold copy_if_found.
  destruct (truthy _); [|exact Hout].
  rewrite keys_assign_in; [exact Hout | now rewrite Hout].
Qed.

Lemma copy_if_found_frame (data : list (string * pyval)) (src dst : string)
    (out : list (string * pyval)) (j : string) :
  dst <> j -> pyget (copy_if_found data src dst out) j = pyget out j.
Proof.
  intros Hne. unfold copy_if_found. destruct (truthy _); [|reflexivity].
  rewrite pyget_assign. destruct (decide (dst = j)); congruence.
Qed.

Ltac detail_key := unfold detail_keys; vm_compute; repeat first [now left | right].

Lemma merge_amenities_data_keys (data out : list (string * pyval)) :
  PyDict.keys out = detail_keys ->
  PyDict.keys (merge_amenities_data data out) = detail_keys.
Proof.
  intros Hout. unfold merge_amenities_data. cbv zeta.
  match goal with
  | |- PyDict.keys (if ?c then PyDict.assign ?o _ _ else ?o) = _ =>
      assert (Ho : PyDict.keys o = detail_keys)
  end.
  { repeat (apply copy_if_found_keys; [detail_key|]). exact Hout. }
  match goal with |- PyDict.keys (if ?c then _ else _) = _ => destruct c end;
    [|exact Ho].
  rewrite keys_assign_in; [exact Ho | rewrite Ho; detail_key].
Qed.

Lemma merge_amenities_data_frame (data out : list (string * pyval)) (j : string) :
  j = "description" \/ j = "pets_json" ->
  pyget (merge_amenities_data data out) j = pyget out j.
Proof.
  intros Hj. unfold merge_amenities_data. cbv zeta.
  assert (Hne : forall k, k ∈ ["amenities_json"; "parking_json"; "overview_table_json";
                               "nearby_json"; "airport_json"; "phone"] -> k <> j).
  { intros k Hk ->.
    destruct Hj as [-> | ->];
      repeat (apply elem_of_cons in Hk as [Hk|Hk]; [discriminate Hk|]); inversion Hk. }
  match goal with |- pyget (if ?c then _ else _) _ = _ => destruct c end.
  - rewrite pyget_assign. destruct (decide ("phone" = j)) as [E|_].
    + exfalso. apply (Hne "phone"); [detail_key | exact E].
    + rewrite !copy_if_found_frame; [reflexivity | apply Hne; detail_key ..].
  - rewrite !copy_if_found_frame; [reflexivity | apply Hne; detail_key ..].
Qed.

Section DetailFacts.

Variable json_loads_list : string -> option (list string).

Lemma scrape_hotel_detail_keys (url : string) (page : DetailPage) :
  PyDict.keys (scrape_hotel_detail json_loads_list url page) = detail_keys.
Proof.
  unfold scrape_hotel_detail. cbv zeta.
  destruct (negb (PyStr.nonempty url)); [reflexivity|].
  destruct (negb (dp_nav_ok page)); [reflexivity|].
  set (out1 := PyDict.assign detail_defaults "description" _).
  assert (H1 : PyDict.keys out1 = detail_keys).
  { unfold out1. rewrite keys_assign_in; [reflexivity | detail_key]. }
  clearbody out1.
  set (out2 := if truthy (_extract_highlights_section page) then _ else out1).
  assert (H2 : PyDict.keys out2 = detail_keys).
  { unfold out2. destruct (truthy _); [|exact H1].
    rewrite keys_assign_in; [exact H1 | rewrite H1; detail_key]. }
  clearbody out2.
  set (out3 := if truthy_opt _ then _ else out2).
  assert (H3 : PyDict.keys out3 = detail_keys).
  { unfold out3. destruct (truthy_opt _); [|exact H2].
    rewrite keys_assign_in; [exact H2 | rewrite H2; detail_key]. }
  clearbody out3.
  set (out4 := match _open_amenities_page_and_scrape _ _ with
               | Some data => _ | None => out3 end).
  assert (H4 : PyDict.keys out4 = detail_keys).
  { unfold out4. destruct (_open_amenities_page_and_scrape _ _); [|exact H3].
    now apply merge_amenities_data_keys. }
  clearbody out4.
  assert (H5 : forall v, PyDict.keys (PyDict.assign out4 "pets_json" v) = detail_keys).
  { intros v. rewrite keys_assign_in; [exact H4 | rewrite H4; detail_key]. }
  destruct (truthy (_open_pet_policy_if_available _ _)).
  - rewrite keys_assign_in; [apply H5 | rewrite H5; detail_key].
  - rewrite keys_assign_in; [exact H4 | rewrite H4; detail_key].
Qed.

Lemma scrape_hotel_detail_wf (url : string) (page : DetailPage) :
  PyDict.wf (scrape_hotel_detail json_loads_list url page).
Proof.
  unfold PyDict.wf. rewrite scrape_hotel_detail_keys.
  unfold detail_keys. compute_done.
Qed.

(** What the final record holds under a key, in terms of the base record
    and the detail dictionary, before normalization. *)
Lemma pyget_update_detail (base : list (string * pyval)) (url : string)
    (page : DetailPage) (j : string) :
  pyget (PyDict.update base (scrape_hotel_detail json_loads_list url page)) j
  = if bool_decide (j ∈ detail_keys)
    then pyget (scrape_hotel_detail json_loads_list url page) j
    else pyget base j.
Proof.
  unfold pyget. rewrite get_update by apply scrape_hotel_detail_wf.
  destruct (bool_decide (j ∈ detail_keys)) eqn:Hj.
  - apply bool_decide_eq_true in Hj. rewrite <- (scrape_hotel_detail_keys url page) in Hj.
    apply mem_keys in Hj. unfold PyDict.mem in Hj.
    destruct (PyDict.get _ j); [reflexivity | discriminate].
  - apply bool_decide_eq_false in Hj. rewrite <- (scrape_hotel_detail_keys url page) in Hj.
    apply mem_false_keys in Hj. unfold PyDict.mem in Hj.
    destruct (PyDict.get _ j); [discriminate | reflexivity].
Qed.

(** The detail dictionary in the scenario of C8: the page opens, no pet
    policy link is found, and a description was extracted. *)
Lemma detail_without_pet_link (url : string) (page : DetailPage) (desc : string) :
  PyStr.nonempty url = true ->
  dp_nav_ok page = true ->
  first_button ["view pet policy"; "pet policy"] (dp_pet_links page) = None ->
  _extract_description_text page = Some desc ->
  exists out,
    scrape_hotel_detail json_loads_list url page
    = PyDict.assign out "is_pet_friendly" (VBool (_infer_pet_friendly json_loads_list out))
    /\ pyget out "description" = VStr desc
    /\ pyget out "pets_json" = VNone.
Proof.
  intros Hurl Hnav Hlink Hdesc.
  unfold scrape_hotel_detail. cbv zeta. rewrite Hurl, Hnav, Hdesc. cbn [negb].
  unfold _open_pet_policy_if_available at 1 2. rewrite Hlink. cbn [truthy].
  eexists. split; [reflexivity|].
  assert (Hframe : forall j, j = "description" \/ j = "pets_json" ->
    pyget match _open_amenities_page_and_scrape (dp_buttons page) (dp_amenities_page page) with
          | Some data =>
              merge_amenities_data data
                (if truthy_opt (_extract_phone (dp_tel_hrefs page) (dp_body page))
                 then PyDict.assign
                        (if truthy (_extract_highlights_section page)
                         then PyDict.assign
                                (PyDict.assign detail_defaults "description" (of_opt_str (Some desc)))
                                "amenities_json" (_extract_highlights_section page)
                         else PyDict.assign detail_defaults "description" (of_opt_str (Some desc)))
                        "phone" (of_opt_str (_extract_phone (dp_tel_hrefs page) (dp_body page)))
                 else if truthy (_extract_highlights_section page)
                      then PyDict.assign
                             (PyDict.assign detail_defaults "description" (of_opt_str (Some desc)))
                             "amenities_json" (_extract_highlights_section page)
                      else PyDict.assign detail_defaults "description" (of_opt_str (Some desc)))
          | None =>
              if truthy_opt (_extract_phone (dp_tel_hrefs page) (dp_body page))
              then PyDict.assign
                     (if truthy (_extract_highlights_section page)
                      then PyDict.assign
                             (PyDict.assign detail_defaults "description" (of_opt_str (Some desc)))
                             "amenities_json" (_extract_highlights_section page)
                      else PyDict.assign detail_defaults "description" (of_opt_str (Some desc)))
                     "phone" (of_opt_str (_extract_phone (dp_tel_hrefs page) (dp_body page)))
              else if truthy (_extract_highlights_section page)
                   then PyDict.assign
                          (PyDict.assign detail_defaults "description" (of_opt_str (Some desc)))
                          "amenities_json" (_extract_highlights_section page)
                   else PyDict.assign detail_defaults "description" (of_opt_str (Some desc))
          end j
    = pyget (PyDict.assign detail_defaults "description" (VStr desc)) j).
  { intros j Hj.
    destruct (_open_amenities_page_and_scrape _ _);
      rewrite ?merge_amenities_data_frame by exact Hj;
      destruct (truthy_opt _); destruct (truthy _);
      rewrite ?pyget_assign;
      destruct Hj as [-> | ->]; reflexivity. }
  split; (etransitivity; [apply Hframe; auto | reflexivity]).
Qed.

End DetailFacts.

Section RecordFacts.

Variable urlparse_path : string -> option string.
Variable json_loads_list : string -> option (list string).

(** The flag and the JSON fields of the final record, read off the record
    as it is after [hotel_record.update(detail)]. *)
Lemma final_record_fields (city : CityRef) (card : Card) (name_el : Elem) :
  c_title card = Some name_el ->
  exists rec,
    scrape_card urlparse_path json_loads_list city card = Some rec
    /\ (forall key, key ∈ json_keys ->
          pyget rec key
          = normalized
              (pyget (scrape_hotel_detail json_loads_list
                        (default EmptyString (el_href name_el)) (c_detail card)) key))
    /\ pyget rec "is_pet_friendly"
       = match pyget (scrape_hotel_detail json_loads_list
                        (default EmptyString (el_href name_el)) (c_detail card))
                     "is_pet_friendly" with
         | VBool b => VStr (if b then "true" else "false")
         | v => v
         end
    /\ (forall key, key ∈ ["hotel_name"; "address"; "rating"; "card_price"] ->
          pyget rec key = pyget (base_record urlparse_path city card name_el) key).
Proof.
  intros Htitle. unfold scrape_card. rewrite Htitle. cbv zeta.
  eexists. split; [reflexivity|]. split; [|split].
  - intros key Hkey. pose proof (json_key_is key Hkey) as Hjk.
    rewrite !pyget_pop_ne by (intros ->; discriminate Hjk).
    rewrite pyget_coerce_ne by (intros ->; discriminate Hjk).
    unfold normalize_json. rewrite pyget_normalize, bool_decide_eq_true_2 by exact Hkey.
    rewrite pyget_update_detail, bool_decide_eq_true_2; [reflexivity|].
    unfold json_keys in Hkey.
    repeat (apply elem_of_cons in Hkey as [->|Hkey]; [detail_key|]). inversion Hkey.
  - rewrite !pyget_pop_ne by discriminate.
    rewrite pyget_coerce_flag. unfold normalize_json.
    rewrite pyget_normalize, bool_decide_eq_false_2 by (now apply not_json_key).
    rewrite pyget_update_detail, bool_decide_eq_true_2 by detail_key. reflexivity.
  - intros key Hkey.
    assert (Hk : is_json_key key = false /\ key <> "is_pet_friendly"
                 /\ key <> "_city" /\ key <> "_detail_url" /\ key ∉ detail_keys).
    { repeat (apply elem_of_cons in Hkey as [->|Hkey];
              [repeat split; try discriminate; try reflexivity;
               apply (bool_decide_unpack _); vm_compute; exact I|]).
      inversion Hkey. }
    destruct Hk as (Hjk & Hflag & Hcity & Hurl & Hdk).
    rewrite !pyget_pop_ne by assumption.
    rewrite pyget_coerce_ne by assumption.
    unfold normalize_json.
    rewrite pyget_normalize, bool_decide_eq_false_2 by (now apply not_json_key).
    rewrite pyget_update_detail, bool_decide_eq_false_2 by exact Hdk. reflexivity.
Qed.

End RecordFacts.

(** ** The serialization invariant *)

(** C4. The normalization loop of [scrape_city] turns every list or dict
    under a JSON-substructure key into its JSON text and keeps [None] and
    strings as they are; a string that is there is JSON text already.  So in
    every record that [scrape_city] builds each of the six fields is [None]
    or a string that is valid JSON, and the same holds of every list of
    records that [main] hands to [save_outputs] and of the JSON document it
    leaves, the earlier output file holding such records too. *)
Theorem json_fields_spec (urlparse_path : string -> option string)
    (json_loads_list : string -> option (list string)) :
  (forall rec,
      (forall key s, key ∈ json_keys -> pyget rec key = VStr s -> Json.valid s) ->
      json_fields_ok (normalize_json rec))
  /\ (forall city card name_el key,
        c_title card = Some name_el -> key ∈ json_keys ->
        exists rec v,
          scrape_card urlparse_path json_loads_list city card = Some rec
          /\ structured v
          /\ pyget (scrape_hotel_detail json_loads_list
                      (default EmptyString (el_href name_el)) (c_detail card)) key = v
          /\ pyget rec key = normalized v)
  /\ (forall city cards,
        Forall json_fields_ok (scrape_city urlparse_path json_loads_list city cards))
  /\ (forall run_only_one_city overwrite visits fs,
        files_ok json_fields_ok fs ->
        run_ok json_fields_ok
          (main urlparse_path json_loads_list run_only_one_city overwrite visits fs)).
Proof.
  assert (Hcity : forall city cards,
            Forall json_fields_ok (scrape_city urlparse_path json_loads_list city cards)).
  { intros city cards.
    eapply Forall_impl; [apply scrape_city_records|]. intros rec [H _]. exact H. }
  split; [exact normalize_json_ok|]. split; [|split; [exact Hcity|]].
  - intros city card name_el key Htitle Hkey.
    destruct (final_record_fields urlparse_path json_loads_list city card name_el Htitle)
      as (rec & Hrec & Hjson & _).
    exists rec. eexists. split; [exact Hrec|]. split; [|split; [reflexivity|now apply Hjson]].
    pose proof (pyget_shape detail_field_ok _ key
                  (scrape_hotel_detail_shape json_loads_list
                     (default EmptyString (el_href name_el)) (c_detail card))
                  (detail_field_none key)) as Hshape.
    unfold detail_field_ok in Hshape. cbn [fst snd] in Hshape.
    now rewrite (json_key_is key Hkey) in Hshape.
  - intros roo ow visits fs Hfs. now apply main_keeps.
Qed.

Lemma stale_files_json_ok : files_ok json_fields_ok stale_files.
Proof.
  intros data [= <-]. constructor; [|constructor].
  intros key Hkey. left. unfold json_keys in Hkey.
  repeat (apply elem_of_cons in Hkey as [->|Hkey]; [reflexivity|]). inversion Hkey.
Qed.

Lemma json_fields_spec_witness :
  run_ok json_fields_ok
    (main example_url_path no_json_loads true false
       [(miami, Some [pool_card pet_text_page])] stale_files)
  /\ json_fields_ok
       (normalize_json [("amenities_json", VList ["Pool"; "Spa"]);
                        ("parking_json", VStr "{}")]).
Proof.
  pose proof (json_fields_spec example_url_path no_json_loads) as (Hnorm & _ & _ & Hmain).
  split.
  - apply Hmain, stale_files_json_ok.
  - apply Hnorm. intros key s Hkey Hs. unfold json_keys in Hkey.
    repeat (apply elem_of_cons in Hkey as [->|Hkey];
            [vm_compute in Hs; try discriminate Hs|]); [|inversion Hkey].
    injection Hs as <-.
    apply (Json.element_intro EmptyString "{}" EmptyString);
      [constructor | apply (Json.value_object_empty EmptyString); constructor
      | constructor].
Defined.

(** ** Card-level amenities and the detail page *)

(** C2 fails on the code.  The card shows two amenities and its detail page
    cannot be opened: name, address, rating and price keep their card-level
    values, but [hotel_record.update(detail)] writes the [None] of the detail
    dictionary over the card-level [amenities_json]. *)
Theorem card_amenities_lost_when_detail_fails :
  let card := pool_card unreachable_page in
  let name_el := mkElem "Hotel X"
                   (Some "https://www.ihg.com/hotels/us/en/miami/miaep/hoteldetail") in
  pyget (base_record example_url_path miami card name_el) "amenities_json"
  = VStr (Json.dumps (VList ["Pool"; "Pets allowed"]))
  /\ scrape_hotel_detail no_json_loads
       "https://www.ihg.com/hotels/us/en/miami/miaep/hoteldetail" unreachable_page
     = detail_defaults
  /\ exists rec,
       scrape_card example_url_path no_json_loads miami card = Some rec
       /\ pyget rec "hotel_name" = VStr "Hotel X"
       /\ pyget rec "address" = VStr "1 Ocean Drive, Miami"
       /\ pyget rec "rating" = VStr "4.5"
       /\ pyget rec "card_price" = VStr "129 USD"
       /\ pyget rec "amenities_json" = VNone.
Proof.
  cbv zeta. split; [vm_compute; reflexivity|]. split; [vm_compute; reflexivity|].
  eexists. split; [vm_compute; reflexivity|].
  repeat split; vm_compute; reflexivity.
Qed.

(** The same on every card: whenever the detail dictionary holds [None]
    under [amenities_json] (navigation failed, or the page showed no
    amenities), the final record holds [None] there, whatever the card
    showed. *)
Lemma card_amenities_always_overwritten
    (urlparse_path : string -> option string)
    (json_loads_list : string -> option (list string))
    (city : CityRef) (card : Card) (name_el : Elem) :
  c_title card = Some name_el ->
  pyget (scrape_hotel_detail json_loads_list
           (default EmptyString (el_href name_el)) (c_detail card))
        "amenities_json" = VNone ->
  exists rec,
    scrape_card urlparse_path json_loads_list city card = Some rec
    /\ pyget rec "amenities_json" = VNone.
Proof.
  intros Htitle Hnone.
  destruct (final_record_fields urlparse_path json_loads_list city card name_el Htitle)
    as (rec & Hrec & Hjson & _).
  exists rec. split; [exact Hrec|].
  rewrite (Hjson "amenities_json") by (unfold json_keys; do 3 right; left).
  now rewrite Hnone.
Qed.

(* ===================================================================== *)
(** * Further properties of the code *)
(* ===================================================================== *)

(** ** What a hotel code looks like *)

Lemma first_such_some (p : string -> bool) (l : list string) (x : string) :
  first_such p l = Some x -> x ∈ l /\ p x = true.
Proof.
  induction l as [|y l IH]; simpl; [discriminate|].
  destruct (p y) eqn:Hy.
  - intros [= <-]. split; [now left | exact Hy].
  - intros H. destruct (IH H). split; [now right | assumption].
Qed.

Lemma lower_in_points (table : list (N * N * N * N)) (c : char) :
  PyStr.lower_in table c = c
  \/ exists e, e ∈ table /\ c ∈ entry_points e.
Proof.
  induction table as [|[[[lo hi] step] target] table IH]; [now left|].
  simpl.
  destruct ((lo <=? c)%N && (c <=? hi)%N && ((c - lo) mod step =? 0)%N) eqn:E.
  - right. exists (lo, hi, step, target). split; [now left|].
    apply andb_true_iff in E as [E Hmod]. apply andb_true_iff in E as [Hlo Hhi].
    apply N.leb_le in Hlo. apply N.leb_le in Hhi. apply N.eqb_eq in Hmod.
    unfold entry_points. apply list_elem_of_fmap.
    exists (N.to_nat ((c - lo) / step)). split.
    + rewrite N2Nat.id.
      destruct (decide (step = 0%N)) as [->|Hstep].
      * rewrite N.mod_0_r in Hmod. lia.
      * pose proof (N.div_mod (c - lo) step Hstep) as Hdm.
        rewrite Hmod, N.add_0_r in Hdm. clear Hmod.
        remember ((c - lo) / step)%N as q eqn:Hq. clear Hq. nia.
    + apply list_elem_of_In, in_seq. split; [apply Nat.le_0_l|].
      assert (Hle : ((c - lo) / step <= (hi - lo) / step)%N).
      { destruct (decide (step = 0%N)) as [->|Hstep].
        - rewrite !N.div_0_r. reflexivity.
        - apply N.Div0.div_le_mono. lia. }
      remember ((c - lo) / step)%N as q eqn:Hq. clear Hq.
      remember ((hi - lo) / step)%N as r eqn:Hr. clear Hr. lia.
  - destruct IH as [IH | (e & He & Hc)]; [now left|].
    right. exists e. split; [now right | exact Hc].
Qed.

(** A relation that holds between a character without a lowercase mapping
    and itself, and that the check finds on the others, holds between every
    character and its lowercase form. *)
Lemma lower_char_rel (q : N -> N -> bool) (c : char) :
  (PyStr.lower_char c = c -> q c c = true) ->
  lower_check q = true ->
  q c (PyStr.lower_char c) = true.
Proof.
  intros Hsame Hcheck.
  destruct (lower_in_points PyStr.lower_table c) as [H | (e & He & Hc)].
  - fold (PyStr.lower_char c) in H. rewrite H. now apply Hsame.
  - unfold lower_check in Hcheck.
    rewrite forallb_forall in Hcheck. apply list_elem_of_In in He.
    specialize (Hcheck e He). rewrite forallb_forall in Hcheck.
    apply Hcheck. now apply list_elem_of_In.
Qed.

Lemma lower_char_idem (c : char) :
  PyStr.lower_char (PyStr.lower_char c) = PyStr.lower_char c.
Proof.
  apply N.eqb_eq.
  apply (lower_char_rel (fun _ l => (PyStr.lower_char l =? l)%N)).
  - intros H. now apply N.eqb_eq.
  - vm_compute. reflexivity.
Qed.

Lemma lower_char_slash (c : char) :
  PyStr.lower_char c = "/"%char -> c = "/"%char.
Proof.
  intros H.
  assert (Hb : negb (PyStr.lower_char c =? 47)%N || (c =? 47)%N = true).
  { apply (lower_char_rel (fun c l => negb (l =? 47)%N || (c =? 47)%N)).
    - intros _. now destruct (c =? 47)%N.
    - vm_compute. reflexivity. }
  rewrite H in Hb. simpl in Hb. now apply N.eqb_eq in Hb.
Qed.

(** The lowercase mapping yields neither the capital sigma nor the capital
    I with dot above. *)
Lemma lower_char_plain (c : char) :
  c ∉ [304; 931]%N -> PyStr.lower_char c ∉ [304; 931]%N.
Proof.
  intros Hc.
  assert (Hb : negb ((PyStr.lower_char c =? 304)%N || (PyStr.lower_char c =? 931)%N)
               || ((c =? 304)%N || (c =? 931)%N) = true).
  { apply (lower_char_rel
             (fun c l => negb ((l =? 304)%N || (l =? 931)%N)
                         || ((c =? 304)%N || (c =? 931)%N))).
    - intros _. now destruct ((c =? 304)%N || (c =? 931)%N).
    - vm_compute. reflexivity. }
  intros H.
  assert (Hl : (PyStr.lower_char c =? 304)%N || (PyStr.lower_char c =? 931)%N = true).
  { apply elem_of_cons in H as [H|H]; [rewrite H; reflexivity|].
    apply elem_of_cons in H as [H|H]; [rewrite H; reflexivity | inversion H]. }
  rewrite Hl in Hb. simpl in Hb. apply Hc.
  apply orb_true_iff in Hb as [Hb|Hb]; apply N.eqb_eq in Hb; subst c;
    [now left | right; now left].
Qed.

Lemma upper_lower_char (c : char) :
  PyStr.is_upper c = true -> PyStr.lower_char c = (c + 32)%N.
Proof.
  unfold PyStr.is_upper, PyStr.code. intros H.
  apply andb_true_iff in H as [H1 H2].
  apply N.leb_le in H1. apply N.leb_le in H2.
  unfold PyStr.lower_char, PyStr.lower_table.
  change (PyStr.lower_in ((65, 90, 1, 97)%N :: ?rest) c)
    with (if (65 <=? c)%N && (c <=? 90)%N && ((c - 65) mod 1 =? 0)%N
          then (97 + (c - 65))%N else PyStr.lower_in rest c).
  rewrite (proj2 (N.leb_le 65 c) H1), (proj2 (N.leb_le c 90) H2), N.mod_1_r.
  simpl. lia.
Qed.

Lemma all_chars_app (p : char -> bool) (a b : string) :
  all_chars p (a +:+ b) = all_chars p a && all_chars p b.
Proof.
  induction a as [|c a IH]; [reflexivity|].
  simpl. now rewrite IH, andb_assoc.
Qed.

Lemma lower_from_cons (b : list char) (c : char) (s : string) :
  PyStr.lower_from b (String c s)
  = PyStr.lower_full b c s +:+ PyStr.lower_from (c :: b) s.
Proof. reflexivity. Qed.

Lemma lower_full_settled (b : list char) (c : char) (after : string) :
  settled c = true -> PyStr.lower_full b c after = String c EmptyString.
Proof.
  unfold settled, PyStr.lower_full, PyStr.code. intros H.
  apply andb_true_iff in H as [H1 H2]. apply N.eqb_eq in H1.
  apply negb_true_iff, bool_decide_eq_false in H2.
  destruct (c =? 931)%N eqn:E1.
  { apply N.eqb_eq in E1. subst c. exfalso. apply H2. right. now left. }
  destruct (c =? 304)%N eqn:E2.
  { apply N.eqb_eq in E2. subst c. exfalso. apply H2. now left. }
  now rewrite H1.
Qed.

(** Every character [str.lower] yields is one it leaves as it is. *)
Lemma lower_full_out (b : list char) (c : char) (after : string) :
  all_chars settled (PyStr.lower_full b c after) = true.
Proof.
  unfold PyStr.lower_full, PyStr.code.
  destruct (c =? 931)%N eqn:E1.
  { destruct (PyStr.final_sigma b after); vm_compute; reflexivity. }
  destruct (c =? 304)%N eqn:E2; [vm_compute; reflexivity|].
  apply N.eqb_neq in E1. apply N.eqb_neq in E2.
  assert (Hc : c ∉ [304; 931]%N).
  { intros H. apply elem_of_cons in H as [H|H]; [congruence|].
    apply elem_of_cons in H as [H|H]; [congruence | inversion H]. }
  simpl. rewrite andb_true_r. unfold settled.
  rewrite lower_char_idem, N.eqb_refl.
  now rewrite (bool_decide_eq_false_2 _ (lower_char_plain c Hc)).
Qed.

Lemma lower_from_out (s : string) :
  forall b, all_chars settled (PyStr.lower_from b s) = true.
Proof.
  induction s as [|c s IH]; intros b; [reflexivity|].
  now rewrite lower_from_cons, all_chars_app, lower_full_out, IH.
Qed.

Lemma lower_from_settled (k : string) :
  all_chars settled k = true ->
  forall b rest,
    PyStr.lower_from b (k +:+ rest)
    = k +:+ PyStr.lower_from (rev (PyStr.chars k) ++ b) rest.
Proof.
  induction k as [|c k IH]; intros Hk b rest; [reflexivity|].
  simpl in Hk. apply andb_true_iff in Hk as [Hc Hk].
  change (String c k +:+ rest) with (String c (k +:+ rest)).
  rewrite lower_from_cons, (lower_full_settled _ _ _ Hc), (IH Hk).
  simpl. now rewrite <- app_assoc.
Qed.

Lemma lower_idem (s : string) : PyStr.lower (PyStr.lower s) = PyStr.lower s.
Proof.
  unfold PyStr.lower.
  pose proof (lower_from_settled (PyStr.lower_from [] s) (lower_from_out s [])
                [] EmptyString) as H.
  now rewrite !sapp_nil_r in H.
Qed.

Lemma settled_not_upper (c : char) : settled c = true -> PyStr.is_upper c = false.
Proof.
  unfold settled. intros H. apply andb_true_iff in H as [H _]. apply N.eqb_eq in H.
  destruct (PyStr.is_upper c) eqn:Hu; [|reflexivity].
  rewrite (upper_lower_char c Hu) in H. lia.
Qed.

Lemma lower_no_upper (s : string) : no_upper (PyStr.lower s) = true.
Proof.
  unfold no_upper, PyStr.lower.
  pose proof (lower_from_out s []) as H. revert H.
  generalize (PyStr.lower_from [] s) as t.
  induction t as [|c t IH]; simpl; [reflexivity|]. intros H.
  apply andb_true_iff in H as [Hc Ht].
  now rewrite (settled_not_upper c Hc), IH.
Qed.

Lemma lower_from_nonempty (b : list char) (s : string) :
  s <> EmptyString -> PyStr.lower_from b s <> EmptyString.
Proof.
  destruct s as [|c s]; [congruence|]. intros _.
  rewrite lower_from_cons. unfold PyStr.lower_full.
  destruct (PyStr.code c =? 931)%N; [discriminate|].
  destruct (PyStr.code c =? 304)%N; discriminate.
Qed.

Lemma lower_from_no_slash (s : string) :
  no_slash s = true -> forall b, no_slash (PyStr.lower_from b s) = true.
Proof.
  unfold no_slash. induction s as [|c s IH]; intros H b; [reflexivity|].
  simpl in H. apply andb_true_iff in H as [Hc Hs].
  rewrite lower_from_cons, all_chars_app, (IH Hs), andb_true_r.
  unfold PyStr.lower_full, PyStr.code.
  destruct (c =? 931)%N.
  { destruct (PyStr.final_sigma b s); reflexivity. }
  destruct (c =? 304)%N; [reflexivity|].
  simpl. rewrite andb_true_r.
  apply negb_true_iff, bool_decide_eq_false. intros E.
  apply lower_char_slash in E. subst c. discriminate Hc.
Qed.

(** Lowercasing keeps the length, or yields a combining dot above. *)
Lemma lower_length_or_dot (s : string) :
  forall b,
    String.length (PyStr.lower_from b s) = String.length s
    \/ 775%N ∈ PyStr.chars (PyStr.lower_from b s).
Proof.
  induction s as [|c s IH]; intros b; [now left|].
  rewrite lower_from_cons. unfold PyStr.lower_full, PyStr.code.
  destruct (c =? 931)%N.
  { destruct (IH (c :: b)) as [H|H]; [left; simpl; now rewrite H | right; now right]. }
  destruct (c =? 304)%N; [right; simpl; right; now left|].
  destruct (IH (c :: b)) as [H|H]; [left; simpl; now rewrite H | right; now right].
Qed.

Lemma lower_length_plain (s : string) :
  no_dotted_I s = true ->
  forall b, String.length (PyStr.lower_from b s) = String.length s.
Proof.
  unfold no_dotted_I. induction s as [|c s IH]; intros H b; [reflexivity|].
  simpl in H. apply andb_true_iff in H as [Hc Hs]. apply negb_true_iff in Hc.
  rewrite lower_from_cons. unfold PyStr.lower_full, PyStr.code. rewrite Hc.
  destruct (c =? 931)%N; simpl; now rewrite (IH Hs).
Qed.

(** Where a string of characters that lowercasing leaves alone occurs, it
    still occurs after lowercasing. *)
Lemma startswith_lower (sub : string) :
  all_chars settled sub = true ->
  forall b s, PyStr.startswith sub s = true ->
              PyStr.startswith sub (PyStr.lower_from b s) = true.
Proof.
  induction sub as [|a sub IH]; intros Hs b s H; [reflexivity|].
  destruct s as [|c s]; [discriminate|].
  simpl in Hs, H. apply andb_true_iff in Hs as [Ha Hsub].
  destruct (decide (a = c)) as [->|]; [|discriminate].
  rewrite lower_from_cons, (lower_full_settled _ _ _ Ha). simpl.
  rewrite decide_True by reflexivity. now apply IH.
Qed.

Lemma startswith_contains (sub s : string) :
  PyStr.startswith sub s = true -> PyStr.contains sub s = true.
Proof. intros H. destruct s; simpl; now rewrite H. Qed.

Lemma contains_skip (sub x y : string) :
  PyStr.contains sub y = true -> PyStr.contains sub (x +:+ y) = true.
Proof.
  intros H. induction x as [|c x IH]; [exact H|].
  simpl. apply orb_true_iff. now right.
Qed.

Lemma contains_lower (sub : string) :
  all_chars settled sub = true ->
  forall s b, PyStr.contains sub s = true ->
              PyStr.contains sub (PyStr.lower_from b s) = true.
Proof.
  intros Hs. induction s as [|c s IH]; intros b H.
  - exact H.
  - simpl in H. apply orb_true_iff in H as [H|H].
    + apply startswith_contains. now apply startswith_lower.
    + rewrite lower_from_cons. apply contains_skip. now apply IH.
Qed.

(** The lowercase form of a part of a string is, up to the small sigmas,
    the matching part of the lowercase form of the string. *)
Lemma lower_from_sigma_prefix (a : string) :
  forall b1 b2 post,
    sigma_prefix (PyStr.lower_from b2 a) (PyStr.lower_from b1 (a +:+ post)) = true.
Proof.
  induction a as [|c a IH]; intros b1 b2 post; [reflexivity|].
  change (String c a +:+ post) with (String c (a +:+ post)).
  rewrite !lower_from_cons. unfold PyStr.lower_full.
  destruct (PyStr.code c =? 931)%N; [|destruct (PyStr.code c =? 304)%N].
  - destruct (PyStr.final_sigma b2 a), (PyStr.final_sigma b1 (a +:+ post));
      simpl; apply IH.
  - simpl. apply IH.
  - simpl. rewrite N.eqb_refl. simpl. apply IH.
Qed.

Lemma lower_from_app (pre : string) :
  forall b rest,
    exists x,
      PyStr.lower_from b (pre +:+ rest)
      = x +:+ PyStr.lower_from (rev (PyStr.chars pre) ++ b) rest.
Proof.
  induction pre as [|c pre IH]; intros b rest; [now exists EmptyString|].
  change (String c pre +:+ rest) with (String c (pre +:+ rest)).
  rewrite lower_from_cons. destruct (IH (c :: b) rest) as (x & ->).
  exists (PyStr.lower_full b c (pre +:+ rest) +:+ x).
  simpl. now rewrite <- app_assoc, sapp_assoc.
Qed.

Lemma startswith_sigma_prefix (k : string) :
  no_small_sigma k = true ->
  forall h g, sigma_prefix h g = true ->
              PyStr.startswith k h = true -> PyStr.startswith k g = true.
Proof.
  unfold no_small_sigma. induction k as [|a k IH]; intros Hk h g Hp H; [reflexivity|].
  destruct h as [|x h]; [discriminate|].
  destruct g as [|y g]; [discriminate|].
  simpl in Hk, Hp, H. apply andb_true_iff in Hk as [Ha Hk].
  apply andb_true_iff in Hp as [Hxy Hp].
  destruct (decide (a = x)) as [->|]; [|discriminate].
  apply negb_true_iff in Ha. rewrite Ha, orb_false_r in Hxy.
  apply N.eqb_eq in Hxy. subst y. simpl.
  rewrite decide_True by reflexivity. now apply (IH Hk h g).
Qed.

Lemma contains_sigma_prefix (k : string) :
  no_small_sigma k = true ->
  forall h g, sigma_prefix h g = true ->
              PyStr.contains k h = true -> PyStr.contains k g = true.
Proof.
  intros Hk. induction h as [|x h IH]; intros g Hp H.
  - simpl in H. rewrite orb_false_r in H. destruct k; [|discriminate].
    destruct g; reflexivity.
  - destruct g as [|y g]; [discriminate|].
    simpl in Hp. apply andb_true_iff in Hp as [Hxy Hp].
    simpl in H. apply orb_true_iff in H as [H|H].
    + apply startswith_contains.
      apply (startswith_sigma_prefix k Hk (String x h)); [|exact H].
      simpl. now rewrite Hxy, Hp.
    + simpl. apply orb_true_iff. right. now apply IH.
Qed.

Lemma contains_lower_substring (k a s : string) :
  no_small_sigma k = true ->
  substring_of a s ->
  PyStr.contains k (PyStr.lower a) = true ->
  PyStr.contains k (PyStr.lower s) = true.
Proof.
  intros Hk (pre & post & ->) H. unfold PyStr.lower in *.
  destruct (lower_from_app pre [] (a +:+ post)) as (x & ->).
  apply contains_skip.
  apply (contains_sigma_prefix k Hk (PyStr.lower_from [] a)); [|exact H].
  apply lower_from_sigma_prefix.
Qed.

Lemma split_no_sep (s : string) :
  Forall (fun x => no_slash x = true) (PyStr.split "/" s).
Proof.
  induction s as [|c s IH]; simpl.
  - constructor; [reflexivity | constructor].
  - destruct (decide (c = "/"%char)) as [->|Hne].
    + constructor; [reflexivity | exact IH].
    + destruct (PyStr.split "/" s) as [|h t]; inversion IH; subst.
      * constructor; [|constructor]. unfold no_slash. simpl.
        now rewrite bool_decide_eq_false_2.
      * constructor; [|assumption]. unfold no_slash in *. simpl.
        rewrite bool_decide_eq_false_2 by exact Hne. assumption.
Qed.

(** X1. A hotel code that [get_hotel_code_from_url] returns is the lowercased
    form of a segment of the URL's path; it is never empty, holds no [/] and
    no uppercase letter (lowercasing it again changes nothing, and no letter
    from [A] to [Z] is in it), and is never [hoteldetail] or [amenities]. *)
Theorem hotel_code_shape (urlparse_path : string -> option string)
    (url : option string) (c : string) :
  get_hotel_code_from_url urlparse_path url = Some c ->
  c <> EmptyString
  /\ PyStr.lower c = c
  /\ no_upper c = true
  /\ no_slash c = true
  /\ c <> "hoteldetail" /\ c <> "amenities"
  /\ exists u path p,
       url = Some u /\ urlparse_path u = Some path
       /\ p ∈ path_parts path /\ c = PyStr.lower p.
Proof.
  unfold get_hotel_code_from_url.
  destruct url as [u|]; [|discriminate].
  destruct (negb (PyStr.nonempty u)); [discriminate|].
  destruct (urlparse_path u) as [path|] eqn:Hpath; [|discriminate].
  cbv zeta.
  assert (Hparts : forall p, p ∈ path_parts path -> no_slash (PyStr.lower p) = true).
  { intros p Hp. apply lower_from_no_slash.
    pose proof (split_no_sep (PyStr.rstrip_by (fun c => bool_decide (c = "/"%char)) path)) as H.
    rewrite Forall_forall in H. now apply H. }
  destruct (first_such is_code_segment (path_parts path)) as [p|] eqn:H1.
  - intros [= <-]. apply first_such_some in H1 as [Hin Hcode].
    unfold is_code_segment in Hcode. apply andb_true_iff in Hcode as [Hlen _].
    apply Nat.eqb_eq in Hlen.
    assert (Hne : p <> EmptyString) by (intros ->; discriminate Hlen).
    assert (Hl : String.length (PyStr.lower p) = 5
                 \/ 775%N ∈ PyStr.chars (PyStr.lower p)).
    { rewrite <- Hlen. apply lower_length_or_dot. }
    split; [now apply lower_from_nonempty|].
    split; [apply lower_idem|]. split; [apply lower_no_upper|].
    split; [now apply Hparts|].
    split; [|split; [|exists u, path, p; auto]]; intros E; rewrite E in Hl;
      (destruct Hl as [Hl|Hl]; [discriminate Hl|]);
      revert Hl; apply (bool_decide_unpack _); vm_compute; exact I.
  - destruct (first_such is_meaningful_segment (rev (path_parts path))) as [p|] eqn:H2;
      [|discriminate].
    intros [= <-]. apply first_such_some in H2 as [Hin Hm].
    rewrite list_elem_of_In, <- in_rev, <- list_elem_of_In in Hin.
    unfold is_meaningful_segment in Hm. apply andb_true_iff in Hm as [Hne Hnot].
    apply negb_true_iff, bool_decide_eq_false in Hnot.
    assert (Hp : p <> EmptyString) by (intros ->; discriminate Hne).
    split; [now apply lower_from_nonempty|].
    split; [apply lower_idem|]. split; [apply lower_no_upper|].
    split; [now apply Hparts|].
    split; [intros E; apply Hnot; rewrite E; now left|].
    split; [intros E; apply Hnot; rewrite E; right; now left|].
    exists u, path, p. auto.
Qed.

(** The path [/hotels/ΟΔΟΣ/İ] has no segment of five letters or digits; its
    last segment is lowercased to [i] and a combining dot above. *)
Lemma hotel_code_shape_witness :
  get_hotel_code_from_url example_url_path
    (Some "https://www.ihg.com/hotels/ΟΔΟΣ/İ")
  = Some (String 105%N (String 775%N EmptyString))
  /\ no_upper (String 105%N (String 775%N EmptyString)) = true
  /\ no_slash (String 105%N (String 775%N EmptyString)) = true.
Proof.
  assert (H : get_hotel_code_from_url example_url_path
                (Some "https://www.ihg.com/hotels/ΟΔΟΣ/İ")
              = Some (String 105%N (String 775%N EmptyString)))
    by (vm_compute; reflexivity).
  destruct (hotel_code_shape example_url_path _ _ H) as (_ & _ & Hu & Hs & _).
  split; [exact H|]. split; [exact Hu | exact Hs].
Defined.

(** ** The description of a hotel *)

Lemma longest_from_spec (texts : list string) :
  forall best,
    (PyStr.longest_from best texts = best \/ PyStr.longest_from best texts ∈ texts)
    /\ String.length best <= String.length (PyStr.longest_from best texts)
    /\ forall t, t ∈ texts ->
         String.length t <= String.length (PyStr.longest_from best texts).
Proof.
  induction texts as [|x texts IH]; intros best; simpl.
  - split; [now left|]. split; [lia|]. intros t Ht. inversion Ht.
  - destruct (String.length best <? String.length x)%nat eqn:Hlt.
    + apply Nat.ltb_lt in Hlt. destruct (IH x) as (Hin & Hge & Hall).
      split; [right; destruct Hin as [-> | Hin]; [now left | now right]|].
      split; [lia|]. intros t Ht. apply elem_of_cons in Ht as [->|Ht]; auto.
    + apply Nat.ltb_ge in Hlt. destruct (IH best) as (Hin & Hge & Hall).
      split; [destruct Hin as [Hin | Hin]; [now left | right; now right]|].
      split; [lia|]. intros t Ht. apply elem_of_cons in Ht as [->|Ht]; [lia | auto].
Qed.

Lemma longest_spec (texts : list string) (r : string) :
  PyStr.longest texts = Some r ->
  r ∈ texts /\ forall t, t ∈ texts -> String.length t <= String.length r.
Proof.
  destruct texts as [|x texts]; [discriminate|]. simpl. intros [= <-].
  destruct (longest_from_spec texts x) as (Hin & Hge & Hall). split.
  - destruct Hin as [-> | Hin]; [now left | now right].
  - intros t Ht. apply elem_of_cons in Ht as [->|Ht]; auto.
Qed.

Lemma first_described_skip (pre : list (list string)) (rest : list (list string)) :
  Forall (fun g => long_blocks g = []) pre ->
  first_described (pre ++ rest) = first_described rest.
Proof.
  induction 1 as [|g pre Hg _ IH]; simpl; [reflexivity|]. now rewrite Hg.
Qed.

Lemma longest_paragraph_spec (ps : list string) :
  forall best,
    let r := fold_left
               (fun best p =>
                  let t := PyStr.strip p in
                  if (String.length best <? String.length t)%nat then t else best)
               ps best in
    (r = best \/ exists p, p ∈ ps /\ r = PyStr.strip p)
    /\ String.length best <= String.length r
    /\ forall p, p ∈ ps -> String.length (PyStr.strip p) <= String.length r.
Proof.
  induction ps as [|x ps IH]; intros best; cbv zeta; simpl.
  - split; [now left|]. split; [lia|]. intros p Hp. inversion Hp.
  - destruct (String.length best <? String.length (PyStr.strip x))%nat eqn:Hlt.
    + apply Nat.ltb_lt in Hlt. destruct (IH (PyStr.strip x)) as (Hin & Hge & Hall).
      cbv zeta in *. split.
      * right. destruct Hin as [-> | (p & Hp & ->)];
          [exists x; split; [now left | reflexivity] | exists p; split; [now right | reflexivity]].
      * split; [lia|]. intros p Hp. apply elem_of_cons in Hp as [->|Hp]; auto.
    + apply Nat.ltb_ge in Hlt. destruct (IH best) as (Hin & Hge & Hall).
      cbv zeta in *. split.
      * destruct Hin as [Hin | (p & Hp & ->)];
          [now left | right; exists p; split; [now right | reflexivity]].
      * split; [lia|]. intros p Hp. apply elem_of_cons in Hp as [->|Hp]; [lia | auto].
Qed.

Lemma nonempty_false (s : string) : PyStr.nonempty s = false <-> s = EmptyString.
Proof. destruct s; simpl; split; congruence. Qed.

Lemma nonempty_true (s : string) : PyStr.nonempty s = true <-> s <> EmptyString.
Proof. destruct s; simpl; split; congruence. Qed.

Lemma length_zero_empty (s : string) : String.length s = 0 -> s = EmptyString.
Proof. destruct s; [reflexivity | discriminate]. Qed.

(** X2. [_extract_description_text] answers from the first selector group
    that has a block of more than 120 characters: the longest such block of
    that group, later groups not being looked at.  When no group has one it
    answers with the longest paragraph of the page, and with [None] exactly
    when, besides, every paragraph is blank.  A description is never the
    empty string. *)
Theorem extract_description_spec (page : DetailPage) :
  (forall pre g post,
      dp_desc_groups page = pre ++ g :: post ->
      Forall (fun g' => long_blocks g' = []) pre ->
      long_blocks g <> [] ->
      exists r,
        _extract_description_text page = Some r
        /\ r ∈ long_blocks g
        /\ 120 < String.length r
        /\ forall t, t ∈ long_blocks g -> String.length t <= String.length r)
  /\ (Forall (fun g => long_blocks g = []) (dp_desc_groups page) ->
      _extract_description_text page
      = (if PyStr.nonempty (longest_paragraph (dp_paragraphs page))
         then Some (longest_paragraph (dp_paragraphs page)) else None)
      /\ (forall p, p ∈ dp_paragraphs page ->
            String.length (PyStr.strip p)
            <= String.length (longest_paragraph (dp_paragraphs page)))
      /\ (longest_paragraph (dp_paragraphs page) = EmptyString
          \/ exists p, p ∈ dp_paragraphs page
                       /\ longest_paragraph (dp_paragraphs page) = PyStr.strip p))
  /\ (_extract_description_text page = None
      <-> Forall (fun g => long_blocks g = []) (dp_desc_groups page)
          /\ Forall (fun p => PyStr.strip p = EmptyString) (dp_paragraphs page))
  /\ (forall r, _extract_description_text page = Some r -> r <> EmptyString).
Proof.
  assert (Hnone : forall groups, first_described groups = None
                                 <-> Forall (fun g => long_blocks g = []) groups).
  { induction groups as [|g groups IH]; simpl.
    - split; [constructor | reflexivity].
    - destruct (long_blocks g) as [|x l] eqn:Hg; simpl.
      + rewrite IH. split; [now constructor | intros H; now inversion H].
      + split; [discriminate | intros H; inversion H; congruence]. }
  assert (Hsome : forall groups r, first_described groups = Some r -> 120 < String.length r).
  { induction groups as [|g groups IH]; simpl; intros r; [discriminate|].
    destruct (PyStr.longest (long_blocks g)) as [t|] eqn:Hl; [|apply IH].
    intros [= <-]. apply longest_spec in Hl as [Hin _].
    unfold long_blocks in Hin. apply list_elem_of_filter in Hin as [Hin _].
    now apply Nat.ltb_lt in Hin. }
  pose proof (longest_paragraph_spec (dp_paragraphs page) EmptyString) as Hpar.
  cbv zeta in Hpar. fold (longest_paragraph (dp_paragraphs page)) in Hpar.
  destruct Hpar as (Hpin & _ & Hpall).
  unfold _extract_description_text.
  split; [|split; [|split]].
  - intros pre g post Hgroups Hpre Hg. rewrite Hgroups, (first_described_skip pre _ Hpre).
    simpl. destruct (PyStr.longest (long_blocks g)) as [r|] eqn:Hl.
    + exists r. destruct (longest_spec _ _ Hl) as [Hin Hall].
      split; [reflexivity|]. split; [exact Hin|]. split; [|exact Hall].
      unfold long_blocks in Hin. apply list_elem_of_filter in Hin as [Hin _].
      now apply Nat.ltb_lt in Hin.
    + destruct (long_blocks g); [congruence | discriminate Hl].
  - intros Hall. apply Hnone in Hall. rewrite Hall. cbv zeta.
    split; [reflexivity|]. split; [exact Hpall | exact Hpin].
  - destruct (first_described (dp_desc_groups page)) as [r|] eqn:Hf.
    + split; [discriminate|]. intros [Hall _]. apply Hnone in Hall. congruence.
    + cbv zeta. apply Hnone in Hf.
      destruct (PyStr.nonempty (longest_paragraph (dp_paragraphs page))) eqn:Hb.
      * split; [discriminate|]. intros [_ Hblank]. exfalso.
        apply nonempty_true in Hb. apply Hb.
        destruct Hpin as [E | (p & Hp & E)]; [exact E|].
        rewrite Forall_forall in Hblank. rewrite E. now apply Hblank.
      * split; [|reflexivity]. intros _. split; [exact Hf|].
        apply nonempty_false in Hb. apply Forall_forall. intros p Hp.
        apply length_zero_empty. specialize (Hpall p Hp). rewrite Hb in Hpall.
        simpl in Hpall. lia.
  - intros r. destruct (first_described (dp_desc_groups page)) as [t|] eqn:Hf.
    + intros [= <-]. apply Hsome in Hf. intros E. rewrite E in Hf. simpl in Hf. lia.
    + cbv zeta. destruct (PyStr.nonempty _) eqn:Hb; [|discriminate].
      intros [= <-]. now apply nonempty_true.
Qed.

Lemma extract_description_spec_witness :
  _extract_description_text accent_page = Some "Café by the sea."
  /\ "A pet-friendly hotel by the beach." <> EmptyString.
Proof.
  destruct (extract_description_spec accent_page) as (_ & Hpar & _).
  destruct (extract_description_spec pet_text_page) as (_ & _ & _ & Hne).
  split.
  - destruct Hpar as (Hpar & _).
    + apply Forall_cons_2; [vm_compute; reflexivity | apply Forall_nil_2].
    + rewrite Hpar. vm_compute. reflexivity.
  - apply Hne. vm_compute. reflexivity.
Defined.

(** ** The probes of the amenities page *)

Lemma distinct_texts_spec (keep : string -> bool) (texts : list string) :
  forall acc,
    NoDup acc ->
    let r :=
      fold_left
        (fun items e =>
           let t := PyStr.strip e in
           if keep e && (PyStr.nonempty t && negb (bool_decide (t ∈ items)))
           then items ++ [t] else items)
        texts acc in
    NoDup r
    /\ forall x, x ∈ r
         <-> x ∈ acc
             \/ (x <> EmptyString
                 /\ exists e, e ∈ texts /\ keep e = true /\ x = PyStr.strip e).
Proof.
  induction texts as [|e texts IH]; intros acc Hacc; cbv zeta; simpl.
  - split; [exact Hacc|]. intros x. split; [now left|].
    intros [H | (_ & e & He & _)]; [exact H | inversion He].
  - destruct (keep e && (PyStr.nonempty (PyStr.strip e)
                         && negb (bool_decide (PyStr.strip e ∈ acc)))) eqn:Hc.
    + apply andb_true_iff in Hc as [Hk Hc]. apply andb_true_iff in Hc as [Hne Hnew].
      apply negb_true_iff, bool_decide_eq_false in Hnew. apply nonempty_true in Hne.
      destruct (IH (acc ++ [PyStr.strip e])) as [Hnd Hin].
      { apply NoDup_app. split; [exact Hacc|]. split; [|apply NoDup_singleton].
        intros x Hx Hx'. apply list_elem_of_singleton in Hx'. now subst. }
      cbv zeta in Hnd, Hin. split; [exact Hnd|]. intros x. rewrite Hin. split.
      * intros [H | (Hx & e' & He' & Hk' & ->)].
        -- apply elem_of_app in H as [H|H]; [now left|].
           apply list_elem_of_singleton in H as ->. right.
           split; [exact Hne|]. exists e. split; [now left | auto].
        -- right. split; [exact Hx|]. exists e'. split; [now right | auto].
      * intros [H | (Hx & e' & He' & Hk' & ->)].
        -- left. apply elem_of_app. now left.
        -- apply elem_of_cons in He' as [->|He'].
           ++ left. apply elem_of_app. right. now left.
           ++ right. split; [exact Hx|]. exists e'. auto.
    + destruct (IH acc Hacc) as [Hnd Hin]. cbv zeta in Hnd, Hin.
      split; [exact Hnd|]. intros x. rewrite Hin. split.
      * intros [H | (Hx & e' & He' & Hk' & ->)]; [now left|].
        right. split; [exact Hx|]. exists e'. split; [now right | auto].
      * intros [H | (Hx & e' & He' & Hk' & ->)]; [now left|].
        apply elem_of_cons in He' as [->|He'].
        -- left. apply andb_false_iff in Hc as [Hc|Hc]; [congruence|].
           apply andb_false_iff in Hc as [Hc|Hc].
           ++ apply nonempty_false in Hc. congruence.
           ++ apply negb_false_iff, bool_decide_eq_true in Hc. exact Hc.
        -- right. split; [exact Hx|]. exists e'. auto.
Qed.

(** X3. [_scrape_amenities_list_from_page] returns the stripped, non-empty
    texts of the elements the selectors match, each once; it returns [None]
    exactly when every such text is blank, and never an empty list. *)
Theorem amenities_list_spec (page : AmenitiesPage) :
  (_scrape_amenities_list_from_page page = VNone
   <-> Forall (fun t => PyStr.strip t = EmptyString) (concat (ap_amenity_texts page)))
  /\ forall items,
       _scrape_amenities_list_from_page page = VList items ->
       items <> [] /\ NoDup items
       /\ forall x, x ∈ items
            <-> x <> EmptyString
                /\ exists t, t ∈ concat (ap_amenity_texts page) /\ x = PyStr.strip t.
Proof.
  pose proof (distinct_texts_spec (fun _ => true) (concat (ap_amenity_texts page))
                [] (NoDup_nil_2)) as [Hnd Hin].
  cbv zeta in Hnd, Hin. cbn [andb] in Hnd, Hin.
  unfold _scrape_amenities_list_from_page. cbv zeta.
  set (items := fold_left _ _ _) in *. clearbody items.
  assert (Hin' : forall x, x ∈ items
             <-> x <> EmptyString
                 /\ exists t, t ∈ concat (ap_amenity_texts page) /\ x = PyStr.strip t).
  { intros x. rewrite Hin. split.
    - intros [H | (Hx & e & He & _ & ->)]; [inversion H | eauto].
    - intros (Hx & e & He & ->). right. eauto. }
  split.
  - destruct items as [|i items].
    + split; [|reflexivity]. intros _. apply Forall_forall. intros t Ht.
      destruct (PyStr.strip t) as [|a s] eqn:E; [reflexivity|]. exfalso.
      assert (H : String a s ∈ ([] : list string)).
      { apply Hin'. split; [discriminate|]. exists t. auto. }
      inversion H.
    + split; [discriminate|]. intros Hblank. exfalso.
      assert (H : i ∈ i :: items) by (now left).
      apply Hin' in H as (Hi & t & Ht & ->).
      rewrite Forall_forall in Hblank. now apply Hi, Hblank.
  - intros its Hits. destruct items as [|i items]; [discriminate|].
    injection Hits as <-. split; [discriminate|]. split; [exact Hnd | exact Hin'].
Qed.

Lemma amenities_list_spec_witness :
  _scrape_amenities_list_from_page spaced_page = VList ["Pool"; "Spa"]
  /\ NoDup ["Pool"; "Spa"].
Proof.
  assert (H : _scrape_amenities_list_from_page spaced_page = VList ["Pool"; "Spa"])
    by (vm_compute; reflexivity).
  split; [exact H|].
  apply (proj2 (amenities_list_spec spaced_page) ["Pool"; "Spa"] H).
Defined.

Lemma assign_wf {K V : Type} `{EqDecision K} (d : list (K * V)) (k : K) (v : V) :
  PyDict.wf d -> PyDict.wf (PyDict.assign d k v).
Proof.
  unfold PyDict.wf. intros Hwf. rewrite keys_assign.
  destruct (PyDict.mem d k) eqn:Hm; [exact Hwf|].
  apply NoDup_app. split; [exact Hwf|]. split; [|apply NoDup_singleton].
  intros x Hx Hx'. apply list_elem_of_singleton in Hx' as ->.
  apply mem_false_keys in Hm. exact (Hm Hx).
Qed.

Lemma add_pairs_spec (ks vs : list string) (data : list (string * string)) :
  PyDict.wf data -> Forall filled data ->
  PyDict.wf (add_pairs data ks vs) /\ Forall filled (add_pairs data ks vs).
Proof.
  unfold add_pairs. generalize (zip ks vs). intros pairs. revert data.
  induction pairs as [|[k v] pairs IH]; intros data Hwf Hf; simpl; [auto|].
  apply IH.
  - destruct (_ && _); [now apply assign_wf | exact Hwf].
  - destruct (PyStr.nonempty (PyStr.strip k) && PyStr.nonempty (PyStr.strip v)) eqn:Hc;
      [|exact Hf].
    apply andb_true_iff in Hc as [Hk Hv].
    apply assign_shape; [exact Hf|]. split; simpl; now apply nonempty_true.
Qed.

(** X4. The table [_scrape_overview_table_from_page] returns is never empty,
    holds no label twice, and holds no empty label or value.  When the
    [dt] and [dd] elements do not pair up (one list is empty or their
    lengths differ) they are ignored and only the fallback rows count; when
    they pair up and give at least one entry the fallback rows are
    ignored. *)
Theorem overview_table_spec (page : AmenitiesPage) :
  (forall data,
      _scrape_overview_table_from_page page = VDict data ->
      data <> [] /\ PyDict.wf data /\ Forall filled data)
  /\ (pairable (ap_dts page) (ap_dds page) = false ->
      forall page',
        ap_rows page' = ap_rows page ->
        pairable (ap_dts page') (ap_dds page') = false ->
        _scrape_overview_table_from_page page'
        = _scrape_overview_table_from_page page)
  /\ (pairable (ap_dts page) (ap_dds page) = true ->
      add_pairs [] (ap_dts page) (ap_dds page) <> [] ->
      _scrape_overview_table_from_page page
      = VDict (add_pairs [] (ap_dts page) (ap_dds page))).
Proof.
  split; [|split].
  - intros data. unfold _scrape_overview_table_from_page. cbv zeta.
    set (first := if pairable _ _ then _ else []).
    assert (H1 : PyDict.wf first /\ Forall filled first).
    { unfold first. destruct (pairable _ _).
      - apply add_pairs_spec; [apply NoDup_nil_2 | constructor].
      - split; [apply NoDup_nil_2 | constructor]. }
    set (second := match first with [] => _ | _ => first end).
    assert (H2 : PyDict.wf second /\ Forall filled second).
    { unfold second. destruct first as [|x l]; [|exact H1].
      generalize (ap_rows page). intros rows.
      assert (H : forall d, PyDict.wf d -> Forall filled d ->
                PyDict.wf (fold_left (fun data row =>
                    if pairable (fst row) (snd row)
                    then add_pairs data (fst row) (snd row) else data) rows d)
                /\ Forall filled (fold_left (fun data row =>
                    if pairable (fst row) (snd row)
                    then add_pairs data (fst row) (snd row) else data) rows d)).
      { induction rows as [|r rows IH]; intros d Hw Hf; simpl; [auto|].
        destruct (pairable (fst r) (snd r)); [|now apply IH].
        destruct (add_pairs_spec (fst r) (snd r) d Hw Hf). now apply IH. }
      apply H; [apply NoDup_nil_2 | constructor]. }
    clearbody second. destruct second as [|x l]; [discriminate|].
    intros [= <-]. split; [discriminate | exact H2].
  - intros Hp page' Hrows Hp'. unfold _scrape_overview_table_from_page.
    now rewrite Hp, Hp', Hrows.
  - intros Hp Hne. unfold _scrape_overview_table_from_page. rewrite Hp. cbv zeta.
    destruct (add_pairs [] (ap_dts page) (ap_dds page)); [congruence | reflexivity].
Qed.

Lemma overview_table_spec_witness :
  PyDict.wf [("Check-in", "3 PM"); ("Check-out", "noon")].
Proof.
  apply (proj1 (overview_table_spec
                  {| ap_amenity_texts := [];
                     ap_text := mkPageText [] EmptyString;
                     ap_dts := ["Check-in"; "Check-out"; "Check-in"; " "];
                     ap_dds := ["4 PM"; "noon"; " 3 PM "; "late"];
                     ap_rows := [(["Pets"], ["yes"])];
                     ap_tel_hrefs := [] |})
           [("Check-in", "3 PM"); ("Check-out", "noon")]).
  vm_compute. reflexivity.
Defined.

(** ** Section text by keyword *)

Lemma find_contains (sub : string) (s : string) :
  PyStr.find sub s = None <-> PyStr.contains sub s = false.
Proof.
  induction s as [|c s IH]; simpl.
  - destruct (PyStr.startswith sub EmptyString); simpl; split; congruence.
  - destruct (PyStr.startswith sub (String c s)); simpl; [split; congruence|].
    rewrite <- IH. destruct (PyStr.find sub s); simpl; split; congruence.
Qed.

Lemma take_drop_string (n : nat) (s : string) :
  PyStr.take n s +:+ PyStr.drop n s = s.
Proof.
  revert s. induction n as [|n IH]; intros s; [destruct s; reflexivity|].
  destruct s as [|c s]; [reflexivity|]. simpl. now rewrite IH.
Qed.

Lemma take_length_le (n : nat) (s : string) : String.length (PyStr.take n s) <= n.
Proof.
  revert s. induction n as [|n IH]; intros s; [destruct s; simpl; lia|].
  destruct s as [|c s]; simpl; [lia|]. specialize (IH s). lia.
Qed.

Lemma slice_substring (i j : nat) (s : string) :
  substring_of (PyStr.slice i j s) s /\ String.length (PyStr.slice i j s) <= j - i.
Proof.
  unfold PyStr.slice. split; [|apply take_length_le].
  exists (PyStr.take i s), (PyStr.drop (j - i) (PyStr.drop i s)).
  now rewrite take_drop_string, take_drop_string.
Qed.

Lemma matching_sections_fold (keywords : list string) (sections : list string) :
  forall texts,
    matching_sections keywords sections texts
    = fold_left
        (fun items e =>
           let t := PyStr.strip e in
           if any_keyword_in keywords (PyStr.lower e)
              && (PyStr.nonempty t && negb (bool_decide (t ∈ items)))
           then items ++ [t] else items)
        sections texts.
Proof.
  induction sections as [|sec sections IH]; intros texts; simpl; [reflexivity|].
  destruct (any_keyword_in keywords (PyStr.lower sec)); simpl; [|apply IH].
  destruct (PyStr.nonempty (PyStr.strip sec) && negb (bool_decide (PyStr.strip sec ∈ texts)));
    apply IH.
Qed.

Lemma find_lt (sub s : string) (i : nat) :
  sub <> EmptyString -> PyStr.find sub s = Some i -> i < String.length s.
Proof.
  intros Hsub. revert i. induction s as [|c s IH]; intros i; simpl.
  - destruct sub; [congruence | discriminate].
  - destruct (PyStr.startswith sub (String c s)); [intros [= <-]; lia|].
    destruct (PyStr.find sub s) as [i'|]; [|discriminate].
    intros [= <-]. specialize (IH i' eq_refl). lia.
Qed.

Lemma drop_length (n : nat) (s : string) :
  String.length (PyStr.drop n s) = String.length s - n.
Proof.
  revert s. induction n as [|n IH]; intros s; [destruct s; simpl; lia|].
  destruct s as [|c s]; [reflexivity|]. simpl. apply IH.
Qed.

Lemma slice_nonempty (i j : nat) (s : string) :
  i < String.length s -> i < j -> PyStr.slice i j s <> EmptyString.
Proof.
  intros Hi Hj. unfold PyStr.slice.
  pose proof (drop_length i s) as Hd.
  destruct (PyStr.drop i s) as [|c d]; [simpl in Hd; lia|].
  destruct (j - i) as [|n] eqn:E; [lia | discriminate].
Qed.

Lemma keyword_window_nonempty (keywords : list string) (full w : string) :
  no_dotted_I full = true ->
  Forall (fun k => k <> EmptyString) keywords ->
  w ∈ keyword_window keywords full -> w <> EmptyString.
Proof.
  intros Hfull.
  induction 1 as [|k keywords Hk _ IH]; simpl; [intros H; inversion H|].
  destruct (PyStr.find k (PyStr.lower full)) as [idx|] eqn:Hf; [|exact IH].
  intros Hin. apply list_elem_of_singleton in Hin as ->.
  apply (find_lt _ _ _ Hk) in Hf. unfold PyStr.lower in Hf.
  rewrite (lower_length_plain _ Hfull) in Hf.
  apply slice_nonempty; lia.
Qed.

Lemma keyword_window_spec (keywords : list string) (full : string) :
  (keyword_window keywords full = []
   <-> any_keyword_in keywords (PyStr.lower full) = false)
  /\ forall w ws, keyword_window keywords full = w :: ws ->
       ws = [] /\ substring_of w full /\ String.length w <= 1200.
Proof.
  induction keywords as [|k keywords [IH1 IH2]]; simpl.
  - split; [split; reflexivity | discriminate].
  - destruct (PyStr.find k (PyStr.lower full)) as [idx|] eqn:Hf.
    + assert (Hc : PyStr.contains k (PyStr.lower full) = true).
      { destruct (PyStr.contains k (PyStr.lower full)) eqn:E; [reflexivity|].
        apply find_contains in E. congruence. }
      rewrite Hc. simpl. split; [split; discriminate|].
      intros w ws [= <- <-]. split; [reflexivity|].
      destruct (slice_substring (idx - 500) (idx + 700) full) as [Hs Hl].
      split; [exact Hs | lia].
    + apply find_contains in Hf. rewrite Hf. simpl. split; [exact IH1 | exact IH2].
Qed.

(** X5. [_collect_section_text] prefers sections to the body: when a section
    whose lowercased text holds a keyword has a non-blank text, the answer is
    the longest such (stripped) text and the body is not looked at.
    Otherwise the answer is a window of the body, at most 1200 characters
    long, and [None] exactly when no keyword occurs in the lowercased
    body.  The window is cut from the body at the position the keyword has
    in the lowercased body; it is not empty when the body holds no capital
    I with dot above, the one character that lowercasing makes longer. *)
Theorem collect_section_text_spec (page : PageText) (keywords : list string) :
  let matched := matching_sections keywords (pt_sections page) [] in
  (NoDup matched
   /\ forall x, x ∈ matched
        <-> x <> EmptyString
            /\ exists sec, sec ∈ pt_sections page
                 /\ any_keyword_in keywords (PyStr.lower sec) = true
                 /\ x = PyStr.strip sec)
  /\ (matched <> [] ->
      exists r,
        _collect_section_text page keywords = Some r
        /\ r ∈ matched
        /\ forall t, t ∈ matched -> String.length t <= String.length r)
  /\ (matched = [] ->
      (_collect_section_text page keywords = None
       <-> any_keyword_in keywords (PyStr.lower (pt_body page)) = false)
      /\ (forall w, _collect_section_text page keywords = Some w ->
            substring_of w (pt_body page) /\ String.length w <= 1200)
      /\ (no_dotted_I (pt_body page) = true ->
          Forall (fun k => k <> EmptyString) keywords ->
          forall w, _collect_section_text page keywords = Some w ->
                    w <> EmptyString)).
Proof.
  intros matched. split; [|split].
  - unfold matched. rewrite matching_sections_fold.
    destruct (distinct_texts_spec
                (fun e => any_keyword_in keywords (PyStr.lower e))
                (pt_sections page) [] NoDup_nil_2) as [Hnd Hin].
    cbv zeta in Hnd, Hin. split; [exact Hnd|]. intros x. rewrite Hin. split.
    + intros [H | H]; [inversion H | exact H].
    + intros H. now right.
  - intros Hne. unfold _collect_section_text. fold matched.
    destruct matched as [|m ms] eqn:Hm; [congruence|].
    destruct (PyStr.longest (m :: ms)) as [r|] eqn:Hl; [|discriminate Hl].
    exists r. split; [reflexivity|]. now apply longest_spec.
  - intros Hnil.
    assert (Hne : no_dotted_I (pt_body page) = true ->
                  Forall (fun k => k <> EmptyString) keywords ->
                  forall w, _collect_section_text page keywords = Some w ->
                            w <> EmptyString).
    { intros Hbody Hk w Hw. unfold _collect_section_text in Hw.
      fold matched in Hw. rewrite Hnil in Hw.
      apply longest_spec in Hw as [Hin _].
      exact (keyword_window_nonempty _ _ _ Hbody Hk Hin). }
    unfold _collect_section_text in *. fold matched in Hne |- *. rewrite Hnil in Hne |- *.
    destruct (keyword_window_spec keywords (pt_body page)) as [Hnone Hsome].
    destruct (keyword_window keywords (pt_body page)) as [|w ws] eqn:Hw.
    + split; [split; [intros _; now apply Hnone | reflexivity]|].
      split; [discriminate | exact Hne].
    + destruct (Hsome w ws eq_refl) as (-> & Hsub & Hlen). simpl. split.
      * split; [discriminate|]. intros H. apply Hnone in H. discriminate H.
      * split; [|exact Hne]. intros w' [= <-]. auto.
Qed.

(** The sections are preferred to the body; on [dotted_page] the window of
    the body is empty. *)
Lemma collect_section_text_spec_witness :
  (exists r,
      _collect_section_text
        (mkPageText ["  Valet parking: 20 USD "; "Breakfast"; "PARKING"] "Free parking")
        ["parking"; "valet"]
      = Some r
      /\ String.length "PARKING" <= String.length r)
  /\ "Free parking" <> EmptyString.
Proof.
  split.
  - destruct (proj1 (proj2 (collect_section_text_spec
                (mkPageText ["  Valet parking: 20 USD "; "Breakfast"; "PARKING"] "Free parking")
                ["parking"; "valet"])))
      as (r & Hr & _ & Hall).
    + vm_compute. discriminate.
    + exists r. split; [exact Hr|]. apply Hall. vm_compute. right. left.
  - destruct (proj2 (proj2 (collect_section_text_spec
                (mkPageText ["Breakfast"] "Free parking") ["parking"; "valet"])))
      as (_ & _ & Hne); [reflexivity|].
    apply Hne.
    + reflexivity.
    + apply Forall_cons_2; [discriminate|].
      apply Forall_cons_2; [discriminate | apply Forall_nil_2].
    + vm_compute. reflexivity.
Defined.

(** ** Inferring the pet-friendly flag *)

Lemma startswith_app (a b s : string) :
  PyStr.startswith (a +:+ b) s = true -> PyStr.startswith a s = true.
Proof.
  revert s. induction a as [|x a IH]; intros s H; [reflexivity|].
  destruct s as [|y s]; [discriminate|]. simpl in *.
  destruct (decide (x = y)); [now apply IH | discriminate].
Qed.

Lemma contains_app (a b s : string) :
  PyStr.contains (a +:+ b) s = true -> PyStr.contains a s = true.
Proof.
  induction s as [|c s IH]; simpl; intros H.
  - rewrite orb_false_r in *. now apply (startswith_app a b).
  - apply orb_true_iff in H as [H|H]; apply orb_true_iff.
    + left. now apply (startswith_app a b).
    + right. now apply IH.
Qed.

Lemma startswith_extend (sub s post : string) :
  PyStr.startswith sub s = true -> PyStr.startswith sub (s +:+ post) = true.
Proof.
  revert s. induction sub as [|x sub IH]; intros s H; [reflexivity|].
  destruct s as [|y s]; [discriminate|]. simpl in *.
  destruct (decide (x = y)); [now apply IH | discriminate].
Qed.

Lemma contains_substring (sub a s : string) :
  substring_of a s -> PyStr.contains sub a = true -> PyStr.contains sub s = true.
Proof.
  intros (pre & post & ->) H. induction pre as [|c pre IH].
  - simpl. clear -H. induction a as [|x a IH]; simpl in *.
    + rewrite orb_false_r in H.
      destruct sub; [destruct post; reflexivity | discriminate].
    + apply orb_true_iff in H as [H|H]; apply orb_true_iff.
      * left. now apply (startswith_extend sub (String x a) post).
      * right. now apply IH.
  - simpl. apply orb_true_iff. right. exact IH.
Qed.

Lemma join_substring (sep a : string) (l : list string) :
  a ∈ l -> substring_of a (PyStr.join sep l).
Proof.
  induction l as [|x l IH]; intros Hin; [inversion Hin|].
  apply elem_of_cons in Hin as [->|Hin].
  - destruct l as [|y l].
    + exists EmptyString, EmptyString. simpl. now rewrite sapp_nil_r.
    + exists EmptyString, (sep +:+ PyStr.join sep (y :: l)). reflexivity.
  - destruct (IH Hin) as (pre & post & E). destruct l as [|y l]; [inversion Hin|].
    exists (x +:+ sep +:+ pre), post.
    rewrite join_cons2, E, !sapp_assoc. reflexivity.
Qed.

Lemma mentions_pets_is_pet (ams : list string) :
  mentions_pets ams = PyStr.contains "pet" (PyStr.lower (PyStr.join " " ams)).
Proof.
  unfold mentions_pets, any_keyword_in. cbn [existsb].
  set (hay := PyStr.lower (PyStr.join " " ams)).
  destruct (PyStr.contains "pet" hay) eqn:Hp; [reflexivity|].
  destruct (PyStr.contains "pets allowed" hay) eqn:H1.
  { apply (contains_app "pet" "s allowed") in H1. congruence. }
  destruct (PyStr.contains "pet-friendly" hay) eqn:H2.
  { apply (contains_app "pet" "-friendly") in H2. congruence. }
  reflexivity.
Qed.

(** X6. [_infer_pet_friendly] is true exactly when [pets_json] is set, or the
    lowercased description holds one of "pet-friendly", "pets allowed",
    "pet friendly", "pet policy", or the lowercased amenities, joined by
    spaces, hold the three letters "pet" anywhere.  So one amenity whose
    name holds "pet" inside another word, such as "Carpeted rooms", is
    enough. *)
Theorem infer_pet_friendly_spec (json_loads_list : string -> option (list string))
    (detail_dict : list (string * pyval)) :
  _infer_pet_friendly json_loads_list detail_dict
  = truthy (pyget detail_dict "pets_json")
    || any_keyword_in ["pet-friendly"; "pets allowed"; "pet friendly"; "pet policy"]
         (PyStr.lower match pyget detail_dict "description" with
                      | VStr s => s
                      | _ => EmptyString
                      end)
    || match pyget detail_dict "amenities_json" with
       | VList ams => PyStr.contains "pet" (PyStr.lower (PyStr.join " " ams))
       | VStr s =>
           match json_loads_list s with
           | Some lst => PyStr.contains "pet" (PyStr.lower (PyStr.join " " lst))
           | None => false
           end
       | _ => false
       end
  /\ forall ams a,
       pyget detail_dict "amenities_json" = VList ams ->
       a ∈ ams -> PyStr.contains "pet" (PyStr.lower a) = true ->
       _infer_pet_friendly json_loads_list detail_dict = true.
Proof.
  assert (Heq : _infer_pet_friendly json_loads_list detail_dict
    = truthy (pyget detail_dict "pets_json")
      || any_keyword_in ["pet-friendly"; "pets allowed"; "pet friendly"; "pet policy"]
           (PyStr.lower match pyget detail_dict "description" with
                        | VStr s => s
                        | _ => EmptyString
                        end)
      || match pyget detail_dict "amenities_json" with
         | VList ams => PyStr.contains "pet" (PyStr.lower (PyStr.join " " ams))
         | VStr s =>
             match json_loads_list s with
             | Some lst => PyStr.contains "pet" (PyStr.lower (PyStr.join " " lst))
             | None => false
             end
         | _ => false
         end).
  { unfold _infer_pet_friendly. cbv zeta.
    destruct (truthy (pyget detail_dict "pets_json")); [reflexivity|]. cbn [orb].
    set (desc := PyStr.lower _).
    unfold any_keyword_in at 1 2. cbn [existsb].
    destruct (PyStr.contains "pet-friendly" desc) eqn:H1; [reflexivity|].
    destruct (PyStr.contains "pets allowed" desc); [reflexivity|].
    destruct (PyStr.contains "pet friendly" desc); [reflexivity|].
    destruct (PyStr.contains "pet-friendly hotel" desc) eqn:H4.
    { apply (contains_app "pet-friendly" " hotel") in H4. congruence. }
    destruct (PyStr.contains "pet policy" desc); [reflexivity|]. cbn [orb].
    destruct (pyget detail_dict "amenities_json") as [| |s|ams|]; try reflexivity.
    - destruct (json_loads_list s); [apply mentions_pets_is_pet | reflexivity].
    - apply mentions_pets_is_pet. }
  split; [exact Heq|].
  intros ams a Hams Ha Hpet. rewrite Heq, Hams.
  assert (H : PyStr.contains "pet" (PyStr.lower (PyStr.join " " ams)) = true).
  { apply (contains_lower_substring "pet" a);
      [reflexivity | apply join_substring, Ha | exact Hpet]. }
  rewrite H. apply orb_true_r.
Qed.

Lemma infer_pet_friendly_spec_witness :
  _infer_pet_friendly no_json_loads
    [("description", VStr "A quiet hotel.");
     ("amenities_json", VList ["Pool"; "Carpeted rooms"])]
  = true.
Proof.
  apply (proj2 (infer_pet_friendly_spec no_json_loads
                  [("description", VStr "A quiet hotel.");
                   ("amenities_json", VList ["Pool"; "Carpeted rooms"])])
           ["Pool"; "Carpeted rooms"] "Carpeted rooms").
  - reflexivity.
  - right. left.
  - vm_compute. reflexivity.
Defined.

(** ** The schema of a hotel record *)

Lemma keys_update_in {K V : Type} `{EqDecision K} (other : list (K * V)) :
  forall d, Forall (fun kv => fst kv ∈ PyDict.keys d) other ->
            PyDict.keys (PyDict.update d other) = PyDict.keys d.
Proof.
  unfold PyDict.update.
  induction other as [|[k v] other IH]; intros d Hall; [reflexivity|].
  apply Forall_cons in Hall as [Hk Hall]. simpl in *.
  rewrite IH; [now apply keys_assign_in|].
  rewrite keys_assign_in by exact Hk. exact Hall.
Qed.

Lemma pyget_keys (d : list (string * pyval)) (k : string) :
  pyget d k <> VNone -> k ∈ PyDict.keys d.
Proof.
  intros H. apply mem_keys. unfold PyDict.mem. unfold pyget in H.
  destruct (PyDict.get d k); [reflexivity | now contradict H].
Qed.

Lemma keys_normalize_key (rec : list (string * pyval)) (key : string) :
  PyDict.keys (normalize_key rec key) = PyDict.keys rec.
Proof.
  unfold normalize_key.
  destruct (pyget rec key) eqn:E; try reflexivity;
    apply keys_assign_in, pyget_keys; rewrite E; discriminate.
Qed.

Lemma keys_normalize_json (rec : list (string * pyval)) :
  PyDict.keys (normalize_json rec) = PyDict.keys rec.
Proof.
  unfold normalize_json. generalize json_keys. intros l. revert rec.
  induction l as [|k l IH]; intros rec; [reflexivity|].
  simpl. rewrite IH. apply keys_normalize_key.
Qed.

Lemma keys_coerce_pet_flag (rec : list (string * pyval)) :
  PyDict.keys (coerce_pet_flag rec) = PyDict.keys rec.
Proof.
  unfold coerce_pet_flag.
  destruct (pyget rec "is_pet_friendly") eqn:E; try reflexivity.
  apply keys_assign_in, pyget_keys. rewrite E. discriminate.
Qed.

Lemma keys_pop {K V : Type} `{EqDecision K} (l1 l2 : list K) (k : K) :
  forall d : list (K * V),
    k ∉ l1 -> PyDict.keys d = l1 ++ k :: l2 ->
    PyDict.keys (PyDict.pop d k) = l1 ++ l2.
Proof.
  unfold PyDict.keys.
  induction l1 as [|x l1 IH]; intros [|[k' v'] d] Hk Hd; try discriminate.
  - simpl in *. injection Hd as -> Hd.
    destruct (decide (k = k)); [exact Hd | congruence].
  - simpl in *. injection Hd as -> Hd. apply not_elem_of_cons in Hk as [Hne Hk].
    destruct (decide (x = k)); [congruence|]. simpl. f_equal. now apply IH.
Qed.

Lemma values_by_keys (d : list (string * pyval)) :
  PyDict.wf d -> map (pyget d) (PyDict.keys d) = PyDict.values d.
Proof.
  unfold PyDict.wf, PyDict.keys, PyDict.values, pyget.
  induction d as [|[k v] d IH]; intros Hwf; [reflexivity|].
  simpl in *. apply NoDup_cons in Hwf as [Hk Hwf].
  destruct (decide (k = k)); [|congruence]. simpl. f_equal.
  rewrite <- IH by exact Hwf. apply map_ext_in. intros j Hj.
  destruct (decide (k = j)) as [->|]; [|reflexivity].
  apply list_elem_of_In in Hj. contradiction.
Qed.

(** A record with exactly the fields of the schema, in its order. *)
Lemma schema_row (rec : list (string * pyval)) :
  PyDict.keys rec = FIELDS -> csv_row rec = PyDict.values rec.
Proof.
  intros Hk. unfold csv_row. rewrite <- Hk. apply values_by_keys.
  unfold PyDict.wf. rewrite Hk. unfold FIELDS. compute_done.
Qed.

Lemma scrape_card_keys (urlparse_path : string -> option string)
    (json_loads_list : string -> option (list string))
    (city : CityRef) (card : Card) (rec : list (string * pyval)) :
  scrape_card urlparse_path json_loads_list city card = Some rec ->
  PyDict.keys rec = FIELDS.
Proof.
  unfold scrape_card. destruct (c_title card) as [name_el|]; [|discriminate].
  cbv zeta. intros [= <-].
  set (det := scrape_hotel_detail _ _ _).
  set (base := base_record _ _ _ _).
  assert (Hbase : PyDict.keys base = FIELDS ++ ["_detail_url"; "_city"]) by reflexivity.
  assert (Hupd : PyDict.keys (PyDict.update base det)
                 = FIELDS ++ ["_detail_url"; "_city"]).
  { rewrite keys_update_in; [exact Hbase|].
    apply Forall_forall. intros kv Hkv.
    assert (Hin : fst kv ∈ detail_keys).
    { rewrite <- (scrape_hotel_detail_keys json_loads_list
                    (default EmptyString (el_href name_el)) (c_detail card)).
      fold det. unfold PyDict.keys. apply list_elem_of_fmap. now exists kv. }
    rewrite Hbase. revert Hin. generalize (fst kv). intros k Hin.
    unfold detail_keys, detail_defaults, PyDict.keys in Hin. simpl in Hin.
    unfold FIELDS.
    repeat (apply elem_of_cons in Hin as [->|Hin]; [compute_done|]).
    inversion Hin. }
  apply (keys_pop FIELDS [] "_city").
  { unfold FIELDS. compute_done. }
  rewrite (keys_pop FIELDS ["_city"] "_detail_url").
  - reflexivity.
  - unfold FIELDS. compute_done.
  - rewrite keys_coerce_pet_flag, keys_normalize_json. exact Hupd.
Qed.

(** X7. Every record that [scrape_city] builds has exactly the fields of
    [FIELDS], in that order: the helper keys [_detail_url] and [_city] are
    gone, and its CSV row holds all its values, in the order of the record.
    Every record a run of [main] holds has this schema too, when the records
    of the earlier JSON document had it. *)
Theorem record_schema (urlparse_path : string -> option string)
    (json_loads_list : string -> option (list string)) :
  (forall city cards,
     Forall (fun rec => PyDict.keys rec = FIELDS
                        /\ csv_row rec = PyDict.values rec
                        /\ PyDict.mem rec "_detail_url" = false
                        /\ PyDict.mem rec "_city" = false)
            (scrape_city urlparse_path json_loads_list city cards))
  /\ (forall run_only_one_city overwrite visits fs,
        files_ok (fun rec => PyDict.keys rec = FIELDS) fs ->
        run_ok (fun rec => PyDict.keys rec = FIELDS)
          (main urlparse_path json_loads_list run_only_one_city overwrite visits fs)).
Proof.
  assert (Hcity : forall city cards,
            Forall (fun rec => PyDict.keys rec = FIELDS)
                   (scrape_city urlparse_path json_loads_list city cards)).
  { intros city cards. apply Forall_forall. intros rec Hin.
    unfold scrape_city in Hin. apply list_elem_of_omap in Hin as (card & _ & Hcard).
    exact (scrape_card_keys _ _ _ _ _ Hcard). }
  split.
  - intros city cards. eapply Forall_impl; [apply Hcity|].
    intros rec Hk. cbv beta. split; [exact Hk|]. split; [now apply schema_row|].
    split; apply mem_false_keys; rewrite Hk; unfold FIELDS; compute_done.
  - intros roo ow visits fs Hfs. now apply main_keeps.
Qed.

Lemma record_schema_witness :
  run_ok (fun rec => PyDict.keys rec = FIELDS)
    (main example_url_path no_json_loads true false
       [(miami, Some [pool_card pet_text_page])] (mkFiles None None)).
Proof.
  apply (proj2 (record_schema example_url_path no_json_loads)).
  intros data H. discriminate H.
Defined.

(** ** The store across a run of [main] *)

Lemma assign_keyed (m : list ((pyval * pyval) * list (string * pyval)))
    (h : list (string * pyval)) :
  keyed m -> keyed (PyDict.assign m (record_key h) h).
Proof.
  unfold keyed. intros H. apply Forall_forall. intros kv Hin.
  apply assign_entries in Hin as [Hin| ->]; [|reflexivity].
  rewrite Forall_forall in H. now apply H.
Qed.

Lemma merge_into_wf (overwrite : bool) (hotels : list (list (string * pyval))) :
  forall m, PyDict.wf m -> keyed m ->
    PyDict.wf (merge_into overwrite hotels m) /\ keyed (merge_into overwrite hotels m).
Proof.
  induction hotels as [|h hotels IH]; intros m Hwf Hk; [now split|].
  rewrite merge_into_cons.
  destruct (PyDict.mem m (record_key h) && negb overwrite); apply IH;
    auto using assign_wf, assign_keyed.
Qed.

Lemma merge_into_app (overwrite : bool) (a b : list (list (string * pyval)))
    (m : list ((pyval * pyval) * list (string * pyval))) :
  merge_into overwrite (a ++ b) m = merge_into overwrite b (merge_into overwrite a m).
Proof. unfold merge_into. apply fold_left_app. Qed.

Lemma keyed_keys (m : list ((pyval * pyval) * list (string * pyval))) :
  keyed m -> map record_key (PyDict.values m) = PyDict.keys m.
Proof.
  unfold keyed, PyDict.values, PyDict.keys.
  induction 1 as [|kv m Hkv _ IH]; simpl; [reflexivity | now rewrite Hkv, IH].
Qed.

Lemma assign_length {K V : Type} `{EqDecision K} (d : list (K * V)) (k : K) (v : V) :
  length d <= length (PyDict.assign d k v).
Proof.
  induction d as [|[k' v'] d IH]; simpl; [lia|].
  destruct (decide (k' = k)); simpl; lia.
Qed.

Lemma merge_into_length (overwrite : bool) (hotels : list (list (string * pyval))) :
  forall m, length m <= length (merge_into overwrite hotels m).
Proof.
  induction hotels as [|h hotels IH]; intros m; [reflexivity|].
  rewrite merge_into_cons.
  destruct (PyDict.mem m (record_key h) && negb overwrite); [apply IH|].
  etransitivity; [|apply IH]. apply assign_length.
Qed.

Lemma merge_into_covers (overwrite : bool) (hotels : list (list (string * pyval))) :
  forall m k,
    k ∈ PyDict.keys m \/ k ∈ map record_key hotels ->
    k ∈ PyDict.keys (merge_into overwrite hotels m).
Proof.
  induction hotels as [|h hotels IH]; intros m k Hk.
  - destruct Hk as [Hk|Hk]; [exact Hk | inversion Hk].
  - rewrite merge_into_cons. apply IH.
    destruct (PyDict.mem m (record_key h) && negb overwrite) eqn:Hc.
    + apply andb_true_iff in Hc as [Hm _]. apply mem_keys in Hm.
      destruct Hk as [Hk|Hk]; [now left|].
      simpl in Hk. apply elem_of_cons in Hk as [->|Hk]; [now left | now right].
    + rewrite keys_assign.
      destruct Hk as [Hk|Hk].
      * left. destruct (PyDict.mem m (record_key h)); [exact Hk|].
        apply elem_of_app. now left.
      * simpl in Hk. apply elem_of_cons in Hk as [->|Hk]; [|now right].
        left. destruct (PyDict.mem m (record_key h)) eqn:Hm.
        -- now apply mem_keys.
        -- apply elem_of_app. right. now left.
Qed.

Lemma load_loop_wf (data : list (list (string * pyval))) :
  forall m, PyDict.wf m -> keyed m ->
            PyDict.wf (load_loop data m) /\ keyed (load_loop data m).
Proof.
  induction data as [|d data IH]; intros m Hwf Hk; [now split|].
  simpl. destruct (hashable _ && hashable _); [|now split].
  apply IH; auto using assign_wf, assign_keyed.
Qed.

Lemma load_loop_entries (data : list (list (string * pyval))) :
  forall m kv, kv ∈ load_loop data m -> kv ∈ m \/ snd kv ∈ data.
Proof.
  induction data as [|d data IH]; intros m kv Hin; [now left|].
  simpl in Hin. destruct (hashable _ && hashable _); [|now left].
  apply IH in Hin as [Hin|Hin]; [|right; now right].
  apply assign_entries in Hin as [Hin| ->]; [now left | right; now left].
Qed.

Lemma load_loop_hashable (data : list (list (string * pyval))) :
  forall m, Forall (fun h => hashable_record h = true) (PyDict.values m) ->
            Forall (fun h => hashable_record h = true)
                   (PyDict.values (load_loop data m)).
Proof.
  induction data as [|d data IH]; intros m Hm; [exact Hm|].
  simpl. destruct (hashable _ && hashable _) eqn:Hd; [|exact Hm].
  apply IH. apply Forall_forall. intros h Hin. unfold PyDict.values in Hin.
  apply list_elem_of_In, in_map_iff in Hin as (kv & <- & Hin).
  apply list_elem_of_In, assign_entries in Hin as [Hin| ->]; [|exact Hd].
  rewrite Forall_forall in Hm. apply Hm. unfold PyDict.values.
  apply list_elem_of_In, in_map, list_elem_of_In, Hin.
Qed.

(** When every key can be hashed the load indexes the whole document. *)
Lemma load_loop_all (data : list (list (string * pyval))) :
  Forall (fun h => hashable_record h = true) data ->
  forall m, load_loop data m
            = fold_left (fun m h => PyDict.assign m (record_key h) h) data m.
Proof.
  induction 1 as [|d data Hd _ IH]; intros m; [reflexivity|].
  change (load_loop (d :: data) m)
    with (if hashable (fst (record_key d)) && hashable (snd (record_key d))
          then load_loop data (PyDict.assign m (record_key d) d) else m).
  unfold hashable_record in Hd. rewrite Hd. apply IH.
Qed.

Lemma load_existing_output_wf (overwrite : bool) (fs : Files) :
  PyDict.wf (load_existing_output overwrite fs)
  /\ keyed (load_existing_output overwrite fs).
Proof.
  assert (Hnil : PyDict.wf ([] : list ((pyval * pyval) * list (string * pyval)))
                 /\ keyed []).
  { split; [apply NoDup_nil_2 | apply Forall_nil_2]. }
  unfold load_existing_output.
  destruct (hotel_json fs) as [data|]; [destruct (negb overwrite)|];
    try exact Hnil.
  apply load_loop_wf; apply Hnil.
Qed.

Lemma save_outputs_twice (a b : list (list (string * pyval))) (fs : Files) :
  (b = [] -> a = []) ->
  save_outputs b (save_outputs a fs) = save_outputs b fs.
Proof.
  intros H. destruct b as [|x b]; [|reflexivity].
  rewrite (H eq_refl). reflexivity.
Qed.

Lemma values_nil {K V : Type} (m : list (K * V)) : PyDict.values m = [] -> m = [].
Proof. destruct m; [reflexivity | discriminate]. Qed.

Section Store.

Variable urlparse_path : string -> option string.
Variable json_loads_list : string -> option (list string).

Local Abbreviation sc := (scraped urlparse_path json_loads_list).
Local Abbreviation loop ow := (fold_left (main_step urlparse_path json_loads_list ow)).

Lemma main_step_all_hotels (overwrite : bool) (st : Run)
    (v : CityRef * option (list Card))
    (m : list ((pyval * pyval) * list (string * pyval))) :
  PyDict.wf m -> keyed m -> all_hotels st = PyDict.values m ->
  all_hotels (main_step urlparse_path json_loads_list overwrite st v)
  = PyDict.values (merge_into overwrite (sc v) m).
Proof.
  intros Hwf Hk Hst.
  change (all_hotels (main_step urlparse_path json_loads_list overwrite st v))
    with (append_or_merge overwrite (sc v) (index_by_key (all_hotels st))).
  rewrite Hst, index_by_key_values by assumption. reflexivity.
Qed.

Lemma loop_all_hotels (overwrite : bool) (vs : list (CityRef * option (list Card))) :
  forall st m,
    PyDict.wf m -> keyed m -> all_hotels st = PyDict.values m ->
    all_hotels (loop overwrite vs st)
    = PyDict.values (merge_into overwrite (concat (map sc vs)) m).
Proof.
  induction vs as [|v vs IH]; intros st m Hwf Hk Hst; [exact Hst|].
  simpl. rewrite merge_into_app.
  destruct (merge_into_wf overwrite (sc v) m Hwf Hk) as [Hwf' Hk'].
  apply IH; [exact Hwf' | exact Hk' | now apply main_step_all_hotels].
Qed.

Lemma loop_files_last (overwrite : bool) (fs : Files)
    (vs : list (CityRef * option (list Card))) :
  forall st m,
    PyDict.wf m -> keyed m -> all_hotels st = PyDict.values m ->
    files st = save_outputs (all_hotels st) fs ->
    files (loop overwrite vs st) = save_outputs (all_hotels (loop overwrite vs st)) fs.
Proof.
  induction vs as [|v vs IH]; intros st m Hwf Hk Hst Hfs; [exact Hfs|].
  simpl.
  destruct (merge_into_wf overwrite (sc v) m Hwf Hk) as [Hwf' Hk'].
  pose proof (main_step_all_hotels overwrite st v m Hwf Hk Hst) as Hst'.
  apply (IH _ _ Hwf' Hk' Hst').
  change (files (main_step urlparse_path json_loads_list overwrite st v))
    with (save_outputs (all_hotels (main_step urlparse_path json_loads_list overwrite st v))
            (files st)).
  rewrite Hfs. apply save_outputs_twice.
  rewrite Hst', Hst. intros Hnil. apply values_nil in Hnil.
  pose proof (merge_into_length overwrite (sc v) m) as Hlen.
  rewrite Hnil in Hlen. destruct m; [reflexivity | simpl in Hlen; lia].
Qed.

Lemma main_all_hotels (run_only_one_city overwrite : bool)
    (visits : list (CityRef * option (list Card))) (fs : Files) :
  all_hotels (main urlparse_path json_loads_list run_only_one_city overwrite visits fs)
  = PyDict.values
      (merge_into overwrite
         (concat (map sc (if run_only_one_city then take 1 visits else visits)))
         (load_existing_output overwrite fs)).
Proof.
  unfold main. cbv zeta.
  destruct (load_existing_output_wf overwrite fs) as [Hwf Hk].
  now apply loop_all_hotels.
Qed.

Lemma main_files (run_only_one_city overwrite : bool)
    (visits : list (CityRef * option (list Card))) (fs : Files) :
  (if run_only_one_city then take 1 visits else visits) <> [] ->
  files (main urlparse_path json_loads_list run_only_one_city overwrite visits fs)
  = save_outputs
      (all_hotels (main urlparse_path json_loads_list run_only_one_city
                     overwrite visits fs)) fs.
Proof.
  unfold main. cbv zeta.
  destruct (if run_only_one_city then take 1 visits else visits) as [|v vs];
    [congruence|]. intros _.
  destruct (load_existing_output_wf overwrite fs) as [Hwf Hk].
  simpl.
  destruct (merge_into_wf overwrite (sc v) _ Hwf Hk) as [Hwf' Hk'].
  eapply loop_files_last; [exact Hwf' | exact Hk' | | reflexivity].
  now apply main_step_all_hotels.
Qed.

Lemma main_store (run_only_one_city overwrite : bool)
    (visits : list (CityRef * option (list Card))) (fs : Files) :
  exists m,
    PyDict.wf m /\ keyed m
    /\ m = merge_into overwrite
             (concat (map sc (if run_only_one_city then take 1 visits else visits)))
             (load_existing_output overwrite fs)
    /\ all_hotels (main urlparse_path json_loads_list run_only_one_city
                     overwrite visits fs) = PyDict.values m.
Proof.
  destruct (load_existing_output_wf overwrite fs) as [Hwf Hk].
  eexists. split; [|split; [|split; [reflexivity | apply main_all_hotels]]];
    now apply merge_into_wf.
Qed.

End Store.

(** X8. The city by city merging of [main] amounts to one merge: the records
    held at the end are those of [append_or_merge] applied to all hotels
    scraped, in the order of the cities, and the store loaded at the start.
    No two of them share an identity key, whatever the earlier JSON document
    held; each comes from that document or from a city of this run; and
    every hotel scraped has a record with its key among them. *)
Theorem main_is_one_merge (urlparse_path : string -> option string)
    (json_loads_list : string -> option (list string))
    (run_only_one_city overwrite : bool)
    (visits : list (CityRef * option (list Card))) (fs : Files) :
  let processed := if run_only_one_city then take 1 visits else visits in
  let run := main urlparse_path json_loads_list run_only_one_city overwrite visits fs in
  all_hotels run
  = append_or_merge overwrite
      (concat (map (scraped urlparse_path json_loads_list) processed))
      (load_existing_output overwrite fs)
  /\ NoDup (map record_key (all_hotels run))
  /\ (forall h, h ∈ all_hotels run ->
        (overwrite = false /\ exists data, hotel_json fs = Some data /\ h ∈ data)
        \/ exists v, v ∈ processed /\ h ∈ scraped urlparse_path json_loads_list v)
  /\ (forall v h, v ∈ processed -> h ∈ scraped urlparse_path json_loads_list v ->
        exists h', h' ∈ all_hotels run /\ record_key h' = record_key h).
Proof.
  intros processed run.
  destruct (main_store urlparse_path json_loads_list run_only_one_city overwrite visits fs)
    as (m & Hwf & Hk & Hm & Hall).
  fold run in Hall. fold processed in Hm.
  split; [|split; [|split]].
  - rewrite Hall, Hm. reflexivity.
  - rewrite Hall, keyed_keys by exact Hk. exact Hwf.
  - intros h Hh. rewrite Hall in Hh. unfold PyDict.values in Hh.
    apply list_elem_of_In, in_map_iff in Hh as (kv & <- & Hkv).
    apply list_elem_of_In in Hkv. rewrite Hm in Hkv.
    apply merge_into_entries in Hkv as [Hkv|Hkv].
    + left. unfold load_existing_output in Hkv.
      destruct (hotel_json fs) as [data|]; [|inversion Hkv].
      destruct overwrite; [inversion Hkv|]. simpl in Hkv.
      split; [reflexivity|]. exists data. split; [reflexivity|].
      apply load_loop_entries in Hkv as [Hkv|Hkv]; [inversion Hkv | exact Hkv].
    + right. apply list_elem_of_In, in_concat in Hkv as (l & Hl & Hin).
      apply in_map_iff in Hl as (v & <- & Hv).
      exists v. split; now apply list_elem_of_In.
  - intros v h Hv Hh.
    assert (Hkey : record_key h ∈ PyDict.keys m).
    { rewrite Hm. apply merge_into_covers. right.
      apply list_elem_of_In, in_map_iff. exists h. split; [reflexivity|].
      apply in_concat. exists (scraped urlparse_path json_loads_list v).
      split; [|now apply list_elem_of_In].
      apply in_map_iff. exists v. split; [reflexivity | now apply list_elem_of_In]. }
    rewrite <- (keyed_keys m Hk), <- Hall in Hkey.
    apply list_elem_of_In, in_map_iff in Hkey as (h' & Hkey & Hin).
    exists h'. split; [now apply list_elem_of_In | exact Hkey].
Qed.

Lemma main_is_one_merge_witness :
  exists h',
    h' ∈ all_hotels (main example_url_path no_json_loads true false
                       [(miami, Some [pool_card pet_text_page])] stale_files)
    /\ record_key h' = (VStr "miami", VStr "Hotel X").
Proof.
  assert (Hs : exists h,
             scraped example_url_path no_json_loads
               (miami, Some [pool_card pet_text_page]) = [h]
             /\ record_key h = (VStr "miami", VStr "Hotel X")).
  { eexists. split; vm_compute; reflexivity. }
  destruct Hs as (h & Hs & Hkey). rewrite <- Hkey.
  apply (proj2 (proj2 (proj2 (main_is_one_merge example_url_path no_json_loads
                                true false
                                [(miami, Some [pool_card pet_text_page])]
                                stale_files)))
           (miami, Some [pool_card pet_text_page]) h).
  - left.
  - rewrite Hs. left.
Defined.

(** X9. When [main] has gone through at least one city, the two documents
    are what one call of [save_outputs] on the final records makes of the
    documents found at the start: they hold the final records, or, when
    there is no record at all, they are left as they were.  Without any
    city nothing is written.  Documents that agreed with each other at the
    start still do at the end. *)
Theorem main_files_spec (urlparse_path : string -> option string)
    (json_loads_list : string -> option (list string))
    (run_only_one_city overwrite : bool)
    (visits : list (CityRef * option (list Card))) (fs : Files) :
  let processed := if run_only_one_city then take 1 visits else visits in
  let run := main urlparse_path json_loads_list run_only_one_city overwrite visits fs in
  (processed <> [] -> files run = save_outputs (all_hotels run) fs)
  /\ (processed <> [] -> all_hotels run <> [] ->
      hotel_json (files run) = Some (all_hotels run)
      /\ hotel_csv (files run) = Some (FIELDS, map csv_row (all_hotels run)))
  /\ (processed = [] -> files run = fs)
  /\ (files_agree fs -> files_agree (files run)).
Proof.
  intros processed run.
  assert (H1 : processed <> [] -> files run = save_outputs (all_hotels run) fs).
  { apply main_files. }
  assert (H3 : processed = [] -> files run = fs).
  { unfold run, main. cbv zeta. fold processed. now intros ->. }
  split; [exact H1|]. split; [|split; [exact H3|]].
  - intros Hp Hne. rewrite (H1 Hp).
    destruct (all_hotels run); [congruence | split; reflexivity].
  - intros Hfs. destruct processed as [|v vs] eqn:Hp; [now rewrite H3|].
    rewrite H1 by discriminate.
    destruct (all_hotels run); [exact Hfs|]. simpl. now split.
Qed.

Lemma main_files_spec_witness :
  files_agree
    (files (main example_url_path no_json_loads true false
              [(miami, Some [pool_card pet_text_page])] stale_files)).
Proof.
  apply (proj2 (proj2 (proj2 (main_files_spec example_url_path no_json_loads
                                true false
                                [(miami, Some [pool_card pet_text_page])]
                                stale_files)))).
  simpl. split; reflexivity.
Defined.

Lemma get_elem_of {K V : Type} `{EqDecision K} (d : list (K * V)) (k : K) (v : V) :
  PyDict.get d k = Some v -> (k, v) ∈ d.
Proof.
  induction d as [|[k' v'] d IH]; simpl; [discriminate|].
  destruct (decide (k' = k)) as [->|Hne].
  - intros [= ->]. now left.
  - intros H. right. now apply IH.
Qed.

Lemma store_unique (m : list ((pyval * pyval) * list (string * pyval)))
    (k : pyval * pyval) (v h : list (string * pyval)) :
  PyDict.wf m -> keyed m -> (k, v) ∈ m -> h ∈ PyDict.values m ->
  record_key h = k -> h = v.
Proof.
  unfold PyDict.wf, PyDict.keys, keyed, PyDict.values.
  induction m as [|[k' v'] m IH]; intros Hwf Hk Hin Hh Hkey.
  - inversion Hin.
  - simpl in Hwf, Hh. apply NoDup_cons in Hwf as [Hnot Hwf].
    apply Forall_cons in Hk as [Hk' Hk]. simpl in Hk'.
    apply elem_of_cons in Hin as [Heq|Hin]; apply elem_of_cons in Hh as [->|Hh].
    + now injection Heq as -> ->.
    + injection Heq as -> ->. exfalso. apply Hnot.
      apply list_elem_of_fmap in Hh as ([k2 h2] & -> & Hh2). simpl in Hkey.
      rewrite Forall_forall in Hk. pose proof (Hk _ Hh2) as Hk2. simpl in Hk2.
      rewrite <- Hkey, Hk2. apply list_elem_of_fmap. now exists (k2, h2).
    + exfalso. apply Hnot. rewrite <- Hk', Hkey.
      apply list_elem_of_fmap. now exists (k, v).
    + now apply IH.
Qed.

Lemma latest_last (pre post : list (list (string * pyval)))
    (rec : list (string * pyval)) :
  record_key rec ∉ map record_key post ->
  latest (record_key rec) (pre ++ rec :: post) = Some rec.
Proof.
  intros Hpost. unfold latest. rewrite fold_left_app. simpl.
  rewrite decide_True by reflexivity.
  generalize (Some rec) as acc. revert Hpost.
  induction post as [|p post IH]; intros Hpost acc; [reflexivity|].
  simpl in Hpost. apply not_elem_of_cons in Hpost as [Hne Hpost]. simpl.
  rewrite decide_False by congruence. now apply IH.
Qed.

(** What a run holds under the key of a hotel it has scraped. *)
Lemma main_holds (urlparse_path : string -> option string)
    (json_loads_list : string -> option (list string))
    (run_only_one_city overwrite : bool)
    (visits : list (CityRef * option (list Card))) (fs : Files)
    (pre post : list (list (string * pyval))) (rec : list (string * pyval)) :
  concat (map (scraped urlparse_path json_loads_list)
            (if run_only_one_city then take 1 visits else visits))
  = pre ++ rec :: post ->
  let run := main urlparse_path json_loads_list run_only_one_city overwrite
               visits fs in
  let loaded := load_existing_output overwrite fs in
  hotel_json (files run) = Some (all_hotels run)
  /\ (forall old,
        PyDict.get loaded (record_key rec) = Some old ->
        only_record (all_hotels run) (record_key rec) old)
  /\ (overwrite = false ->
      record_key rec ∉ PyDict.keys loaded ->
      record_key rec ∉ map record_key pre ->
      only_record (all_hotels run) (record_key rec) rec)
  /\ (overwrite = true ->
      record_key rec ∉ map record_key post ->
      only_record (all_hotels run) (record_key rec) rec).
Proof.
  intros Hcat run loaded.
  destruct (main_store urlparse_path json_loads_list run_only_one_city overwrite
              visits fs) as (m & Hwf & Hk & Hm & Hall).
  fold run in Hall. fold loaded in Hm. rewrite Hcat in Hm.
  destruct (load_existing_output_wf overwrite fs) as [Hlwf Hlk]. fold loaded in Hlwf, Hlk.
  assert (Hin : forall x, (record_key rec, x) ∈ m ->
                          only_record (all_hotels run) (record_key rec) x).
  { intros x Hx. rewrite Hall. split; [|split].
    - unfold PyDict.values. apply list_elem_of_fmap. now exists (record_key rec, x).
    - unfold keyed in Hk. rewrite Forall_forall in Hk. exact (Hk _ Hx).
    - intros h Hh Hkey. exact (store_unique m _ x h Hwf Hk Hx Hh Hkey). }
  assert (Hkey : record_key rec ∈ PyDict.keys m).
  { rewrite Hm. apply merge_into_covers. right.
    rewrite map_app. apply elem_of_app. right. now left. }
  split; [|split; [|split]].
  - assert (Hp : (if run_only_one_city then take 1 visits else visits) <> []).
    { intros Hnil. rewrite Hnil in Hcat. now destruct pre. }
    unfold run. rewrite (main_files _ _ _ _ _ _ Hp). fold run.
    rewrite Hall. destruct (PyDict.values m) as [|x l] eqn:Hr; [|reflexivity].
    apply values_nil in Hr. rewrite Hr in Hkey. inversion Hkey.
  - intros old Hold. apply Hin. apply get_elem_of in Hold.
    destruct overwrite.
    + unfold loaded, load_existing_output in Hold.
      destruct (hotel_json fs); inversion Hold.
    + rewrite Hm, (merge_without_overwrite _ _ (PyDict.keys loaded)) by reflexivity.
      apply elem_of_app. now left.
  - intros -> Hl Hpre. apply Hin.
    rewrite Hm, (merge_without_overwrite _ _ (PyDict.keys loaded)) by reflexivity.
    apply elem_of_app. right. apply first_new_first; [exact Hl | exact Hpre].
  - intros -> Hpost. apply Hin.
    apply get_elem_of. rewrite Hm, merge_with_overwrite_get.
    now rewrite latest_last.
Qed.

(** The claim C8 fails on the code for a hotel an earlier run has recorded.
    The detail page opens, has no pet policy link, and the description holds
    "pet-friendly"; but with overwrite off the record of the earlier
    document stays under the hotel's key, and what is persisted says
    "false". *)
Lemma pet_flag_kept_from_older_record :
  let card := pool_card pet_text_page in
  dp_nav_ok (c_detail card) = true
  /\ first_button ["view pet policy"; "pet policy"]
                  (dp_pet_links (c_detail card)) = None
  /\ (exists desc,
        _extract_description_text (c_detail card) = Some desc
        /\ PyStr.contains "pet-friendly" desc = true)
  /\ (exists rec,
        scrape_city example_url_path no_json_loads miami [card] = [rec]
        /\ record_key rec = record_key older_record)
  /\ hotel_json (files (main example_url_path no_json_loads false false
                          [(miami, Some [card])] older_files))
     = Some [older_record]
  /\ pyget older_record "is_pet_friendly" = VStr "false".
Proof.
  cbv zeta. split; [reflexivity|]. split; [reflexivity|]. split.
  - eexists. split; vm_compute; reflexivity.
  - split; [|split; vm_compute; reflexivity].
    eexists. split; vm_compute; reflexivity.
Qed.

(** C8, amended.  When the detail page opens, no pet policy link is on it
    and the extracted description contains "pet-friendly", the record that
    [scrape_city] builds has [is_pet_friendly] equal to the string "true"
    and [pets_json] equal to [None].  A run of [main] that has scraped a
    record leaves the records it holds in the JSON document; the record
    scraped is the one record with its key there when, with overwrite off,
    neither the earlier document nor an earlier hotel of the run has the
    key, or when, with overwrite on, no later hotel of the run has it.  A
    record that the earlier document holds under the key stays, with
    overwrite off, the one record with that key, whatever its flag is.  In
    every record that [scrape_city] builds, and in every list of records
    that [main] hands to [save_outputs] (the earlier output file holding
    such records too), [is_pet_friendly] is [None], "true" or "false":
    never a boolean. *)
Theorem pet_flag_spec (urlparse_path : string -> option string)
    (json_loads_list : string -> option (list string)) :
  (forall city card name_el url desc,
      c_title card = Some name_el ->
      el_href name_el = Some url -> url <> EmptyString ->
      dp_nav_ok (c_detail card) = true ->
      first_button ["view pet policy"; "pet policy"]
                   (dp_pet_links (c_detail card)) = None ->
      _extract_description_text (c_detail card) = Some desc ->
      PyStr.contains "pet-friendly" desc = true ->
      exists rec,
        scrape_card urlparse_path json_loads_list city card = Some rec
        /\ pyget rec "is_pet_friendly" = VStr "true"
        /\ pyget rec "pets_json" = VNone)
  /\ (forall (run_only_one_city overwrite : bool)
             (visits : list (CityRef * option (list Card))) (fs : Files)
             (pre : list (list (string * pyval))) (rec : list (string * pyval))
             (post : list (list (string * pyval))),
        concat (map (scraped urlparse_path json_loads_list)
                  (if run_only_one_city then take 1 visits else visits))
        = pre ++ rec :: post ->
        let run := main urlparse_path json_loads_list run_only_one_city
                     overwrite visits fs in
        let loaded := load_existing_output overwrite fs in
        hotel_json (files run) = Some (all_hotels run)
        /\ (forall old,
              PyDict.get loaded (record_key rec) = Some old ->
              only_record (all_hotels run) (record_key rec) old)
        /\ (overwrite = false ->
            record_key rec ∉ PyDict.keys loaded ->
            record_key rec ∉ map record_key pre ->
            only_record (all_hotels run) (record_key rec) rec)
        /\ (overwrite = true ->
            record_key rec ∉ map record_key post ->
            only_record (all_hotels run) (record_key rec) rec))
  /\ (forall city cards,
        Forall pet_flag_ok (scrape_city urlparse_path json_loads_list city cards))
  /\ (forall run_only_one_city overwrite visits fs,
        files_ok pet_flag_ok fs ->
        run_ok pet_flag_ok
          (main urlparse_path json_loads_list run_only_one_city overwrite visits fs)).
Proof.
  assert (Hcity : forall city cards,
            Forall pet_flag_ok (scrape_city urlparse_path json_loads_list city cards)).
  { intros city cards.
    eapply Forall_impl; [apply scrape_city_records|]. intros rec [_ H]. exact H. }
  split; [|split; [|split; [exact Hcity|]]].
  - intros city card name_el url desc Htitle Hhref Hurl Hnav Hlink Hdesc Hpet.
    destruct (final_record_fields urlparse_path json_loads_list city card name_el Htitle)
      as (rec & Hrec & Hjson & Hflag & _).
    exists rec. split; [exact Hrec|].
    rewrite Hhref in Hjson, Hflag.
    change (default EmptyString (Some url)) with url in Hjson, Hflag.
    assert (Hne : PyStr.nonempty url = true) by (destruct url; [congruence | reflexivity]).
    destruct (detail_without_pet_link json_loads_list url (c_detail card) desc
                Hne Hnav Hlink Hdesc) as (out & Hout & Hd & Hp).
    assert (Hinfer : _infer_pet_friendly json_loads_list out = true).
    { unfold _infer_pet_friendly. rewrite Hp, Hd. cbn [truthy].
      apply (contains_lower "pet-friendly" eq_refl desc []) in Hpet.
      fold (PyStr.lower desc) in Hpet.
      cbv zeta. unfold any_keyword_in at 1. cbn [existsb]. now rewrite Hpet. }
    split.
    + rewrite Hflag, Hout, pyget_assign, Hinfer. reflexivity.
    + rewrite (Hjson "pets_json") by (unfold json_keys; right; left).
      rewrite Hout, pyget_assign, Hp. reflexivity.
  - intros roo ow visits fs pre rec post Hcat. now apply main_holds.
  - intros roo ow visits fs Hfs. now apply main_keeps.
Qed.

Lemma pet_flag_spec_witness :
  (exists rec,
      scrape_card example_url_path no_json_loads miami (pool_card pet_text_page)
      = Some rec
      /\ pyget rec "is_pet_friendly" = VStr "true"
      /\ pyget rec "pets_json" = VNone)
  /\ (exists rec,
        only_record
          (all_hotels (main example_url_path no_json_loads true false
                         [(miami, Some [pool_card pet_text_page])] stale_files))
          (VStr "miami", VStr "Hotel X") rec
        /\ pyget rec "is_pet_friendly" = VStr "true")
  /\ only_record
       (all_hotels (main example_url_path no_json_loads true false
                      [(miami, Some [pool_card pet_text_page])] older_files))
       (VStr "miami", VStr "Hotel X") older_record
  /\ run_ok pet_flag_ok
       (main example_url_path no_json_loads true false
          [(miami, Some [pool_card pet_text_page])] (mkFiles None None)).
Proof.
  pose proof (pet_flag_spec example_url_path no_json_loads)
    as (Hscen & Hheld & _ & Hmain).
  assert (Hcat : exists rec,
            concat (map (scraped example_url_path no_json_loads)
                      (take 1 [(miami, Some [pool_card pet_text_page])]))
            = [] ++ rec :: []
            /\ record_key rec = (VStr "miami", VStr "Hotel X")
            /\ pyget rec "is_pet_friendly" = VStr "true").
  { eexists. split; [vm_compute; reflexivity|]. split; vm_compute; reflexivity. }
  destruct Hcat as (rec & Hcat & Hkey & Hflag).
  split; [|split; [|split]].
  - apply (Hscen miami (pool_card pet_text_page)
             (mkElem "Hotel X"
                (Some "https://www.ihg.com/hotels/us/en/miami/miaep/hoteldetail"))
             "https://www.ihg.com/hotels/us/en/miami/miaep/hoteldetail"
             "A pet-friendly hotel by the beach.").
    + reflexivity.
    + reflexivity.
    + discriminate.
    + reflexivity.
    + reflexivity.
    + vm_compute; reflexivity.
    + vm_compute; reflexivity.
  - exists rec. split; [|exact Hflag]. rewrite <- Hkey.
    destruct (Hheld true false [(miami, Some [pool_card pet_text_page])] stale_files
                [] rec [] Hcat) as (_ & _ & Hnew & _).
    apply Hnew; [reflexivity | | intros H; inversion H].
    rewrite Hkey. apply (bool_decide_unpack _). vm_compute. exact I.
  - rewrite <- Hkey.
    destruct (Hheld true false [(miami, Some [pool_card pet_text_page])] older_files
                [] rec [] Hcat) as (_ & Hold & _).
    apply Hold. rewrite Hkey. vm_compute. reflexivity.
  - apply Hmain. intros data H. discriminate H.
Defined.

Lemma index_by_key_nodup (data : list (list (string * pyval))) :
  NoDup (map record_key data) ->
  index_by_key data = map (fun h => (record_key h, h)) data.
Proof.
  intros Hnd.
  set (m := map (fun h => (record_key h, h)) data).
  assert (Hv : PyDict.values m = data).
  { unfold m, PyDict.values. rewrite map_map. simpl. apply map_id. }
  assert (Hkeys : PyDict.keys m = map record_key data).
  { unfold m, PyDict.keys. rewrite map_map. reflexivity. }
  rewrite <- Hv at 1. apply index_by_key_values.
  - unfold PyDict.wf. now rewrite Hkeys.
  - unfold keyed, m. apply Forall_forall. intros kv Hin.
    apply list_elem_of_In, in_map_iff in Hin as (h & <- & _). reflexivity.
Qed.

Lemma values_app {K V : Type} (a b : list (K * V)) :
  PyDict.values (a ++ b) = PyDict.values a ++ PyDict.values b.
Proof. unfold PyDict.values. apply map_app. Qed.

Lemma load_loop_stops (pre post : list (list (string * pyval)))
    (d : list (string * pyval)) :
  Forall (fun h => hashable_record h = true) pre ->
  hashable_record d = false ->
  forall m, load_loop (pre ++ d :: post) m
            = fold_left (fun m h => PyDict.assign m (record_key h) h) pre m.
Proof.
  intros Hpre Hd. induction Hpre as [|x pre Hx _ IH]; intros m.
  - change (load_loop ([] ++ d :: post) m)
      with (if hashable (fst (record_key d)) && hashable (snd (record_key d))
            then load_loop post (PyDict.assign m (record_key d) d) else m).
    unfold hashable_record in Hd. now rewrite Hd.
  - change (load_loop ((x :: pre) ++ d :: post) m)
      with (if hashable (fst (record_key x)) && hashable (snd (record_key x))
            then load_loop (pre ++ d :: post) (PyDict.assign m (record_key x) x)
            else m).
    unfold hashable_record in Hx. rewrite Hx. apply IH.
Qed.

(** X10. With overwrite off the records only grow at the end: going through
    further cities leaves the records held so far where they are and
    unchanged, and appends.  The records held at the start are those of the
    earlier JSON document up to the first one whose key cannot be hashed,
    where the load is given up.  So the records of an earlier document whose
    keys can all be hashed and are all different are the first records of
    the result, in their order.  In either mode a city whose scraping raised
    changes nothing. *)
Theorem store_only_grows (urlparse_path : string -> option string)
    (json_loads_list : string -> option (list string)) (fs : Files) :
  (forall vs1 vs2,
     exists more,
       all_hotels (main urlparse_path json_loads_list false false (vs1 ++ vs2) fs)
       = all_hotels (main urlparse_path json_loads_list false false vs1 fs) ++ more)
  /\ (forall pre d post,
        hotel_json fs = Some (pre ++ d :: post) ->
        Forall (fun h => hashable_record h = true) pre ->
        hashable_record d = false ->
        load_existing_output false fs = index_by_key pre)
  /\ (forall data,
        hotel_json fs = Some data ->
        Forall (fun h => hashable_record h = true) data ->
        NoDup (map record_key data) ->
        forall run_only_one_city visits,
        exists more,
          all_hotels (main urlparse_path json_loads_list run_only_one_city
                        false visits fs)
          = data ++ more)
  /\ (forall overwrite vs city,
        all_hotels (main urlparse_path json_loads_list false overwrite
                      (vs ++ [(city, None)]) fs)
        = all_hotels (main urlparse_path json_loads_list false overwrite vs fs)).
Proof.
  split; [|split; [|split]].
  - intros vs1 vs2. rewrite !main_all_hotels.
    rewrite map_app, concat_app, merge_into_app.
    rewrite (merge_without_overwrite _ _ (PyDict.keys
               (merge_into false
                  (concat (map (scraped urlparse_path json_loads_list) vs1))
                  (load_existing_output false fs)))) by reflexivity.
    rewrite values_app. eexists. reflexivity.
  - intros pre d post Hdata Hpre Hd.
    unfold load_existing_output. rewrite Hdata. simpl.
    now apply load_loop_stops.
  - intros data Hdata Hhash Hnd roo visits. rewrite main_all_hotels.
    unfold load_existing_output. rewrite Hdata. simpl.
    rewrite (load_loop_all data Hhash). fold (index_by_key data).
    rewrite (merge_without_overwrite _ _ (PyDict.keys (index_by_key data)))
      by reflexivity.
    rewrite values_app, (index_by_key_nodup data Hnd).
    unfold PyDict.values at 1. rewrite map_map. simpl. rewrite map_id.
    eexists. reflexivity.
  - intros ow vs city. rewrite !main_all_hotels.
    rewrite map_app, concat_app. simpl. rewrite app_nil_r. reflexivity.
Qed.

Lemma store_only_grows_witness :
  (exists more,
     all_hotels (main example_url_path no_json_loads true false
                   [(miami, Some [pool_card pet_text_page])] stale_files)
     = [stale_record] ++ more)
  /\ load_existing_output false damaged_files = index_by_key [stale_record].
Proof.
  pose proof (store_only_grows example_url_path no_json_loads stale_files)
    as (_ & _ & Hkeep & _).
  pose proof (store_only_grows example_url_path no_json_loads damaged_files)
    as (_ & Hstop & _).
  split.
  - apply (Hkeep [stale_record]).
    + reflexivity.
    + apply Forall_cons_2; [reflexivity | apply Forall_nil_2].
    + apply NoDup_cons. split; [intros H; inversion H | apply NoDup_nil_2].
  - apply (Hstop [stale_record] unhashable_record [hotel_y]).
    + reflexivity.
    + apply Forall_cons_2; [reflexivity | apply Forall_nil_2].
    + reflexivity.
Defined.

(** The key of a record that [scrape_city] builds can be hashed: its two
    parts are strings or [None]. *)
Lemma scrape_card_hashable (urlparse_path : string -> option string)
    (json_loads_list : string -> option (list string))
    (city : CityRef) (card : Card) (rec : list (string * pyval)) :
  scrape_card urlparse_path json_loads_list city card = Some rec ->
  hashable_record rec = true.
Proof.
  intros H. destruct (c_title card) as [name_el|] eqn:Ht.
  2: { unfold scrape_card in H. rewrite Ht in H. discriminate. }
  unfold scrape_card in H. rewrite Ht in H. cbv zeta in H. injection H as <-.
  assert (Hbase : forall key, key ∈ ["hotel_code"; "hotel_name"] ->
            pyget (PyDict.pop (PyDict.pop (coerce_pet_flag (normalize_json
                     (PyDict.update (base_record urlparse_path city card name_el)
                        (scrape_hotel_detail json_loads_list
                           (default EmptyString (el_href name_el)) (c_detail card)))))
                     "_detail_url") "_city") key
            = pyget (base_record urlparse_path city card name_el) key).
  { intros key Hkey.
    assert (Hk : is_json_key key = false /\ key <> "is_pet_friendly"
                 /\ key <> "_city" /\ key <> "_detail_url" /\ key ∉ detail_keys).
    { repeat (apply elem_of_cons in Hkey as [->|Hkey];
              [repeat split; try discriminate; try reflexivity;
               apply (bool_decide_unpack _); vm_compute; exact I|]).
      inversion Hkey. }
    destruct Hk as (Hjk & Hflag & Hcity & Hurl & Hdk).
    rewrite !pyget_pop_ne by assumption.
    rewrite pyget_coerce_ne by assumption.
    unfold normalize_json.
    rewrite pyget_normalize, bool_decide_eq_false_2 by (now apply not_json_key).
    rewrite pyget_update_detail, bool_decide_eq_false_2 by exact Hdk. reflexivity. }
  unfold hashable_record, record_key. cbn [fst snd].
  rewrite (Hbase "hotel_code") by (left).
  rewrite (Hbase "hotel_name") by (right; left).
  unfold base_record. cbv zeta.
  change (pyget (("hotel_code", ?v) :: _) "hotel_code") with v.
  change (pyget (_ :: ("hotel_name", ?v) :: _) "hotel_name") with v.
  destruct (get_hotel_code_from_url _ _), (safe_text name_el); reflexivity.
Qed.

Lemma scraped_hashable (urlparse_path : string -> option string)
    (json_loads_list : string -> option (list string))
    (vs : list (CityRef * option (list Card))) :
  Forall (fun h => hashable_record h = true)
         (concat (map (scraped urlparse_path json_loads_list) vs)).
Proof.
  apply Forall_forall. intros h Hin.
  apply list_elem_of_In, in_concat in Hin as (l & Hl & Hin).
  apply in_map_iff in Hl as ([city cards] & <- & _).
  unfold scraped in Hin. simpl in Hin. destruct cards as [cards|]; [|destruct Hin].
  unfold scrape_city in Hin.
  apply list_elem_of_In, list_elem_of_omap in Hin as (card & _ & Hc).
  exact (scrape_card_hashable _ _ _ _ _ Hc).
Qed.

Lemma merge_into_hashable (overwrite : bool) (hotels : list (list (string * pyval))) :
  Forall (fun h => hashable_record h = true) hotels ->
  forall m, Forall (fun h => hashable_record h = true) (PyDict.values m) ->
            Forall (fun h => hashable_record h = true)
                   (PyDict.values (merge_into overwrite hotels m)).
Proof.
  induction 1 as [|h hotels Hh _ IH]; intros m Hm; [exact Hm|].
  rewrite merge_into_cons.
  destruct (PyDict.mem m (record_key h) && negb overwrite); apply IH; [exact Hm|].
  apply Forall_forall. intros x Hin. unfold PyDict.values in Hin.
  apply list_elem_of_In, in_map_iff in Hin as (kv & <- & Hin).
  apply list_elem_of_In, assign_entries in Hin as [Hin| ->]; [|exact Hh].
  rewrite Forall_forall in Hm. apply Hm. unfold PyDict.values.
  apply list_elem_of_In, in_map, list_elem_of_In, Hin.
Qed.

Lemma load_existing_output_hashable (overwrite : bool) (fs : Files) :
  Forall (fun h => hashable_record h = true)
         (PyDict.values (load_existing_output overwrite fs)).
Proof.
  unfold load_existing_output.
  destruct (hotel_json fs) as [data|]; [|apply Forall_nil_2].
  destruct overwrite; simpl; [apply Forall_nil_2|].
  apply load_loop_hashable, Forall_nil_2.
Qed.

Section Rerun.

Variable urlparse_path : string -> option string.
Variable json_loads_list : string -> option (list string).

Local Abbreviation sc := (scraped urlparse_path json_loads_list).

(** Loading what a run without overwrite has left gives the store of that
    run back. *)
Lemma reload_store (run_only_one_city : bool)
    (visits : list (CityRef * option (list Card))) (fs : Files) :
  load_existing_output false
    (files (main urlparse_path json_loads_list run_only_one_city false visits fs))
  = merge_into false
      (concat (map sc (if run_only_one_city then take 1 visits else visits)))
      (load_existing_output false fs).
Proof.
  destruct (main_store urlparse_path json_loads_list run_only_one_city false visits fs)
    as (m & Hwf & Hk & Hm & Hall).
  assert (Hhash : Forall (fun h => hashable_record h = true) (PyDict.values m)).
  { rewrite Hm. apply merge_into_hashable;
      [apply scraped_hashable | apply load_existing_output_hashable]. }
  rewrite <- Hm.
  destruct (if run_only_one_city then take 1 visits else visits) as [|v vs] eqn:Hp.
  - assert (Hf : files (main urlparse_path json_loads_list run_only_one_city
                          false visits fs) = fs).
    { unfold main. cbv zeta. now rewrite Hp. }
    rewrite Hf, Hm. reflexivity.
  - rewrite main_files by (rewrite Hp; discriminate). rewrite Hall.
    destruct (PyDict.values m) as [|x rest] eqn:Hv.
    + apply values_nil in Hv. simpl. rewrite Hv.
      pose proof (merge_into_length false (concat (map sc (v :: vs)))
                    (load_existing_output false fs)) as Hlen.
      rewrite <- Hm, Hv in Hlen.
      destruct (load_existing_output false fs); [reflexivity | simpl in Hlen; lia].
    + unfold load_existing_output, save_outputs. cbn [hotel_json negb].
      rewrite (load_loop_all _ Hhash). rewrite <- Hv.
      now apply index_by_key_values.
Qed.

End Rerun.

(** X11. A run without overwrite can be resumed: loading the documents it
    leaves gives back the records it held.  A second run on these documents
    whose hotels all have keys the first run holds changes neither the
    records nor, when the first run went through a city, the documents; in
    particular running [main] again on the same pages changes nothing. *)
Theorem main_rerun_idempotent (urlparse_path : string -> option string)
    (json_loads_list : string -> option (list string))
    (run_only_one_city : bool)
    (visits : list (CityRef * option (list Card))) (fs : Files) :
  let processed := if run_only_one_city then take 1 visits else visits in
  let run := main urlparse_path json_loads_list run_only_one_city false visits fs in
  PyDict.values (load_existing_output false (files run)) = all_hotels run
  /\ (forall (run_only_one_city2 : bool)
             (visits2 : list (CityRef * option (list Card))),
        let processed2 := if run_only_one_city2 then take 1 visits2 else visits2 in
        let run2 := main urlparse_path json_loads_list run_only_one_city2 false
                      visits2 (files run) in
        (forall v h, v ∈ processed2 ->
                     h ∈ scraped urlparse_path json_loads_list v ->
                     record_key h ∈ map record_key (all_hotels run)) ->
        all_hotels run2 = all_hotels run
        /\ (processed <> [] -> files run2 = files run))
  /\ all_hotels (main urlparse_path json_loads_list run_only_one_city false
                   visits (files run)) = all_hotels run
  /\ files (main urlparse_path json_loads_list run_only_one_city false
              visits (files run)) = files run.
Proof.
  intros processed run.
  destruct (main_store urlparse_path json_loads_list run_only_one_city false visits fs)
    as (m & Hwf & Hk & Hm & Hall).
  fold run in Hall. fold processed in Hm.
  pose proof (reload_store urlparse_path json_loads_list run_only_one_city visits fs)
    as Hload.
  fold run in Hload. fold processed in Hload. rewrite <- Hm in Hload.
  assert (Hgen : forall (run_only_one_city2 : bool)
                        (visits2 : list (CityRef * option (list Card))),
            (forall v h,
                v ∈ (if run_only_one_city2 then take 1 visits2 else visits2) ->
                h ∈ scraped urlparse_path json_loads_list v ->
                record_key h ∈ map record_key (all_hotels run)) ->
            all_hotels (main urlparse_path json_loads_list run_only_one_city2 false
                          visits2 (files run)) = all_hotels run
            /\ (processed <> [] ->
                files (main urlparse_path json_loads_list run_only_one_city2 false
                         visits2 (files run)) = files run)).
  { intros roo2 visits2 Hkeys.
    assert (Hsame : all_hotels (main urlparse_path json_loads_list roo2 false
                                  visits2 (files run)) = all_hotels run).
    { rewrite main_all_hotels, Hload, Hall. f_equal.
      apply merge_all_present. intros h Hh.
      apply list_elem_of_In, in_concat in Hh as (l & Hl & Hin).
      apply in_map_iff in Hl as (v & <- & Hv).
      rewrite <- (keyed_keys m Hk), <- Hall.
      apply (Hkeys v h); now apply list_elem_of_In. }
    split; [exact Hsame|]. intros Hp.
    destruct (if roo2 then take 1 visits2 else visits2) as [|v2 vs2] eqn:Hp2.
    - unfold main. cbv zeta. now rewrite Hp2.
    - rewrite main_files by (rewrite Hp2; discriminate). rewrite Hsame.
      assert (Hf : files run = save_outputs (all_hotels run) fs)
        by (apply main_files; exact Hp).
      rewrite Hf. apply save_outputs_twice. congruence. }
  split; [now rewrite Hload|]. split; [exact Hgen|].
  assert (Hkeys : forall v h, v ∈ processed ->
                    h ∈ scraped urlparse_path json_loads_list v ->
                    record_key h ∈ map record_key (all_hotels run)).
  { intros v h Hv Hh. rewrite Hall, (keyed_keys m Hk), Hm.
    apply merge_into_covers. right.
    apply list_elem_of_In, in_map_iff. exists h. split; [reflexivity|].
    apply in_concat. exists (scraped urlparse_path json_loads_list v).
    split; [|now apply list_elem_of_In].
    apply in_map_iff. exists v. split; [reflexivity | now apply list_elem_of_In]. }
  destruct (Hgen run_only_one_city visits Hkeys) as [Hsame Hfiles].
  split; [exact Hsame|].
  destruct processed as [|v vs] eqn:Hp; [|apply Hfiles; discriminate].
  unfold main at 1. cbv zeta. fold processed. rewrite Hp. reflexivity.
Qed.

Lemma main_rerun_idempotent_witness :
  let run := main example_url_path no_json_loads true false
               [(miami, Some [pool_card pet_text_page])] (mkFiles None None) in
  all_hotels (main example_url_path no_json_loads true false
                [(miami, Some [seen_later (pool_card pet_text_page)
                                 "2025-02-01T08:00:00"])]
                (files run))
  = all_hotels run.
Proof.
  intros run.
  assert (Hs : exists h,
             scraped example_url_path no_json_loads
               (miami, Some [seen_later (pool_card pet_text_page)
                               "2025-02-01T08:00:00"]) = [h]
             /\ record_key h = (VStr "miami", VStr "Hotel X")).
  { eexists. split; vm_compute; reflexivity. }
  assert (Hr : map record_key (all_hotels run) = [(VStr "miami", VStr "Hotel X")])
    by (vm_compute; reflexivity).
  destruct Hs as (h0 & Hs & Hkey).
  apply (proj1 (proj2 (main_rerun_idempotent example_url_path no_json_loads true
                         [(miami, Some [pool_card pet_text_page])]
                         (mkFiles None None)))
           true
           [(miami, Some [seen_later (pool_card pet_text_page)
                            "2025-02-01T08:00:00"])]).
  intros v h Hv Hh. fold run. rewrite Hr.
  simpl in Hv. apply list_elem_of_singleton in Hv. subst v.
  rewrite Hs in Hh. apply list_elem_of_singleton in Hh. subst h.
  rewrite Hkey. left.
Defined.

Lemma concat_all_nil {A B : Type} (f : A -> list B) (l : list A) :
  Forall (fun v => f v = []) l -> concat (map f l) = [].
Proof.
  induction 1 as [|v vs Hv _ IH]; [reflexivity|]. simpl. now rewrite Hv, IH.
Qed.

(** X12. With overwrite on, the records of a run come from its own scraping
    alone: each record held was scraped in a city of this run, under each
    key it is the latest one scraped, and the earlier documents have no
    share in the records.  Yet when no city yields a hotel the earlier
    documents are left in place. *)
Theorem overwrite_run_spec (urlparse_path : string -> option string)
    (json_loads_list : string -> option (list string))
    (run_only_one_city : bool)
    (visits : list (CityRef * option (list Card))) (fs : Files) :
  let processed := if run_only_one_city then take 1 visits else visits in
  let run := main urlparse_path json_loads_list run_only_one_city true visits fs in
  (forall h, h ∈ all_hotels run ->
     exists v, v ∈ processed /\ h ∈ scraped urlparse_path json_loads_list v)
  /\ (forall k,
        PyDict.get (index_by_key (all_hotels run)) k
        = latest k (concat (map (scraped urlparse_path json_loads_list) processed)))
  /\ (forall fs',
        all_hotels (main urlparse_path json_loads_list run_only_one_city true
                      visits fs') = all_hotels run)
  /\ (Forall (fun v => scraped urlparse_path json_loads_list v = []) processed ->
      all_hotels run = [] /\ files run = fs).
Proof.
  intros processed run.
  assert (Hload : forall fs0, load_existing_output true fs0 = []).
  { intros fs0. unfold load_existing_output. now destruct (hotel_json fs0). }
  destruct (main_store urlparse_path json_loads_list run_only_one_city true visits fs)
    as (m & Hwf & Hk & Hm & Hall).
  fold run in Hall. fold processed in Hm. rewrite Hload in Hm.
  split; [|split; [|split]].
  - intros h Hh. rewrite Hall in Hh. unfold PyDict.values in Hh.
    apply list_elem_of_In, in_map_iff in Hh as (kv & <- & Hkv).
    apply list_elem_of_In in Hkv. rewrite Hm in Hkv.
    apply merge_into_entries in Hkv as [Hkv|Hkv]; [inversion Hkv|].
    apply list_elem_of_In, in_concat in Hkv as (l & Hl & Hin).
    apply in_map_iff in Hl as (v & <- & Hv).
    exists v. split; now apply list_elem_of_In.
  - intros k. rewrite Hall, index_by_key_values, Hm by assumption.
    rewrite merge_with_overwrite_get. simpl.
    now destruct (latest k _).
  - intros fs'. unfold run. rewrite !main_all_hotels, !Hload. reflexivity.
  - intros Hnone.
    assert (Hc : concat (map (scraped urlparse_path json_loads_list) processed) = []).
    { apply concat_all_nil, Hnone. }
    rewrite Hc in Hm. assert (Hnil : all_hotels run = []) by (now rewrite Hall, Hm).
    split; [exact Hnil|].
    destruct processed as [|v vs] eqn:Hp.
    + unfold run, main. cbv zeta. fold processed. now rewrite Hp.
    + unfold run. rewrite main_files by (fold processed; rewrite Hp; discriminate).
      fold run. now rewrite Hnil.
Qed.

Lemma overwrite_run_spec_witness :
  all_hotels (main example_url_path no_json_loads false true
                [(miami, None)] stale_files) = []
  /\ files (main example_url_path no_json_loads false true
              [(miami, None)] stale_files) = stale_files.
Proof.
  apply (proj2 (proj2 (proj2 (overwrite_run_spec example_url_path no_json_loads
                                false [(miami, None)] stale_files)))).
  apply Forall_cons_2; [reflexivity | apply Forall_nil_2].
Defined.

(** ** The fields of the detail dictionary *)

Lemma none_or_truthy_pick (v : pyval) :
  none_or_truthy v -> (if truthy v then v else VNone) = v.
Proof. intros [-> | H]; [reflexivity | now rewrite H]. Qed.

Lemma content_probes_truthy (page : AmenitiesPage) :
  Forall none_or_truthy (content_probes page).
Proof.
  unfold content_probes, none_or_truthy.
  apply Forall_cons_2.
  { unfold _scrape_amenities_list_from_page.
    destruct (fold_left _ _ _); [now left | now right]. }
  apply Forall_cons_2.
  { unfold _scrape_parking_from_page.
    destruct (_collect_section_text _ _) as [text|]; [|now left].
    destruct (PyStr.nonempty text); [now right | now left]. }
  apply Forall_cons_2.
  { unfold _scrape_overview_table_from_page. cbv zeta.
    match goal with
    | |- match ?d with [] => VNone | _ :: _ => VDict ?d end = _ \/ _ =>
        destruct d; [now left | now right]
    end. }
  assert (Hl : forall kws, lines_probe page kws = VNone
                           \/ truthy (lines_probe page kws) = true).
  { intros kws. unfold lines_probe.
    destruct (_collect_section_text _ _) as [text|]; [|now left].
    destruct (PyStr.nonempty text); [|now left].
    destruct (clean_lines text); [now left | now right]. }
  apply Forall_cons_2; [apply Hl|].
  apply Forall_cons_2; [apply Hl | apply Forall_nil_2].
Qed.

Lemma pet_policy_truthy (links : list Elem) (page : PageText) :
  none_or_truthy (_open_pet_policy_if_available links page).
Proof.
  unfold none_or_truthy, _open_pet_policy_if_available.
  destruct (first_button _ _) as [link|]; [|now left].
  destruct (truthy_opt (el_href link)); [|now left].
  destruct (_collect_section_text _ _) as [policy|]; [|now left].
  destruct (PyStr.nonempty policy); [now right | now left].
Qed.

Lemma highlights_truthy (page : DetailPage) :
  none_or_truthy (_extract_highlights_section page).
Proof.
  unfold none_or_truthy, _extract_highlights_section.
  destruct (dp_highlights page) as [items|]; [|now left].
  destruct (filter _ _); [now left | now right].
Qed.

Lemma first_tel_number_nonempty (hrefs : list (option string)) (p : string) :
  first_tel_number hrefs = Some p -> PyStr.nonempty p = true.
Proof.
  induction hrefs as [|h hrefs IH]; [discriminate|]. simpl.
  destruct (PyStr.nonempty (PyStr.strip _)) eqn:E; [|exact IH].
  intros [= <-]. exact E.
Qed.

Lemma extract_phone_nonempty (hrefs : list (option string)) (body p : string) :
  _extract_phone hrefs body = Some p -> PyStr.nonempty p = true.
Proof.
  unfold _extract_phone.
  destruct (first_tel_number hrefs) as [num|] eqn:E.
  - intros [= <-]. exact (first_tel_number_nonempty _ _ E).
  - destruct (phone_search body) as [m|] eqn:Hs; [|discriminate].
    intros [= <-]. apply phone_search_sound in Hs as [Hshape _].
    rewrite (phone_shape_strip m Hshape).
    apply phone_shape_size in Hshape as [Hlen _].
    destruct m; [simpl in Hlen; lia | reflexivity].
Qed.

Lemma copy_if_found_hit (data : list (string * pyval)) (src dst : string)
    (out : list (string * pyval)) :
  pyget (copy_if_found data src dst out) dst
  = if truthy (pyget data src) then pyget data src else pyget out dst.
Proof.
  unfold copy_if_found. destruct (truthy _); [|reflexivity].
  rewrite pyget_assign. destruct (decide (dst = dst)); congruence.
Qed.

Lemma merge_amenities_data_get (data out : list (string * pyval)) :
  let pick src dst :=
    if truthy (pyget data src) then pyget data src else pyget out dst in
  pyget (merge_amenities_data data out) "amenities_json" = pick "amenities" "amenities_json"
  /\ pyget (merge_amenities_data data out) "parking_json" = pick "parking" "parking_json"
  /\ pyget (merge_amenities_data data out) "overview_table_json"
     = pick "overview" "overview_table_json"
  /\ pyget (merge_amenities_data data out) "nearby_json" = pick "nearby" "nearby_json"
  /\ pyget (merge_amenities_data data out) "airport_json" = pick "airport" "airport_json"
  /\ pyget (merge_amenities_data data out) "phone"
     = if truthy (pyget data "phone") && negb (truthy (pyget out "phone"))
       then pyget data "phone" else pyget out "phone".
Proof.
  intros pick. unfold pick, merge_amenities_data. cbv zeta.
  rewrite !(copy_if_found_frame _ _ _ _ "phone") by discriminate.
  repeat split;
    (destruct (truthy (pyget data "phone") && negb (truthy (pyget out "phone")));
     rewrite ?pyget_assign;
     repeat match goal with
            | |- context [decide (?a = ?b)] =>
                destruct (decide (a = b)) as [E|E];
                [try discriminate E | try (exfalso; apply E; reflexivity)]
            end;
     rewrite ?copy_if_found_frame by discriminate;
     rewrite ?copy_if_found_hit;
     rewrite ?copy_if_found_frame by discriminate;
     reflexivity).
Qed.

Lemma infer_pet_friendly_ext (json_loads_list : string -> option (list string))
    (a b : list (string * pyval)) :
  pyget a "pets_json" = pyget b "pets_json" ->
  pyget a "description" = pyget b "description" ->
  pyget a "amenities_json" = pyget b "amenities_json" ->
  _infer_pet_friendly json_loads_list a = _infer_pet_friendly json_loads_list b.
Proof. intros H1 H2 H3. unfold _infer_pet_friendly. now rewrite H1, H2, H3. Qed.

Lemma detail_fields (json_loads_list : string -> option (list string))
    (url : string) (page : DetailPage) :
  PyStr.nonempty url = true -> dp_nav_ok page = true ->
  let out := scrape_hotel_detail json_loads_list url page in
  let data :=
    default [] (_open_amenities_page_and_scrape (dp_buttons page)
                  (dp_amenities_page page)) in
  pyget out "description" = of_opt_str (_extract_description_text page)
  /\ pyget out "phone"
     = match _extract_phone (dp_tel_hrefs page) (dp_body page) with
       | Some p => VStr p
       | None => pyget data "phone"
       end
  /\ pyget out "amenities_json"
     = (if truthy (pyget data "amenities") then pyget data "amenities"
        else _extract_highlights_section page)
  /\ pyget out "parking_json" = pyget data "parking"
  /\ pyget out "overview_table_json" = pyget data "overview"
  /\ pyget out "nearby_json" = pyget data "nearby"
  /\ pyget out "airport_json" = pyget data "airport"
  /\ pyget out "pets_json"
     = _open_pet_policy_if_available (dp_pet_links page) (dp_pet_page page)
  /\ pyget out "is_pet_friendly" = VBool (_infer_pet_friendly json_loads_list out).
Proof.
  intros Hurl Hnav out data.
  set (hl := _extract_highlights_section page).
  set (ph := _extract_phone (dp_tel_hrefs page) (dp_body page)).
  set (pets := _open_pet_policy_if_available (dp_pet_links page) (dp_pet_page page)).
  set (out1 := PyDict.assign detail_defaults "description"
                 (of_opt_str (_extract_description_text page))).
  set (out2 := if truthy hl then PyDict.assign out1 "amenities_json" hl else out1).
  set (out3 := if truthy_opt ph then PyDict.assign out2 "phone" (of_opt_str ph)
               else out2).
  set (out4 := match _open_amenities_page_and_scrape (dp_buttons page)
                       (dp_amenities_page page) with
               | Some d => merge_amenities_data d out3
               | None => out3
               end).
  assert (Hout : out = if truthy pets
                       then PyDict.assign (PyDict.assign out4 "pets_json" pets)
                              "is_pet_friendly" (VBool true)
                       else PyDict.assign out4 "is_pet_friendly"
                              (VBool (_infer_pet_friendly json_loads_list out4))).
  { unfold out, scrape_hotel_detail. cbv zeta. rewrite Hurl, Hnav. reflexivity. }
  (* the values of out3 *)
  assert (Hhl : (if truthy hl then hl else VNone) = hl)
    by apply none_or_truthy_pick, highlights_truthy.
  assert (H3 : pyget out3 "description" = of_opt_str (_extract_description_text page)
               /\ pyget out3 "phone" = of_opt_str ph
               /\ pyget out3 "amenities_json" = hl
               /\ pyget out3 "parking_json" = VNone
               /\ pyget out3 "overview_table_json" = VNone
               /\ pyget out3 "nearby_json" = VNone
               /\ pyget out3 "airport_json" = VNone
               /\ pyget out3 "pets_json" = VNone).
  { assert (Hph : (if truthy_opt ph then of_opt_str ph else VNone) = of_opt_str ph).
    { destruct ph as [p|] eqn:E; [|reflexivity].
      unfold ph in E. apply extract_phone_nonempty in E. simpl. now rewrite E. }
    rewrite <- Hph, <- Hhl at 1. unfold out3, out2, out1.
    destruct (truthy_opt ph); destruct (truthy hl);
      rewrite ?pyget_assign; repeat split; reflexivity. }
  destruct H3 as (Hd3 & Hp3 & Ha3 & Hk3 & Ho3 & Hn3 & Hr3 & Hj3).
  (* the values of out4 *)
  assert (H4 : pyget out4 "description" = of_opt_str (_extract_description_text page)
               /\ pyget out4 "phone"
                  = match ph with Some p => VStr p | None => pyget data "phone" end
               /\ pyget out4 "amenities_json"
                  = (if truthy (pyget data "amenities") then pyget data "amenities"
                     else hl)
               /\ pyget out4 "parking_json" = pyget data "parking"
               /\ pyget out4 "overview_table_json" = pyget data "overview"
               /\ pyget out4 "nearby_json" = pyget data "nearby"
               /\ pyget out4 "airport_json" = pyget data "airport"
               /\ pyget out4 "pets_json" = VNone).
  { unfold out4, data.
    destruct (_open_amenities_page_and_scrape _ _) as [d|] eqn:Hopen.
    - apply open_amenities_data in Hopen. subst d.
      pose proof (content_probes_truthy (dp_amenities_page page)) as Hp.
      unfold content_probes in Hp.
      repeat match type of Hp with
             | Forall _ (_ :: _) => apply Forall_cons_1 in Hp as [? Hp]
             end.
      destruct (merge_amenities_data_get (amenities_page_data (dp_amenities_page page))
                  out3) as (Ga & Gk & Go & Gn & Gr & Gp).
      rewrite (merge_amenities_data_frame _ _ "description") by (now left).
      rewrite (merge_amenities_data_frame _ _ "pets_json") by (now right).
      rewrite Ga, Gk, Go, Gn, Gr, Gp, Hp3, Ha3, Hk3, Ho3, Hn3, Hr3.
      unfold default. cbn [from_option id].
      change (pyget (amenities_page_data (dp_amenities_page page)) "parking")
        with (_scrape_parking_from_page (dp_amenities_page page)).
      change (pyget (amenities_page_data (dp_amenities_page page)) "overview")
        with (_scrape_overview_table_from_page (dp_amenities_page page)).
      change (pyget (amenities_page_data (dp_amenities_page page)) "nearby")
        with (_scrape_nearby_from_page (dp_amenities_page page)).
      change (pyget (amenities_page_data (dp_amenities_page page)) "airport")
        with (_scrape_airport_from_page (dp_amenities_page page)).
      rewrite !none_or_truthy_pick by assumption.
      repeat split; try assumption.
      destruct ph as [p|] eqn:E.
      + unfold ph in E. apply extract_phone_nonempty in E. simpl. rewrite E.
        now rewrite andb_false_r.
      + simpl. rewrite andb_true_r.
        change (pyget (amenities_page_data (dp_amenities_page page)) "phone")
          with (of_opt_str (_extract_phone (ap_tel_hrefs (dp_amenities_page page))
                              (pt_body (ap_text (dp_amenities_page page))))).
        destruct (_extract_phone (ap_tel_hrefs _) _) as [q|] eqn:Eq; [|reflexivity].
        apply extract_phone_nonempty in Eq. simpl. now rewrite Eq.
    - unfold default. cbn [from_option]. rewrite Hd3, Hp3, Ha3, Hk3, Ho3, Hn3, Hr3, Hj3.
      repeat split; now destruct ph. }
  destruct H4 as (Hd4 & Hp4 & Ha4 & Hk4 & Ho4 & Hn4 & Hr4 & Hj4).
  assert (Hpets : (if truthy pets then pets else VNone) = pets)
    by apply none_or_truthy_pick, pet_policy_truthy.
  assert (Hkeep : forall k, k <> "pets_json" -> k <> "is_pet_friendly" ->
                            pyget out k = pyget out4 k).
  { intros k Hk1 Hk2. rewrite Hout.
    destruct (truthy pets); rewrite ?pyget_assign;
      repeat match goal with
             | |- context [decide (?a = ?b)] =>
                 destruct (decide (a = b)); [congruence|]
             end; reflexivity. }
  assert (Hpj : pyget out "pets_json" = pets).
  { rewrite Hout. destruct (truthy pets) eqn:Ht.
    - rewrite !pyget_assign. reflexivity.
    - rewrite pyget_assign. simpl. rewrite Hj4. exact Hpets. }
  rewrite !Hkeep by discriminate.
  repeat split; try assumption.
  assert (Hinf : _infer_pet_friendly json_loads_list out
                 = if truthy pets then true
                   else _infer_pet_friendly json_loads_list out4).
  { destruct (truthy pets) eqn:Ht.
    - unfold _infer_pet_friendly. now rewrite Hpj, Ht.
    - apply infer_pet_friendly_ext.
      + rewrite Hpj, Hj4. symmetry. exact Hpets.
      + apply Hkeep; discriminate.
      + apply Hkeep; discriminate. }
  rewrite Hinf, Hout.
  destruct (truthy pets); rewrite pyget_assign; reflexivity.
Qed.

(** X13. When the detail page opens, the dictionary [scrape_hotel_detail]
    returns holds the description extracted, the pet policy, and a flag
    that is what [_infer_pet_friendly] says of the dictionary returned.
    The amenities page counts only when its link is found, has an address,
    and one of the five content probes has a result there.  Then the
    dictionary holds the phone of the detail page and, only when there is
    none, the phone of the amenities page; the amenity list of the amenities
    page and, only when there is none, the highlights of the detail page;
    and parking, overview, nearby places and airports as the amenities page
    gives them.  Otherwise it holds the phone and the highlights of the
    detail page only, and [None] in the four other fields: a phone that only
    the amenities page shows is lost when that page shows nothing else. *)
Theorem scrape_hotel_detail_fields (json_loads_list : string -> option (list string))
    (url : string) (page : DetailPage) :
  PyStr.nonempty url = true -> dp_nav_ok page = true ->
  let out := scrape_hotel_detail json_loads_list url page in
  let ap := dp_amenities_page page in
  let opened := _open_amenities_page_and_scrape (dp_buttons page) ap in
  let own_phone := _extract_phone (dp_tel_hrefs page) (dp_body page) in
  pyget out "description" = of_opt_str (_extract_description_text page)
  /\ pyget out "pets_json"
     = _open_pet_policy_if_available (dp_pet_links page) (dp_pet_page page)
  /\ pyget out "is_pet_friendly" = VBool (_infer_pet_friendly json_loads_list out)
  /\ (opened = None
      <-> first_button ["view all amenities"] (dp_buttons page) = None
          \/ (exists btn,
                first_button ["view all amenities"] (dp_buttons page) = Some btn
                /\ truthy_opt (el_href btn) = false)
          \/ Forall (fun v => v = VNone) (content_probes ap))
  /\ (opened <> None ->
      pyget out "phone"
      = match own_phone with
        | Some p => VStr p
        | None => of_opt_str (_extract_phone (ap_tel_hrefs ap) (pt_body (ap_text ap)))
        end
      /\ pyget out "amenities_json"
         = match _scrape_amenities_list_from_page ap with
           | VNone => _extract_highlights_section page
           | found => found
           end
      /\ pyget out "parking_json" = _scrape_parking_from_page ap
      /\ pyget out "overview_table_json" = _scrape_overview_table_from_page ap
      /\ pyget out "nearby_json" = _scrape_nearby_from_page ap
      /\ pyget out "airport_json" = _scrape_airport_from_page ap)
  /\ (opened = None ->
      pyget out "phone" = of_opt_str own_phone
      /\ pyget out "amenities_json" = _extract_highlights_section page
      /\ pyget out "parking_json" = VNone
      /\ pyget out "overview_table_json" = VNone
      /\ pyget out "nearby_json" = VNone
      /\ pyget out "airport_json" = VNone).
Proof.
  intros Hurl Hnav out ap opened own_phone.
  destruct (detail_fields json_loads_list url page Hurl Hnav)
    as (Hd & Hp & Ha & Hk & Ho & Hn & Hr & Hj & Hf).
  fold out in Hd, Hp, Ha, Hk, Ho, Hn, Hr, Hj, Hf.
  fold ap opened in Hp, Ha, Hk, Ho, Hn, Hr. fold own_phone in Hp.
  split; [exact Hd|]. split; [exact Hj|]. split; [exact Hf|].
  split; [|split].
  - unfold opened, _open_amenities_page_and_scrape.
    pose proof (existsb_truthy_none _ (content_probe_shape ap)) as Hiff.
    destruct (first_button ["view all amenities"] (dp_buttons page)) as [btn|] eqn:Hb.
    2: { split; [intros _; now left | reflexivity]. }
    destruct (truthy_opt (el_href btn)) eqn:Hh.
    2: { split; [|reflexivity]. intros _. right. left. now exists btn. }
    rewrite aggregate_page_data.
    destruct (existsb truthy (content_probes ap)) eqn:E.
    + split; [discriminate|]. intros [H | [(b & Hb' & Hh') | Hall]].
      * discriminate H.
      * injection Hb' as <-. congruence.
      * apply Hiff in Hall. discriminate Hall.
    + split; [|reflexivity]. intros _. right. right. now apply Hiff.
  - intros Hopen. destruct opened as [data|] eqn:Eo; [|congruence].
    unfold opened in Eo. apply open_amenities_data in Eo. subst data.
    unfold default in Hp, Ha, Hk, Ho, Hn, Hr. cbn [from_option id] in Hp, Ha, Hk, Ho, Hn, Hr.
    split; [exact Hp|]. split; [|auto].
    rewrite Ha.
    change (pyget (amenities_page_data ap) "amenities")
      with (_scrape_amenities_list_from_page ap).
    pose proof (content_probes_truthy ap) as Ht. unfold content_probes in Ht.
    apply Forall_cons_1 in Ht as [Ht _].
    destruct Ht as [-> | Ht]; [reflexivity|]. rewrite Ht.
    destruct (_scrape_amenities_list_from_page ap); try reflexivity.
    discriminate Ht.
  - intros Hopen. rewrite Hopen in Hp, Ha, Hk, Ho, Hn, Hr.
    unfold default in Hp, Ha, Hk, Ho, Hn, Hr. cbn [from_option id] in Hp, Ha, Hk, Ho, Hn, Hr.
    split; [rewrite Hp; now destruct own_phone|].
    split; [exact Ha|]. auto.
Qed.

(** On [phone_only_detail] the amenities page shows a phone only: it does
    not count, and the phone is lost.  On [pool_phone_detail] the amenities
    page shows an amenity too, and gives its phone and its list. *)
Lemma scrape_hotel_detail_fields_witness :
  pyget (scrape_hotel_detail no_json_loads
           "https://www.ihg.com/hotels/us/en/miami/miaep/hoteldetail"
           phone_only_detail) "phone" = VNone
  /\ pyget (scrape_hotel_detail no_json_loads
              "https://www.ihg.com/hotels/us/en/miami/miaep/hoteldetail"
              pool_phone_detail) "phone" = VStr "305-555-0100"
  /\ pyget (scrape_hotel_detail no_json_loads
              "https://www.ihg.com/hotels/us/en/miami/miaep/hoteldetail"
              pool_phone_detail) "amenities_json" = VList ["Pool"].
Proof.
  assert (Hu : PyStr.nonempty "https://www.ihg.com/hotels/us/en/miami/miaep/hoteldetail"
               = true) by reflexivity.
  destruct (scrape_hotel_detail_fields no_json_loads _ phone_only_detail Hu eq_refl)
    as (_ & _ & _ & Hiff & _ & Hnone).
  destruct (scrape_hotel_detail_fields no_json_loads _ pool_phone_detail Hu eq_refl)
    as (_ & _ & _ & _ & Hsome & _).
  split; [|split].
  - apply Hnone. apply Hiff. right. right. vm_compute.
    repeat (apply Forall_cons_2; [reflexivity|]). apply Forall_nil_2.
  - destruct Hsome as (Hp & _); [vm_compute; discriminate|]. exact Hp.
  - destruct Hsome as (_ & Ha & _); [vm_compute; discriminate|]. exact Ha.
Defined.

(** ** The pet policy *)

Lemma matched_nonempty (keywords sections : list string) (x : string) :
  x ∈ matching_sections keywords sections [] -> x <> EmptyString.
Proof.
  rewrite matching_sections_fold. intros Hin.
  destruct (distinct_texts_spec (fun e => any_keyword_in keywords (PyStr.lower e))
              sections [] NoDup_nil_2) as [_ H].
  cbv zeta in H. apply H in Hin as [Hin | [Hne _]]; [inversion Hin | exact Hne].
Qed.

Lemma collect_section_text_nonempty (page : PageText) (keywords : list string)
    (r : string) :
  no_dotted_I (pt_body page) = true ->
  Forall (fun k => k <> EmptyString) keywords ->
  _collect_section_text page keywords = Some r -> r <> EmptyString.
Proof.
  intros Hbody Hk Hr. unfold _collect_section_text in Hr.
  apply longest_spec in Hr as [Hin _].
  destruct (matching_sections keywords (pt_sections page) []) as [|m ms] eqn:Hm.
  - exact (keyword_window_nonempty _ _ _ Hbody Hk Hin).
  - apply (matched_nonempty keywords (pt_sections page)). now rewrite Hm.
Qed.

Lemma collect_none_iff (page : PageText) (keywords : list string) :
  _collect_section_text page keywords = None
  <-> matching_sections keywords (pt_sections page) [] = []
      /\ any_keyword_in keywords (PyStr.lower (pt_body page)) = false.
Proof.
  unfold _collect_section_text.
  destruct (matching_sections keywords (pt_sections page) []) as [|m ms].
  - destruct (keyword_window_spec keywords (pt_body page)) as [Hnone _].
    destruct (keyword_window keywords (pt_body page)) as [|w ws]; simpl.
    + split; [|reflexivity]. intros _. split; [reflexivity|]. now apply Hnone.
    + split; [discriminate|]. intros [_ H]. apply Hnone in H. discriminate H.
  - simpl. split; [discriminate|]. intros [H _]. discriminate H.
Qed.

Lemma pet_keywords (t : string) :
  any_keyword_in ["pet"; "pets"; "pet policy"; "dog"; "cat"] t
  = any_keyword_in ["pet"; "dog"; "cat"] t.
Proof.
  unfold any_keyword_in. cbn [existsb].
  destruct (PyStr.contains "pet" t) eqn:Hp; [reflexivity|].
  destruct (PyStr.contains "pets" t) eqn:H1.
  { apply (contains_app "pet" "s") in H1. congruence. }
  destruct (PyStr.contains "pet policy" t) eqn:H2.
  { apply (contains_app "pet" " policy") in H2. congruence. }
  reflexivity.
Qed.

Lemma contains_app_r (a b s : string) :
  PyStr.contains (a +:+ b) s = true -> PyStr.contains b s = true.
Proof.
  intros H.
  assert (Hs : forall t, PyStr.startswith (a +:+ b) t = true -> PyStr.contains b t = true).
  { clear. induction a as [|x a IH]; intros t Ht.
    - simpl in Ht. destruct t; simpl; rewrite Ht; reflexivity.
    - destruct t as [|y t]; [discriminate|]. simpl in Ht.
      destruct (decide (x = y)); [|discriminate].
      simpl. apply orb_true_iff. right. now apply IH. }
  induction s as [|c s IH]; simpl in H.
  - rewrite orb_false_r in H. now apply Hs.
  - apply orb_true_iff in H as [H|H]; [now apply Hs|].
    simpl. apply orb_true_iff. right. now apply IH.
Qed.

Lemma first_button_pet (links : list Elem) :
  first_button ["view pet policy"; "pet policy"] links
  = first_button ["pet policy"] links.
Proof.
  induction links as [|b links IH]; [reflexivity|]. simpl. rewrite IH.
  unfold any_keyword_in. cbn [existsb].
  set (t := PyStr.lower (PyStr.strip (el_text b))).
  destruct (PyStr.contains "view pet policy" t) eqn:H1; [|reflexivity].
  apply (contains_app_r "view " "pet policy") in H1. now rewrite H1.
Qed.

Lemma infer_with_policy (json_loads_list : string -> option (list string))
    (out : list (string * pyval)) :
  truthy (pyget out "pets_json") = true ->
  _infer_pet_friendly json_loads_list out = true.
Proof. intros H. unfold _infer_pet_friendly. now rewrite H. Qed.

(** On a page whose text is the word [pet] after 503 capital letters I with
    dot above, the keyword is found in the lowercased text at a position
    past the end of the text, the window cut from the text is empty, and no
    policy is returned although the lowercased text holds [pet]. *)
Lemma pet_policy_empty_window :
  _collect_section_text dotted_page ["pet"; "pets"; "pet policy"; "dog"; "cat"]
  = Some EmptyString
  /\ _open_pet_policy_if_available (dp_pet_links pet_policy_page) dotted_page = VNone
  /\ any_keyword_in ["pet"; "dog"; "cat"] (PyStr.lower (pt_body dotted_page)) = true.
Proof. repeat split; vm_compute; reflexivity. Qed.

(** X14. [_open_pet_policy_if_available] follows the first link whose
    lowercased text holds "pet policy", when it has an address.  It then
    answers with the text [_collect_section_text] finds for its keywords,
    under the key [policy], unless that text is empty.  When the body of
    the page holds no capital I with dot above, the text found is never
    empty, and the answer is [None] exactly when no section matches and the
    lowercased body holds none of "pet", "dog" and "cat".  Without such a
    link the answer is [None].  A record whose detail page gives a policy
    has the flag "true" and the policy, as a JSON text, in [pets_json]. *)
Theorem pet_policy_spec (urlparse_path : string -> option string)
    (json_loads_list : string -> option (list string))
    (links : list Elem) (page : PageText) :
  let keywords := ["pet"; "pets"; "pet policy"; "dog"; "cat"] in
  first_button ["view pet policy"; "pet policy"] links
  = first_button ["pet policy"] links
  /\ (forall link,
        first_button ["pet policy"] links = Some link ->
        truthy_opt (el_href link) = true ->
        _open_pet_policy_if_available links page
        = match _collect_section_text page keywords with
          | Some policy =>
              if PyStr.nonempty policy then VDict [("policy", policy)] else VNone
          | None => VNone
          end
        /\ (no_dotted_I (pt_body page) = true ->
            (forall policy, _collect_section_text page keywords = Some policy ->
               policy <> EmptyString
               /\ _open_pet_policy_if_available links page
                  = VDict [("policy", policy)])
            /\ (_open_pet_policy_if_available links page = VNone
                <-> matching_sections keywords (pt_sections page) [] = []
                    /\ any_keyword_in ["pet"; "dog"; "cat"]
                                      (PyStr.lower (pt_body page))
                       = false)))
  /\ (first_button ["pet policy"] links = None ->
      _open_pet_policy_if_available links page = VNone)
  /\ (forall link, first_button ["pet policy"] links = Some link ->
        truthy_opt (el_href link) = false ->
        _open_pet_policy_if_available links page = VNone)
  /\ (forall city card name_el url policy,
        c_title card = Some name_el ->
        el_href name_el = Some url -> url <> EmptyString ->
        dp_nav_ok (c_detail card) = true ->
        dp_pet_links (c_detail card) = links ->
        dp_pet_page (c_detail card) = page ->
        _open_pet_policy_if_available links page = VDict [("policy", policy)] ->
        exists rec,
          scrape_card urlparse_path json_loads_list city card = Some rec
          /\ pyget rec "is_pet_friendly" = VStr "true"
          /\ pyget rec "pets_json" = VStr (Json.dumps (VDict [("policy", policy)]))).
Proof.
  intros keywords.
  assert (Hkw : Forall (fun k => k <> EmptyString) keywords).
  { unfold keywords. repeat (apply Forall_cons_2; [discriminate|]). apply Forall_nil_2. }
  split; [apply first_button_pet|]. split; [|split; [|split]].
  - intros link Hlink Href.
    split.
    { unfold _open_pet_policy_if_available.
      now rewrite first_button_pet, Hlink, Href. }
    intros Hbody.
    assert (Hsome : forall policy, _collect_section_text page keywords = Some policy ->
              policy <> EmptyString
              /\ _open_pet_policy_if_available links page = VDict [("policy", policy)]).
    { intros policy Hp.
      pose proof (collect_section_text_nonempty _ _ _ Hbody Hkw Hp) as Hne.
      split; [exact Hne|].
      unfold _open_pet_policy_if_available. rewrite first_button_pet, Hlink, Href.
      fold keywords. rewrite Hp. apply nonempty_true in Hne. now rewrite Hne. }
    split; [exact Hsome|].
    rewrite <- pet_keywords. fold keywords.
    rewrite <- collect_none_iff.
    destruct (_collect_section_text page keywords) as [policy|] eqn:Hc.
    + destruct (Hsome policy eq_refl) as [_ ->]. split; discriminate.
    + split; [reflexivity|]. intros _.
      unfold _open_pet_policy_if_available. rewrite first_button_pet, Hlink, Href.
      fold keywords. now rewrite Hc.
  - intros Hnone. unfold _open_pet_policy_if_available.
    now rewrite first_button_pet, Hnone.
  - intros link Hlink Href. unfold _open_pet_policy_if_available.
    now rewrite first_button_pet, Hlink, Href.
  - intros city card name_el url policy Htitle Hhref Hurl Hnav Hlinks Hpage Hpol.
    destruct (final_record_fields urlparse_path json_loads_list city card name_el Htitle)
      as (rec & Hrec & Hjson & Hflag & _).
    exists rec. split; [exact Hrec|].
    rewrite Hhref in Hjson, Hflag.
    change (default EmptyString (Some url)) with url in Hjson, Hflag.
    assert (Hne : PyStr.nonempty url = true) by (now apply nonempty_true).
    destruct (detail_fields json_loads_list url (c_detail card) Hne Hnav)
      as (_ & _ & _ & _ & _ & _ & _ & Hpj & Hpf).
    rewrite Hlinks, Hpage, Hpol in Hpj.
    split.
    + rewrite Hflag, Hpf, infer_with_policy; [reflexivity|]. now rewrite Hpj.
    + rewrite (Hjson "pets_json") by (unfold json_keys; right; left).
      rewrite Hpj. reflexivity.
Qed.

Lemma pet_policy_spec_witness :
  exists rec,
    scrape_card example_url_path no_json_loads miami (pool_card pet_policy_page)
    = Some rec
    /\ pyget rec "is_pet_friendly" = VStr "true"
    /\ pyget rec "pets_json"
       = VStr (Json.dumps (VDict [("policy", "Dogs up to 25 lb are welcome.")])).
Proof.
  assert (Hpol : _open_pet_policy_if_available (dp_pet_links pet_policy_page)
                   (dp_pet_page pet_policy_page)
                 = VDict [("policy", "Dogs up to 25 lb are welcome.")])
    by (vm_compute; reflexivity).
  assert (Hu : "https://www.ihg.com/hotels/us/en/miami/miaep/hoteldetail" <> EmptyString)
    by discriminate.
  exact (proj2 (proj2 (proj2 (proj2
           (pet_policy_spec example_url_path no_json_loads
              (dp_pet_links pet_policy_page) (dp_pet_page pet_policy_page)))))
           miami (pool_card pet_policy_page)
           (mkElem "Hotel X"
              (Some "https://www.ihg.com/hotels/us/en/miami/miaep/hoteldetail"))
           "https://www.ihg.com/hotels/us/en/miami/miaep/hoteldetail"
           "Dogs up to 25 lb are welcome."
           eq_refl eq_refl Hu eq_refl eq_refl eq_refl Hpol).
Defined.

(** ** The link scraper of [testing.py] *)

Lemma row_pair_link_row (title href now : string) :
  row_pair (link_row title href now) = (title, href).
Proof. reflexivity. Qed.

Lemma links_loop_pairs (elements : list (option Elem * string)) :
  forall seen_c seen_s results,
    (forall u, u ∈ seen_c <-> u ∈ seen_s) ->
    map row_pair (links_loop elements seen_c results)
    = map row_pair results
      ++ dedup_by_href seen_s (collect_links (omap fst elements)).
Proof.
  induction elements as [|[[el|] now] elements IH]; intros seen_c seen_s results Hinv.
  - simpl. now rewrite app_nil_r.
  - simpl. unfold collect_links. simpl. fold (collect_links (omap fst elements)).
    destruct (el_href el) as [href|]; [|now apply IH].
    destruct (PyStr.nonempty href) eqn:Hne; simpl; [|now apply IH].
    destruct (bool_decide (href ∈ seen_c)) eqn:Hc.
    + apply bool_decide_eq_true in Hc.
      rewrite (bool_decide_eq_true_2 (href ∈ seen_s)) by (now apply Hinv).
      now apply IH.
    + apply bool_decide_eq_false in Hc.
      rewrite (bool_decide_eq_false_2 (href ∈ seen_s)) by (now rewrite <- Hinv).
      rewrite (IH (seen_c ++ [href]) (href :: seen_s)).
      * rewrite map_app, <- app_assoc. reflexivity.
      * intros u. rewrite elem_of_app, list_elem_of_singleton, elem_of_cons.
        rewrite (Hinv u). tauto.
  - simpl. now apply IH.
Qed.

Lemma links_loop_rows (P : list (string * string) -> Prop)
    (elements : list (option Elem * string)) :
  (forall el now href,
      (Some el, now) ∈ elements -> el_href el = Some href -> href <> EmptyString ->
      P (link_row (PyStr.strip (el_text el)) href now)) ->
  forall seen results,
    Forall P results -> Forall P (links_loop elements seen results).
Proof.
  induction elements as [|[[el|] now] elements IH]; intros HP seen results Hres.
  - exact Hres.
  - assert (HP' : forall el0 now0 href,
              (Some el0, now0) ∈ elements -> el_href el0 = Some href ->
              href <> EmptyString ->
              P (link_row (PyStr.strip (el_text el0)) href now0)).
    { intros el0 now0 href Hin. apply HP. now right. }
    simpl. destruct (el_href el) as [href|] eqn:Hh; [|now apply IH].
    destruct (PyStr.nonempty href) eqn:Hne; simpl; [|now apply IH].
    destruct (bool_decide (href ∈ seen)); [now apply IH|].
    apply IH; [exact HP'|]. apply Forall_app. split; [exact Hres|].
    apply Forall_cons_2; [|apply Forall_nil_2].
    apply (HP el now href); [now left | exact Hh | now apply nonempty_true].
  - simpl. apply IH; [|exact Hres].
    intros el0 now0 href Hin. apply HP. now right.
Qed.

Lemma omap_fst_readable (elements : list (option Elem * string)) (links : list Elem) :
  map fst elements = map Some links -> omap fst elements = links.
Proof.
  revert links. induction elements as [|[el now] elements IH]; intros links H.
  - destruct links; [reflexivity | discriminate H].
  - destruct links as [|l links]; [discriminate H|].
    simpl in H. injection H as -> H. rewrite <- (IH links H). reflexivity.
Qed.

(** X15. [scrape_links] returns nothing when the wait times out.  Otherwise
    each row it returns is built from an element that could be read and has
    a non-empty address: its stripped text, its address, the constant source
    and the time of reading.  The (title, address) pairs of the rows are
    those of the readable elements with an address, the first one kept for
    each address; so no address comes twice and every such address is there.
    When every element can be read, the city enumerator of the pipeline, on
    the same elements, returns exactly the pairs that pass its filter. *)
Theorem scrape_links_spec (elements : list (option Elem * string)) :
  let rows := scrape_links true elements in
  scrape_links false elements = []
  /\ Forall (fun r => exists el now href,
                 (Some el, now) ∈ elements /\ el_href el = Some href
                 /\ href <> EmptyString
                 /\ r = link_row (PyStr.strip (el_text el)) href now) rows
  /\ map row_pair rows = dedup_by_href [] (collect_links (omap fst elements))
  /\ NoDup (map row_pair rows).*2
  /\ (forall el now href,
        (Some el, now) ∈ elements -> el_href el = Some href ->
        href <> EmptyString -> href ∈ (map row_pair rows).*2)
  /\ (forall links,
        map fst elements = map Some links ->
        scrape_city_urls links
        = city_of_pair <$>
            filter (fun p => looks_like_city_url (snd p) = true)
                   (map row_pair rows)).
Proof.
  intros rows.
  assert (Hpairs : map row_pair rows
                   = dedup_by_href [] (collect_links (omap fst elements))).
  { unfold rows, scrape_links. now rewrite (links_loop_pairs elements [] [] []). }
  split; [reflexivity|]. split; [|split; [exact Hpairs|split; [|split]]].
  - unfold rows, scrape_links. apply links_loop_rows; [|apply Forall_nil_2].
    intros el now href Hin Hh Hne. now exists el, now, href.
  - rewrite Hpairs. apply dedup_by_href_nodup.
  - intros el now href Hin Hh Hne. rewrite Hpairs.
    assert (Hc : (PyStr.strip (el_text el), href) ∈ collect_links (omap fst elements)).
    { apply list_elem_of_omap. exists el. split.
      - apply list_elem_of_omap. exists (Some el, now). split; [exact Hin | reflexivity].
      - rewrite Hh. apply nonempty_true in Hne. now rewrite Hne. }
    destruct (dedup_by_href_complete _ [] _ Hc) as [H|H]; [inversion H | exact H].
  - intros links Hread. rewrite Hpairs.
    pose proof (omap_fst_readable _ _ Hread) as Hl. rewrite Hl.
    unfold scrape_city_urls.
    rewrite (city_loop_spec _ [] [] []); [reflexivity|]. intros u _. reflexivity.
Qed.

(** Of [landing_elements] the first is stale and is passed over; the brand
    page is among the links returned.  With every element readable the city
    enumerator keeps the links that pass its filter. *)
Lemma scrape_links_spec_witness :
  "https://www.ihg.com/holidayinn"
    ∈ (map row_pair (scrape_links true landing_elements)).*2
  /\ scrape_city_urls landing_links
     = city_of_pair <$>
         filter (fun p => looks_like_city_url (snd p) = true)
                (map row_pair (scrape_links true readable_elements)).
Proof.
  pose proof (scrape_links_spec landing_elements) as (_ & _ & _ & _ & Hin & _).
  pose proof (scrape_links_spec readable_elements) as (_ & _ & _ & _ & _ & Hcity).
  split.
  - apply (Hin (mkElem "Brand" (Some "https://www.ihg.com/holidayinn"))
               "2025-01-01T10:00:00").
    + vm_compute. do 5 right. left.
    + reflexivity.
    + discriminate.
  - apply Hcity. reflexivity.
Defined.

Lemma writerows_uniform (fieldnames : list string)
    (rows : list (list (string * string))) :
  NoDup fieldnames ->
  Forall (fun r => PyDict.keys r = fieldnames) rows ->
  writerows fieldnames rows = (map PyDict.values rows, true).
Proof.
  intros Hnd. induction 1 as [|r rows Hr _ IH]; [reflexivity|].
  simpl. unfold dict_to_list.
  assert (Hall : forallb (fun k => bool_decide (k ∈ fieldnames)) (PyDict.keys r) = true).
  { apply forallb_forall. intros k Hk. apply bool_decide_eq_true.
    rewrite <- Hr. now apply list_elem_of_In. }
  rewrite Hall, IH. f_equal. f_equal.
  rewrite <- Hr. rewrite <- Hr in Hnd. clear -Hnd.
  unfold PyDict.keys, PyDict.values in *.
  induction r as [|[k v] r IH]; [reflexivity|].
  simpl in *. apply NoDup_cons in Hnd as [Hk Hnd].
  destruct (decide (k = k)); [|congruence]. simpl. f_equal.
  rewrite <- IH by exact Hnd. apply map_ext_in. intros j Hj.
  destruct (decide (k = j)) as [->|]; [|reflexivity].
  apply list_elem_of_In in Hj. contradiction.
Qed.

(** X16. [DataWriter.save_csv] leaves the document alone when there is no
    row, while the JSON document is written all the same; rows that all
    have the keys of the first one, in its order, are written whole, each as
    its values.  So the program of [testing.py] writes one CSV row per link
    under the header [title,url,source,scraped_at] and the same links to the
    JSON document; without links it writes [[]] to the JSON document and
    leaves the CSV document as it was. *)
Theorem save_links_spec (wait_ok : bool) (elements : list (option Elem * string))
    (fs : LinkFiles) :
  let links := scrape_links wait_ok elements in
  let out := testing_main wait_ok elements fs in
  (forall file, save_csv [] file = (file, true))
  /\ (forall first rest file,
        PyDict.wf first ->
        Forall (fun r => PyDict.keys r = PyDict.keys first) rest ->
        save_csv (first :: rest) file
        = (Some (PyDict.keys first, map PyDict.values (first :: rest)), true))
  /\ links_json out = Some links
  /\ (links = [] -> links_csv out = links_csv fs)
  /\ (links <> [] ->
      links_csv out
      = Some (["title"; "url"; "source"; "scraped_at"], map PyDict.values links)).
Proof.
  intros links out.
  assert (Hgen : forall first rest file,
            PyDict.wf first ->
            Forall (fun r => PyDict.keys r = PyDict.keys first) rest ->
            save_csv (first :: rest) file
            = (Some (PyDict.keys first, map PyDict.values (first :: rest)), true)).
  { intros first rest file Hwf Hrest. unfold save_csv.
    rewrite (writerows_uniform (PyDict.keys first) (first :: rest) Hwf);
      [reflexivity|]. now apply Forall_cons_2. }
  assert (Hrows : Forall (fun r => PyDict.keys r
                                   = ["title"; "url"; "source"; "scraped_at"]) links).
  { unfold links, scrape_links. destruct wait_ok; [|apply Forall_nil_2].
    apply links_loop_rows; [|apply Forall_nil_2]. intros; reflexivity. }
  split; [reflexivity|]. split; [exact Hgen|].
  unfold out, testing_main. fold links.
  destruct links as [|first rest] eqn:Hl.
  - simpl. split; [reflexivity|]. split; [reflexivity | congruence].
  - apply Forall_cons in Hrows as [Hfirst Hrest].
    rewrite (Hgen first rest (links_csv fs)).
    + simpl. split; [reflexivity|]. split; [discriminate|]. intros _.
      now rewrite Hfirst.
    + unfold PyDict.wf. rewrite Hfirst. compute_done.
    + rewrite Hfirst. exact Hrest.
Qed.

Lemma save_links_spec_witness :
  links_csv (testing_main false landing_elements (mkLinkFiles None None)) = None
  /\ links_json (testing_main false landing_elements (mkLinkFiles None None))
     = Some [].
Proof.
  pose proof (save_links_spec false landing_elements (mkLinkFiles None None))
    as (_ & _ & Hjson & Hcsv & _).
  split; [exact (Hcsv eq_refl) | exact Hjson].
Defined.

(** ** The city list *)

(** X17. [load_or_create_city_csv] returns the rows of the city document
    when it has any, without looking at the landing page and without
    writing.  Otherwise it returns what [scrape_city_urls] finds and writes
    that to the document, even when it is empty.  So a list once found is
    kept: a later call returns it whatever the landing page shows by then;
    an empty list is looked up again on every call. *)
Theorem load_or_create_city_csv_spec (city_csv : option (list CityRef))
    (links : list Elem) :
  (forall row rows, city_csv = Some (row :: rows) ->
     load_or_create_city_csv city_csv links = (row :: rows, city_csv))
  /\ (city_csv = None \/ city_csv = Some [] ->
      load_or_create_city_csv city_csv links
      = (scrape_city_urls links, Some (scrape_city_urls links)))
  /\ (forall links',
        let first := load_or_create_city_csv city_csv links in
        let second := load_or_create_city_csv (snd first) links' in
        snd first = Some (fst first)
        /\ (fst first <> [] -> second = first)
        /\ (fst first = [] ->
            second = (scrape_city_urls links', Some (scrape_city_urls links')))).
Proof.
  split; [|split].
  - intros row rows ->. reflexivity.
  - intros [-> | ->]; reflexivity.
  - intros links'. cbv zeta.
    destruct city_csv as [[|row rows]|]; simpl.
    + destruct (scrape_city_urls links) as [|c cs]; simpl;
        (split; [reflexivity|]); split; congruence.
    + split; [reflexivity|]. split; [reflexivity | congruence].
    + destruct (scrape_city_urls links) as [|c cs]; simpl;
        (split; [reflexivity|]); split; congruence.
Qed.

Lemma load_or_create_city_csv_spec_witness :
  load_or_create_city_csv
    (snd (load_or_create_city_csv None landing_links)) []
  = load_or_create_city_csv None landing_links.
Proof.
  apply (proj1 (proj2 (proj2 (proj2 (load_or_create_city_csv_spec None landing_links))
                         []))).
  vm_compute. discriminate.
Defined.

(** ** The price of a card *)

Section Strip.

Variable p : char -> bool.

Lemma rstrip_by_idem (s : string) :
  PyStr.rstrip_by p (PyStr.rstrip_by p s) = PyStr.rstrip_by p s.
Proof.
  induction s as [|c s IH]; [reflexivity|]. simpl.
  destruct (PyStr.rstrip_by p s) as [|d r] eqn:E.
  - destruct (p c) eqn:Hc; simpl; [reflexivity | now rewrite Hc].
  - simpl. simpl in IH. rewrite IH. reflexivity.
Qed.

Lemma lstrip_by_head (s : string) :
  match PyStr.lstrip_by p s with
  | EmptyString => True
  | String c _ => p c = false
  end.
Proof.
  induction s as [|c s IH]; simpl; [exact I|].
  destruct (p c) eqn:Hc; [exact IH | exact Hc].
Qed.

Lemma rstrip_by_keeps_head (c : char) (s : string) :
  p c = false -> exists r, PyStr.rstrip_by p (String c s) = String c r.
Proof.
  intros Hc. simpl. destruct (PyStr.rstrip_by p s) as [|d r].
  - rewrite Hc. now exists EmptyString.
  - now exists (String d r).
Qed.

Lemma strip_by_fixed (s : string) :
  PyStr.lstrip_by p (PyStr.strip_by p s) = PyStr.strip_by p s
  /\ PyStr.rstrip_by p (PyStr.strip_by p s) = PyStr.strip_by p s.
Proof.
  unfold PyStr.strip_by. split; [|apply rstrip_by_idem].
  pose proof (lstrip_by_head s) as Hh.
  destruct (PyStr.lstrip_by p s) as [|c t]; [reflexivity|].
  destruct (rstrip_by_keeps_head c t Hh) as [r ->]. simpl. now rewrite Hh.
Qed.

Lemma strip_by_idem (s : string) :
  PyStr.strip_by p (PyStr.strip_by p s) = PyStr.strip_by p s.
Proof.
  destruct (strip_by_fixed s) as [Hl Hr].
  unfold PyStr.strip_by at 1. now rewrite Hl, Hr.
Qed.

Lemma lstrip_by_app (a b : string) :
  a <> EmptyString -> PyStr.lstrip_by p a = a ->
  PyStr.lstrip_by p (a +:+ b) = a +:+ b.
Proof.
  intros Hne Ha. destruct a as [|c a]; [congruence|].
  pose proof (lstrip_by_head (String c a)) as Hh. rewrite Ha in Hh.
  simpl. now rewrite Hh.
Qed.

Lemma rstrip_by_app (a b : string) :
  b <> EmptyString -> PyStr.rstrip_by p b = b ->
  PyStr.rstrip_by p (a +:+ b) = a +:+ b.
Proof.
  intros Hne Hb. induction a as [|c a IH]; [exact Hb|].
  simpl. rewrite IH. destruct (a +:+ b) eqn:E; [|reflexivity].
  destruct a; [simpl in E; congruence | discriminate E].
Qed.

Lemma rstrip_by_drop_last (a : string) (x : char) :
  p x = true ->
  PyStr.rstrip_by p (a +:+ String x EmptyString) = PyStr.rstrip_by p a.
Proof.
  intros Hx. induction a as [|c a IH]; simpl; [now rewrite Hx|].
  now rewrite IH.
Qed.

End Strip.

Lemma strip_joined (a b : string) :
  a <> EmptyString -> b <> EmptyString ->
  PyStr.strip a = a -> PyStr.strip b = b ->
  PyStr.strip (a +:+ " " +:+ b) = a +:+ " " +:+ b.
Proof.
  intros Ha Hb Hsa Hsb.
  assert (Hla : PyStr.lstrip_by PyStr.is_space a = a).
  { rewrite <- Hsa. apply strip_by_fixed. }
  assert (Hrb : PyStr.rstrip_by PyStr.is_space b = b).
  { rewrite <- Hsb. apply strip_by_fixed. }
  unfold PyStr.strip, PyStr.strip_by.
  rewrite lstrip_by_app by assumption.
  rewrite <- sapp_assoc. apply rstrip_by_app; assumption.
Qed.

Lemma strip_trailing_space (a : string) :
  PyStr.strip a = a -> PyStr.strip (a +:+ " ") = a.
Proof.
  intros Hsa. destruct a as [|c a]; [reflexivity|].
  assert (Hla : PyStr.lstrip_by PyStr.is_space (String c a) = String c a).
  { rewrite <- Hsa. apply strip_by_fixed. }
  assert (Hra : PyStr.rstrip_by PyStr.is_space (String c a) = String c a).
  { rewrite <- Hsa. apply strip_by_fixed. }
  unfold PyStr.strip, PyStr.strip_by.
  rewrite lstrip_by_app by (discriminate || assumption).
  rewrite rstrip_by_drop_last by reflexivity. exact Hra.
Qed.

Lemma card_price_closed (price_value currency : option string) :
  card_price (cleanup_price (text_of price_value)) (text_of currency)
  = price_string price_value currency.
Proof.
  unfold price_string, text_of, cleanup_price.
  destruct price_value as [raw|]; [|reflexivity]. simpl.
  destruct (PyStr.nonempty (PyStr.strip raw)) eqn:Hp; [|reflexivity].
  unfold card_price, truthy_opt.
  assert (Hid : PyStr.strip (PyStr.strip raw) = PyStr.strip raw)
    by apply strip_by_idem.
  rewrite Hid, Hp. f_equal.
  apply nonempty_true in Hp. unfold PyStr.format_opt at 1.
  destruct currency as [cur|]; simpl.
  - destruct (PyStr.nonempty (PyStr.strip cur)) eqn:Hc.
    + apply nonempty_true in Hc.
      apply strip_joined; try assumption. apply strip_by_idem.
    + apply nonempty_false in Hc. rewrite Hc.
      change (" " +:+ EmptyString) with " ". rewrite sapp_nil_r.
      now apply strip_trailing_space.
  - apply (strip_joined (PyStr.strip raw) "None"); try assumption;
      [discriminate | reflexivity].
Qed.

(** X18. The [card_price] of a record is [None] when the card shows no price
    text.  Otherwise it is the stripped price text, followed by a space and
    the stripped currency text when the currency element has one, by nothing
    when that text is blank, and by the word [None] when the card has no
    currency element. *)
Theorem card_price_spec (urlparse_path : string -> option string)
    (json_loads_list : string -> option (list string))
    (city : CityRef) (card : Card) :
  card_price (cleanup_price (text_of (c_price_value card))) (text_of (c_currency card))
  = price_string (c_price_value card) (c_currency card)
  /\ (forall name_el, c_title card = Some name_el ->
        exists rec,
          scrape_card urlparse_path json_loads_list city card = Some rec
          /\ pyget rec "card_price"
             = price_string (c_price_value card) (c_currency card))
  /\ (forall raw, c_price_value card = Some raw ->
        PyStr.strip raw <> EmptyString -> c_currency card = None ->
        price_string (c_price_value card) (c_currency card)
        = VStr (PyStr.strip raw +:+ " None")).
Proof.
  split; [apply card_price_closed|]. split.
  - intros name_el Htitle.
    destruct (final_record_fields urlparse_path json_loads_list city card name_el Htitle)
      as (rec & Hrec & _ & _ & Hcard).
    exists rec. split; [exact Hrec|].
    rewrite (Hcard "card_price") by (do 3 right; left).
    rewrite <- card_price_closed. reflexivity.
  - intros raw Hraw Hne Hcur. unfold price_string. rewrite Hraw, Hcur.
    apply nonempty_true in Hne. now rewrite Hne.
Qed.

Lemma card_price_spec_witness :
  exists rec,
    scrape_card example_url_path no_json_loads miami no_currency_card = Some rec
    /\ pyget rec "card_price" = VStr "129 None".
Proof.
  pose proof (card_price_spec example_url_path no_json_loads miami no_currency_card)
    as (_ & Hrec & Hnone).
  destruct (Hrec (mkElem "Hotel X"
                    (Some "https://www.ihg.com/hotels/us/en/miami/miaep/hoteldetail"))
                 eq_refl) as (rec & Hsome & Hprice).
  exists rec. split; [exact Hsome|].
  rewrite Hprice. rewrite (Hnone " 129 " eq_refl); [reflexivity | | reflexivity].
  vm_compute. discriminate.
Defined.

(** ** Keywords that never count *)

Lemma contains_needle (k k' t : string) :
  substring_of k k' -> PyStr.contains k' t = true -> PyStr.contains k t = true.
Proof.
  intros (pre & post & ->) H.
  apply contains_app_r in H. now apply contains_app in H.
Qed.

Lemma any_keyword_drop (pre mid post : list string) (k k' t : string) :
  substring_of k k' ->
  any_keyword_in (pre ++ k :: mid ++ k' :: post) t
  = any_keyword_in (pre ++ k :: mid ++ post) t.
Proof.
  intros Hsub. unfold any_keyword_in.
  rewrite !existsb_app. cbn [existsb]. rewrite !existsb_app. cbn [existsb].
  destruct (PyStr.contains k t) eqn:Hk; [reflexivity|].
  destruct (PyStr.contains k' t) eqn:Hk'; [|reflexivity].
  apply (contains_needle k k' t Hsub) in Hk'. congruence.
Qed.

Lemma matching_sections_ext (a b : list string) (sections : list string) :
  (forall t, any_keyword_in a t = any_keyword_in b t) ->
  forall texts, matching_sections a sections texts = matching_sections b sections texts.
Proof.
  intros Hab. induction sections as [|sec sections IH]; intros texts; [reflexivity|].
  simpl. rewrite Hab.
  destruct (any_keyword_in b (PyStr.lower sec)); [|apply IH].
  destruct (PyStr.nonempty (PyStr.strip sec) && negb (bool_decide (PyStr.strip sec ∈ texts)));
    apply IH.
Qed.

Lemma keyword_window_drop (pre mid post : list string) (k k' full : string) :
  substring_of k k' ->
  keyword_window (pre ++ k :: mid ++ k' :: post) full
  = keyword_window (pre ++ k :: mid ++ post) full.
Proof.
  intros Hsub. induction pre as [|x pre IH]; simpl.
  - destruct (PyStr.find k (PyStr.lower full)) eqn:Hk; [reflexivity|].
    assert (Hk' : PyStr.find k' (PyStr.lower full) = None).
    { apply find_contains. apply find_contains in Hk.
      destruct (PyStr.contains k' (PyStr.lower full)) eqn:E; [|reflexivity].
      apply (contains_needle k k' _ Hsub) in E. congruence. }
    induction mid as [|y mid IHm]; simpl.
    + now rewrite Hk'.
    + destruct (PyStr.find y (PyStr.lower full)); [reflexivity | exact IHm].
  - destruct (PyStr.find x (PyStr.lower full)); [reflexivity | exact IH].
Qed.

Lemma collect_drop_keyword (page : PageText) (pre mid post : list string)
    (k k' : string) :
  substring_of k k' ->
  _collect_section_text page (pre ++ k :: mid ++ k' :: post)
  = _collect_section_text page (pre ++ k :: mid ++ post).
Proof.
  intros Hsub. unfold _collect_section_text.
  rewrite (matching_sections_ext (pre ++ k :: mid ++ k' :: post)
             (pre ++ k :: mid ++ post))
    by (intros t; now apply any_keyword_drop).
  now rewrite keyword_window_drop.
Qed.

(** X19. A keyword of [_collect_section_text] that holds an earlier keyword
    of the list never changes the answer.  So the parking probe searches
    for "parking" and "valet" alone, the airport probe for "airport" and
    "shuttle", and the pet policy for "pet", "dog" and "cat". *)
Theorem redundant_keywords (page : PageText) :
  (forall pre k mid k' post,
     substring_of k k' ->
     _collect_section_text page (pre ++ k :: mid ++ k' :: post)
     = _collect_section_text page (pre ++ k :: mid ++ post))
  /\ _collect_section_text page ["parking"; "valet"; "self-parking"]
     = _collect_section_text page ["parking"; "valet"]
  /\ _collect_section_text page ["airport"; "airports"; "shuttle"]
     = _collect_section_text page ["airport"; "shuttle"]
  /\ _collect_section_text page ["pet"; "pets"; "pet policy"; "dog"; "cat"]
     = _collect_section_text page ["pet"; "dog"; "cat"].
Proof.
  split; [intros; now apply collect_drop_keyword|].
  split; [|split].
  - apply (collect_drop_keyword page [] ["valet"] [] "parking" "self-parking").
    now exists "self-", EmptyString.
  - apply (collect_drop_keyword page [] [] ["shuttle"] "airport" "airports").
    now exists EmptyString, "s".
  - transitivity (_collect_section_text page ["pet"; "pet policy"; "dog"; "cat"]).
    + apply (collect_drop_keyword page [] [] ["pet policy"; "dog"; "cat"] "pet" "pets").
      now exists EmptyString, "s".
    + apply (collect_drop_keyword page [] [] ["dog"; "cat"] "pet" "pet policy").
      now exists EmptyString, " policy".
Qed.

Lemma redundant_keywords_witness :
  _collect_section_text (mkPageText [] "Free self-parking on site")
    ["valet"; "park"; "self-parking"]
  = _collect_section_text (mkPageText [] "Free self-parking on site")
      ["valet"; "park"].
Proof.
  apply (proj1 (redundant_keywords (mkPageText [] "Free self-parking on site"))
           ["valet"] "park" [] "self-parking" []).
  now exists "self-", "ing".
Defined.
